(** * Jarvis assistant: memory, truncation and tool dispatch

    A shallow embedding of the Python sources under [lambda/]:
    [agent/config.py], [agent/core.py], [agent/prompts.py],
    [memory/models.py], [memory/short_term.py], [memory/long_term.py],
    [storage/supabase_client.py], [tools/__init__.py], [tools/base.py],
    [tools/calculator.py] and [lambda_function.py].

    Python values are modelled as follows.
    - [int] is [Z]; a [str] is the list of its code points ([list N]);
      a [float] is an IEEE 754 binary64 number ([spec_float]).
    - A [datetime] is the number of microseconds since the epoch (naive UTC,
      as produced by [datetime.utcnow()]); a timestamp read from a row is
      naive or aware of its offset ([timestamp]).
    - [None]-able fields are [option]s, enums are inductive types, a
      [dict] used as a registry is a [gmap], a [set] is a [gset].
    - An object mutated in place is threaded through as a value; the
      conversation object is owned by the short-term memory only.
    - The methods of the agent are programs over the calls that leave the
      code (clock, store, completion service, tools, Extractor), with the
      agent state passed along and exceptions as results; they are run
      against an arbitrary environment that answers the calls. *)

From Stdlib Require Import ZArith Ascii String List Lia SpecFloat.
From stdpp Require Import gmap strings list sorting.

Local Open Scope Z_scope.

(** ** Python strings and slices *)

Module Py.

Definition char := N.
Definition str := list char.

(** A string literal. *)
Definition lit (s : string) : str := map N_of_ascii (list_ascii_of_string s).

(** A character literal, as in ['.']. *)
Definition chr (a : ascii) : char := N_of_ascii a.

(** [len(l)] as a Python [int]. *)
Definition len {A} (l : list A) : Z := Z.of_nat (length l).

(** A slice bound is normalised as CPython does: a negative bound counts
    from the end, and the result is clamped to [0, len]. *)
Definition slice_index (n i : Z) : Z :=
  if i <? 0 then Z.max (i + n) 0 else Z.min i n.

(** [l[i:]] *)
Definition slice_from {A} (i : Z) (l : list A) : list A :=
  drop (Z.to_nat (slice_index (len l) i)) l.

(** [l[:j]] *)
Definition slice_to {A} (j : Z) (l : list A) : list A :=
  take (Z.to_nat (slice_index (len l) j)) l.

End Py.

Abbreviation str := Py.str.
Abbreviation datetime := Z.

(** ** memory/models.py: messages and conversations *)

Record Message := mkMessage {
  msg_id : option str;
  msg_role : str;
  msg_content : str;
  msg_tool_name : option str;
  msg_tool_call_id : option str;
  msg_timestamp : datetime
}.

Record Conversation := mkConversation {
  conv_id : option str;
  conv_user_id : str;
  conv_alexa_session_id : option str;
  messages : list Message;
  started_at : datetime;
  ended_at : option datetime;
  summary : option str
}.

Definition set_messages (c : Conversation) (ms : list Message) : Conversation :=
  mkConversation (conv_id c) (conv_user_id c) (conv_alexa_session_id c)
                 ms (started_at c) (ended_at c) (summary c).

(** ** memory/short_term.py *)

Record ShortTermMemory := mkShortTermMemory {
  max_messages : Z;
  current_conversation : option Conversation;
  _message_buffer : list Message
}.

(** The arguments of one [add_message] call, with the clock reading
    [datetime.utcnow()] taken while the message is built. *)
Record add_args := mkAddArgs {
  arg_role : str;
  arg_content : str;
  arg_tool_name : option str;
  arg_tool_call_id : option str;
  arg_now : datetime
}.

Definition new_message (a : add_args) : Message :=
  mkMessage None (arg_role a) (arg_content a) (arg_tool_name a)
            (arg_tool_call_id a) (arg_now a).

(** [ShortTermMemory.add_message]: returns the message and the updated
    memory. *)
Definition add_message (a : add_args) (stm : ShortTermMemory)
  : Message * ShortTermMemory :=
  let message := new_message a in
  match current_conversation stm with
  | Some conv =>
      let appended := messages conv ++ [message] in
      let buffer := _message_buffer stm ++ [message] in
      let kept :=
        if Py.len appended >? max_messages stm
        then Py.slice_from (- max_messages stm) appended
        else appended in
      (message,
       mkShortTermMemory (max_messages stm)
                         (Some (set_messages conv kept)) buffer)
  | None => (message, stm)
  end.

(** The stored log of the active conversation (empty when there is none). *)
Definition stored_log (stm : ShortTermMemory) : list Message :=
  match current_conversation stm with
  | Some conv => messages conv
  | None => []
  end.

(** A sequence of [add_message] calls. *)
Definition add_messages (calls : list add_args) (stm : ShortTermMemory)
  : ShortTermMemory :=
  fold_left (fun s a => snd (add_message a s)) calls stm.

(** ** agent/config.py

    The agent settings read from the environment; each is parsed with
    [int(...)], so any integer can be configured. *)

Record Settings := mkSettings {
  openai_model : str;
  max_conversation_messages : Z;
  max_response_length : Z;
  default_user_id : str
}.

(** The values used when the environment sets nothing. *)
Definition default_settings : Settings :=
  mkSettings (Py.lit "gpt-4o") 20 300 (Py.lit "default-family-user").

(** [ShortTermMemory.__init__] *)
Definition ShortTermMemory_init (settings : Settings) : ShortTermMemory :=
  mkShortTermMemory (max_conversation_messages settings) None [].

(** ** agent/core.py: voice-length truncation *)

(** [s.rfind(c)]: the highest index holding [c], or -1. [i] is the index
    of the head of [s]. *)
Fixpoint rfind_from (c : Py.char) (s : str) (i : Z) : Z :=
  match s with
  | [] => -1
  | x :: rest =>
      let later := rfind_from c rest (i + 1) in
      if later >=? 0 then later
      else if N.eqb x c then i else -1
  end.

Definition rfind (c : Py.char) (s : str) : Z := rfind_from c s 0.

(** [JarvisAgent._truncate_for_voice] *)
Definition _truncate_for_voice (settings : Settings) (text : str) : str :=
  if Py.len text <=? max_response_length settings then text
  else
    let truncated := Py.slice_to (max_response_length settings) text in
    let last_period := rfind (Py.chr ".") truncated in
    let last_question := rfind (Py.chr "?") truncated in
    let last_exclaim := rfind (Py.chr "!") truncated in
    let break_point :=
      Z.max (Z.max last_period last_question) last_exclaim in
    if break_point >? max_response_length settings / 2
    then Py.slice_to (break_point + 1) text
    else truncated ++ Py.lit "...".

(** Sentence-ending punctuation, as the specification names it. *)
Definition sentence_end (c : Py.char) : bool :=
  N.eqb c (Py.chr ".") || N.eqb c (Py.chr "?") || N.eqb c (Py.chr "!").

(** ** memory/models.py: enumerations *)

Inductive UserRole := ADULT | CHILD | ELDERLY | MAID | GUEST.

#[global] Instance UserRole_eq_dec : EqDecision UserRole.
Proof. solve_decision. Defined.

Definition UserRole_value (r : UserRole) : str :=
  match r with
  | ADULT => Py.lit "adult"
  | CHILD => Py.lit "child"
  | ELDERLY => Py.lit "elderly"
  | MAID => Py.lit "maid"
  | GUEST => Py.lit "guest"
  end.

Definition UserRole_members : list UserRole :=
  [ADULT; CHILD; ELDERLY; MAID; GUEST].

Inductive Importance := LOW | NORMAL | HIGH | CRITICAL.

#[global] Instance Importance_eq_dec : EqDecision Importance.
Proof. solve_decision. Defined.

Definition Importance_value (i : Importance) : str :=
  match i with
  | LOW => Py.lit "low"
  | NORMAL => Py.lit "normal"
  | HIGH => Py.lit "high"
  | CRITICAL => Py.lit "critical"
  end.

Definition Importance_members : list Importance :=
  [LOW; NORMAL; HIGH; CRITICAL].

(** [Enum(value)]: the member carrying that value; [None] stands for the
    [ValueError] raised (a validation failure in a pydantic field). *)
Definition enum_of_value {E} (value_of : E -> str) (members : list E)
    (v : str) : option E :=
  find (fun m => bool_decide (value_of m = v)) members.

Definition UserRole_of_value : str -> option UserRole :=
  enum_of_value UserRole_value UserRole_members.

Definition Importance_of_value : str -> option Importance :=
  enum_of_value Importance_value Importance_members.

(** The role set as the specification lists it. *)
Definition spec_roles : list str :=
  [Py.lit "adult"; Py.lit "child"; Py.lit "elderly"; Py.lit "staff";
   Py.lit "guest"].

(** [UserProfile]; the fields [voice_id], [daily_order_limit],
    [medical_info], [created_at] and [last_interaction], which the
    modelled methods neither read nor write, are left out. *)
Record UserProfile := mkUserProfile {
  profile_id : str;
  user_name : str;
  role : UserRole;
  age : option Z;
  preferred_language : str;
  preferred_response_length : str;
  requires_approval : bool;
  can_approve_orders : bool;
  total_conversations : Z
}.

(** [UserProfile(id=..., name=..., role=..., can_approve_orders=...)] with
    the remaining fields at their declared defaults. *)
Definition new_UserProfile (id name : str) (r : UserRole) (approve : bool)
  : UserProfile :=
  mkUserProfile id name r None (Py.lit "english") (Py.lit "medium")
                false approve 0.

(** Validation of the [role] field of a row read from the store
    ([_row_to_user]): the profile is built only when the value names a
    member. *)
Definition validate_role (v : str) : option UserRole := UserRole_of_value v.

(** A value of a [datetime] field read from a row: naive, or aware of its
    offset from UTC (an ISO string that carries one); [t] is the instant
    in microseconds. *)
Inductive timestamp : Type :=
| Naive (t : datetime)
| Aware (t : datetime).

Record UserFact := mkUserFact {
  fact_id : option str;
  fact_user_id : str;
  fact : str;
  category : str;
  importance : Importance;
  source_conversation : option str;
  created_at : datetime;
  last_referenced : option timestamp;
  reference_count : Z
}.

(** ** storage/supabase_client.py: relevance of stored facts *)

Module PyStr.

(** [c.isspace()], the separators of [str.split()]. *)
Definition isspace (c : Py.char) : bool :=
  bool_decide (c ∈ [9; 10; 11; 12; 13; 28; 29; 30; 31; 32; 133; 160; 5760;
                    8192; 8193; 8194; 8195; 8196; 8197; 8198; 8199; 8200;
                    8201; 8202; 8232; 8233; 8239; 8287; 12288]%N).

(** [str.lower()] on ASCII text, where it changes the letters A-Z only.
    It is used where the text is ASCII, or whitespace, which has no case;
    the relevance scoring below takes [str.lower] as a parameter
    instead. *)
Definition lower_char (c : Py.char) : Py.char :=
  if ((65 <=? c) && (c <=? 90))%N then (c + 32)%N else c.

Definition lower (s : str) : str := map lower_char s.

(** [s.split()]: the maximal runs of non-space characters, in order.
    [word] is the run being read. *)
Fixpoint split_from (word : str) (s : str) : list str :=
  match s with
  | [] => match word with [] => [] | _ => [word] end
  | c :: rest =>
      if isspace c
      then match word with
           | [] => split_from [] rest
           | _ => word :: split_from [] rest
           end
      else split_from (word ++ [c]) rest
  end.

Definition split (s : str) : list str := split_from [] s.

End PyStr.

Definition microseconds_per_day : Z := 86400 * 1000000.

(** [timedelta.days]: whole days, rounded towards minus infinity. *)
Definition timedelta_days (delta : Z) : Z := delta / microseconds_per_day.

(** [datetime.utcnow() - t]: the difference of two naive values; with an
    aware [t] the subtraction raises [TypeError], given as [None]. *)
Definition utcnow_minus (now : datetime) (t : timestamp) : option Z :=
  match t with
  | Naive t => Some (now - t)
  | Aware _ => None
  end.

(** [list.sort(key=..., reverse=True)]: a stable sort, largest key first;
    elements with equal keys keep their order. *)
Fixpoint insert_reverse {A} (key : A -> Z) (x : A) (l : list A) : list A :=
  match l with
  | [] => [x]
  | y :: rest =>
      if key y >? key x then y :: insert_reverse key x rest
      else x :: y :: rest
  end.

Definition sort_reverse {A} (key : A -> Z) (l : list A) : list A :=
  foldr (insert_reverse key) [] l.

Section Scoring.

(** [str.lower] of the interpreter, with its full case mapping. *)
Variable lower : str -> str.

(** [set(text.lower().split())] *)
Definition word_set (text : str) : gset str :=
  list_to_set (PyStr.split (lower text)).

(** The body of the scoring loop for one fact; [now] is the reading of
    [datetime.utcnow()] taken for this fact. The subtraction sits in a
    [try] whose bare [except] passes: when it raises, the score stays as
    it is. *)
Definition score_fact (context_words : gset str) (now : datetime)
    (f : UserFact) : Z :=
  let score := 0 in
  let fact_words := word_set (fact f) in
  let overlap := context_words ∩ fact_words in
  let score := score + Z.of_nat (size overlap) * 2 in
  let score :=
    match importance f with
    | CRITICAL => score + 5
    | HIGH => score + 3
    | _ => score
    end in
  let score :=
    match last_referenced f with
    | Some t =>
        match utcnow_minus now t with
        | Some delta =>
            let days_ago := timedelta_days delta in
            if days_ago <? 7 then score + 2 else score
        | None => score
        end
    | None => score
    end in
  score.

(** The scoring loop: [clock i] is the clock reading while the fact at
    index [i] of the fetched list is scored. *)
Fixpoint score_loop (context_words : gset str) (clock : nat -> datetime)
    (i : nat) (facts : list UserFact) : list (Z * UserFact) :=
  match facts with
  | [] => []
  | f :: rest =>
      let score := score_fact context_words (clock i) f in
      let tail := score_loop context_words clock (S i) rest in
      if score >? 0 then (score, f) :: tail else tail
  end.

(** [SupabaseStorage.get_relevant_facts], given the batch [all_facts]
    returned by [get_facts(user_id, limit=100)]. *)
Definition get_relevant_facts (all_facts : list UserFact)
    (clock : nat -> datetime) (context : str) (limit : Z) : list UserFact :=
  match all_facts with
  | [] => []
  | _ =>
      let context_lower := lower context in
      let context_words : gset str := list_to_set (PyStr.split context_lower) in
      let scored_facts := score_loop context_words clock 0 all_facts in
      let scored_facts := sort_reverse fst scored_facts in
      map snd (Py.slice_to limit scored_facts)
  end.

(** *** The scoring rule as the specification words it *)

(** The distinct words shared by the query and the fact text. *)
Definition shared_words (query text : str) : list str :=
  remove_dups
    (filter (λ w, w ∈ PyStr.split (lower text))
            (PyStr.split (lower query))).

(** Referenced within the last [d] days: fewer than [d] days have passed
    since [t]. *)
Definition referenced_within (d : Z) (now t : datetime) : bool :=
  now - t <? d * microseconds_per_day.



(** The same for a naive timestamp only: the age of an aware one cannot
    be computed against [utcnow()]. *)
Definition recently_referenced (now : datetime) (f : UserFact) : bool :=
  match last_referenced f with
  | Some (Naive t) => referenced_within 7 now t
  | _ => false
  end.

Definition score_with (recent : datetime -> UserFact -> bool)
    (query : str) (now : datetime) (f : UserFact) : Z :=
  2 * Z.of_nat (length (shared_words query (fact f)))
  + (if bool_decide (importance f = CRITICAL) then 5 else 0)
  + (if bool_decide (importance f = HIGH) then 3 else 0)
  + (if recent now f then 2 else 0).


Definition spec_score : str -> datetime -> UserFact -> Z :=
  score_with recently_referenced.

(** Each fetched fact with its score, in fetch order. *)
Definition spec_scored (query : str) (clock : nat -> datetime)
    (facts : list UserFact) : list (Z * UserFact) :=
  imap (λ i f, (spec_score query (clock i) f, f)) facts.

End Scoring.

(** ** The truncation rule and the role set as the specification words them *)

(** [i] is the position of the rightmost sentence-ending punctuation of
    [s]. *)
Definition rightmost_sentence_end (s : str) (i : nat) : Prop :=
  (∃ c, s !! i = Some c ∧ sentence_end c = true) ∧
  ∀ j c, (i < j)%nat → s !! j = Some c → sentence_end c = false.

Definition no_sentence_end (s : str) : Prop :=
  ∀ j c, s !! j = Some c → sentence_end c = false.

(** The value the code names [break_point], for the slice [s]. *)
Definition break_point_of (s : str) : Z :=
  Z.max (Z.max (rfind (Py.chr ".") s) (rfind (Py.chr "?") s))
        (rfind (Py.chr "!") s).

(** The values of the members of [UserRole]. *)
Definition code_roles : list str := map UserRole_value UserRole_members.

(** ** Exceptions, JSON values and the collaborators of the agent *)

(** The outcome of a Python call: a value, or a raised exception of which
    only [str(e)] is kept. *)
Inductive res (A : Type) : Type :=
| Ok (a : A)
| Raise (e : str).
Arguments Ok {A} a.
Arguments Raise {A} e.

(** The values handled by [json.loads] and [json.dumps]; [JOther] is a
    Python object of the named type that [json.dumps] cannot serialise (a
    complex number, a function), as a tool may leave in its data. *)
#[warnings="-register-all"] Inductive json : Type :=
| JNull
| JBool (b : bool)
| JInt (n : Z)
| JStr (s : str)
| JList (l : list json)
| JDict (d : list (str * json))
| JOther (type_name : str).

(** The type name of the first object of [j], in encoding order, that
    [json.dumps] cannot serialise. *)
Fixpoint not_serializable (j : json) : option str :=
  match j with
  | JOther type_name => Some type_name
  | JList l =>
      (fix first (l : list json) : option str :=
         match l with
         | [] => None
         | x :: rest =>
             match not_serializable x with
             | Some type_name => Some type_name
             | None => first rest
             end
         end) l
  | JDict d =>
      (fix first (d : list (str * json)) : option str :=
         match d with
         | [] => None
         | (_, x) :: rest =>
             match not_serializable x with
             | Some type_name => Some type_name
             | None => first rest
             end
         end) d
  | _ => None
  end.

(** [x if x is not None else null] *)
Definition json_opt_str (o : option str) : json :=
  match o with Some s => JStr s | None => JNull end.

Definition json_opt (o : option json) : json :=
  match o with Some j => j | None => JNull end.

(** tools/base.py *)
Record ToolResult := mkToolResult {
  success : bool;
  data : option json;
  error : option str;
  message : option str
}.

(** tools/__init__.py: the tool objects of a registry; the user-bound
    ones carry the ids they were built with. *)
Inductive Tool : Type :=
| WeatherTool
| CalculatorTool
| CurrentTimeTool
| SetReminderTool (user_id : str)
| GetRemindersTool (user_id : str)
| AddToGroceryListTool (user_id added_by : str)
| ViewGroceryListTool (user_id : str)
| CreateOrderRequestTool (user_id requested_by : str).

Definition STATELESS_TOOLS : list (str * Tool) :=
  [(Py.lit "get_weather", WeatherTool);
   (Py.lit "calculator", CalculatorTool);
   (Py.lit "get_current_time", CurrentTimeTool)].

Definition get_tool_registry (user_id : str) : gmap str Tool :=
  let registry := foldl (λ r e, <[e.1 := e.2]> r) ∅ STATELESS_TOOLS in
  let registry := <[Py.lit "set_reminder" := SetReminderTool user_id]> registry in
  let registry := <[Py.lit "get_reminders" := GetRemindersTool user_id]> registry in
  let registry :=
    <[Py.lit "add_to_grocery_list" := AddToGroceryListTool user_id user_id]> registry in
  let registry := <[Py.lit "view_grocery_list" := ViewGroceryListTool user_id]> registry in
  let registry :=
    <[Py.lit "create_order_request" := CreateOrderRequestTool user_id user_id]> registry in
  registry.

(** A tool definition is identified by the declared name; the description
    and the parameter schema are constants of the tool class. *)
Definition get_tool_definitions (user_id : str) : list str :=
  (STATELESS_TOOLS.*1) ++
  [Py.lit "set_reminder"; Py.lit "get_reminders"; Py.lit "add_to_grocery_list";
   Py.lit "view_grocery_list"; Py.lit "create_order_request"].

(** One requested call of a completion response. *)
Record ToolCall := mkToolCall {
  call_id : str;
  function_name : str;
  function_arguments : str
}.

(** [response.choices[0].message] *)
Record AssistantMessage := mkAssistantMessage {
  am_content : option str;
  am_tool_calls : option (list ToolCall)
}.

(** An entry of the [messages] list sent to the completion service. *)
Record LlmMessage := mkLlmMessage {
  llm_role : str;
  llm_content : option str;
  llm_tool_call_id : option str;
  llm_tool_calls : option (list ToolCall)
}.

Record ChatRequest := mkChatRequest {
  req_model : str;
  req_messages : list LlmMessage;
  req_tools : option (list str);
  req_tool_choice : option str;
  req_max_tokens : Z;
  req_temperature : option (Z * Z)
}.

(** The dictionary returned by [MemoryExtractor.extract_and_save], of
    which the agent reads the summary. *)
Record Extracted := mkExtracted {
  extracted_summary : option str
}.

(** The calls that leave the modelled code, indexed by the type of their
    answer: the clock, the requests of [SupabaseStorage] to the store, the
    completion service, the tools and the Extractor. A call whose answer
    is a [res] may raise; [get_user] catches its faults itself and answers
    [None]. [assemble_context] stands for the body of the [try] block of
    [_build_system_prompt] up to [build_user_context]: the reads of
    long-term memory and the formatting of the context block. *)
Inductive Call : Type → Type :=
| utcnow : Call datetime
| storage_get_user (user_id : str) : Call (option UserProfile)
| storage_create_user (profile : UserProfile) : Call (res UserProfile)
| storage_update_user (profile : UserProfile) : Call (res UserProfile)
| storage_insert_conversation (user_id : str) (alexa_session_id : option str)
    : Call (res (str * datetime))
| storage_save_conversation (conversation : Conversation) : Call (res unit)
| assemble_context (user : UserProfile) (user_input : str) : Call (res str)
| chat_completions_create (request : ChatRequest) : Call (res AssistantMessage)
| tool_execute (tool : Tool) (tool_args : json) : Call (res ToolResult)
| extractor_extract_and_save (conversation : Conversation) : Call (res Extracted)
| extractor_generate_summary (conversation : Conversation)
    : Call (res (option str)).

(** A program: a tree of external calls ending in a value. *)
Inductive prog (A : Type) : Type :=
| Ret (a : A)
| Vis {X : Type} (c : Call X) (k : X → prog A).
Arguments Ret {A} a.
Arguments Vis {A X} c k.

Fixpoint bind {A B} (p : prog A) (f : A → prog B) : prog B :=
  match p with
  | Ret a => f a
  | Vis c k => Vis c (λ x, bind (k x) f)
  end.

(** ** agent/core.py: the agent *)

Record JarvisAgent := mkJarvisAgent {
  short_term : ShortTermMemory;
  current_user : option UserProfile;
  tool_registry : gmap str Tool;
  tool_definitions : list str
}.

(** Agent methods: state passing over programs, with exceptions. *)
Definition M (A : Type) : Type := JarvisAgent → prog (res A * JarvisAgent).

Definition ret {A} (a : A) : M A := λ s, Ret (Ok a, s).

Definition mbind {A B} (m : M A) (f : A → M B) : M B :=
  λ s, bind (m s) (λ rs,
    match rs.1 with
    | Ok a => f a rs.2
    | Raise e => Ret (Raise e, rs.2)
    end).

(** [try: m except Exception as e: handler(str(e))] *)
Definition try_except {A} (m : M A) (handler : str → M A) : M A :=
  λ s, bind (m s) (λ rs,
    match rs.1 with
    | Ok a => Ret (Ok a, rs.2)
    | Raise e => handler e rs.2
    end).

(** An external call that cannot raise. *)
Definition ask {X} (c : Call X) : M X := λ s, Vis c (λ x, Ret (Ok x, s)).

(** An external call that may raise. *)
Definition call {X} (c : Call (res X)) : M X := λ s, Vis c (λ r, Ret (r, s)).

(** [raise e] *)
Definition raise {A} (e : str) : M A := λ s, Ret (Raise e, s).

Definition get : M JarvisAgent := λ s, Ret (Ok s, s).
Definition put (s : JarvisAgent) : M unit := λ _, Ret (Ok tt, s).

Declare Scope agent_scope.
Delimit Scope agent_scope with agent.
Notation "x <- m ;; k" := (mbind m (λ x, k))
  (at level 100, m at next level, right associativity) : agent_scope.
Notation "m ;; k" := (mbind m (λ _, k))
  (at level 100, right associativity) : agent_scope.

Local Open Scope agent_scope.

(** Python truthiness of the values tested by the agent. *)
Definition truthy_str (s : str) : bool :=
  match s with [] => false | _ => true end.

Definition truthy_opt_str (o : option str) : bool :=
  match o with Some s => truthy_str s | None => false end.

(** [x or default] *)
Definition or_else (o : option str) (default : str) : str :=
  match o with
  | Some s => if truthy_str s then s else default
  | None => default
  end.

Definition set_short_term (s : JarvisAgent) (stm : ShortTermMemory) : JarvisAgent :=
  mkJarvisAgent stm (current_user s) (tool_registry s) (tool_definitions s).

Definition set_current_user (s : JarvisAgent) (u : option UserProfile) : JarvisAgent :=
  mkJarvisAgent (short_term s) u (tool_registry s) (tool_definitions s).

Definition set_tools (s : JarvisAgent) (registry : gmap str Tool)
    (definitions : list str) : JarvisAgent :=
  mkJarvisAgent (short_term s) (current_user s) registry definitions.

(** [self.short_term.add_message(...)]: reads the clock and updates the
    memory of the agent. *)
Definition short_term_add_message (role content : str)
    (tool_name tool_call_id : option str) : M Message :=
  now <- ask utcnow ;;
  s <- get ;;
  let r := add_message (mkAddArgs role content tool_name tool_call_id now)
                       (short_term s) in
  put (set_short_term s r.2) ;;
  ret r.1.

(** [SupabaseStorage.create_conversation] *)
Definition create_conversation (user_id : str) (alexa_session_id : option str)
  : M Conversation :=
  row <- call (storage_insert_conversation user_id alexa_session_id) ;;
  ret (mkConversation (Some row.1) user_id alexa_session_id [] row.2 None None).

(** [ShortTermMemory.start_conversation] *)
Definition start_conversation (user_id : str) (alexa_session_id : option str)
  : M Conversation :=
  conversation <- create_conversation user_id alexa_session_id ;;
  s <- get ;;
  put (set_short_term s
         (mkShortTermMemory (max_messages (short_term s))
                            (Some conversation) [])) ;;
  ret conversation.

(** [ShortTermMemory.get_messages_for_llm] *)
Definition get_messages_for_llm (stm : ShortTermMemory) : list LlmMessage :=
  match current_conversation stm with
  | None => []
  | Some conversation =>
      map (λ msg,
             if bool_decide (msg_role msg = Py.lit "tool")
             then mkLlmMessage (Py.lit "tool") (Some (msg_content msg))
                               (msg_tool_call_id msg) None
             else mkLlmMessage (msg_role msg) (Some (msg_content msg))
                               None None)
          (messages conversation)
  end.

(** The conversation with [ended_at] and [summary] assigned, as
    [end_conversation] hands it to the store. *)
Definition closed (conversation : Conversation) (now : datetime)
    (summary : option str) : Conversation :=
  mkConversation (conv_id conversation) (conv_user_id conversation)
                 (conv_alexa_session_id conversation) (messages conversation)
                 (started_at conversation) (Some now) summary.

(** [ShortTermMemory.end_conversation]: a failing save is logged and
    swallowed. *)
Definition end_conversation (summary : option str) : M unit :=
  s <- get ;;
  match current_conversation (short_term s) with
  | None => ret tt
  | Some conversation =>
      now <- ask utcnow ;;
      let conversation := closed conversation now summary in
      try_except (call (storage_save_conversation conversation))
                 (λ _, ret tt) ;;
      s <- get ;;
      put (set_short_term s
             (mkShortTermMemory (max_messages (short_term s)) None []))
  end.

(** [LongTermMemory.increment_conversation_count] *)
Definition increment_conversation_count (user_id : str) : M unit :=
  try_except
    (user <- ask (storage_get_user user_id) ;;
     match user with
     | Some user =>
         let user :=
           mkUserProfile (profile_id user) (user_name user) (role user)
                         (age user) (preferred_language user)
                         (preferred_response_length user)
                         (requires_approval user) (can_approve_orders user)
                         (total_conversations user + 1) in
         call (storage_update_user user) ;; ret tt
     | None => ret tt
     end)
    (λ _, ret tt).

Section Agent.

(** The configuration, the JSON codec and the prompt templates of
    [agent/prompts.py] are fixed throughout. [json_loads] answers [None]
    for the [JSONDecodeError] it raises on malformed text. *)
Variable settings : Settings.
Variable json_loads : str → option json.
Variable json_dumps : json → str.
Variable SYSTEM_PROMPT_BASE : str.
Variable SYSTEM_PROMPT_WITH_CONTEXT : str → str → str.

(** [JarvisAgent.__init__] *)
Definition JarvisAgent_init : JarvisAgent :=
  mkJarvisAgent (ShortTermMemory_init settings) None ∅ [].

(** [JarvisAgent.start_session] *)
Definition start_session (user_id alexa_session_id : option str)
  : M UserProfile :=
  let user_id := or_else user_id (default_user_id settings) in
  user <- ask (storage_get_user user_id) ;;
  user <- match user with
          | Some user => ret user
          | None =>
              call (storage_create_user
                      (new_UserProfile user_id (Py.lit "Friend") ADULT true))
          end ;;
  s <- get ;;
  put (set_current_user s (Some user)) ;;
  start_conversation user_id alexa_session_id ;;
  s <- get ;;
  put (set_tools s (get_tool_registry user_id) (get_tool_definitions user_id)) ;;
  ret user.

(** [JarvisAgent._build_system_prompt] *)
Definition _build_system_prompt (user_input : str) : M str :=
  s <- get ;;
  match current_user s with
  | None => ret SYSTEM_PROMPT_BASE
  | Some user =>
      try_except
        (user_context <- call (assemble_context user user_input) ;;
         ret (SYSTEM_PROMPT_WITH_CONTEXT SYSTEM_PROMPT_BASE user_context))
        (λ _, ret SYSTEM_PROMPT_BASE)
  end.

(** The dictionary serialised for a tool that returned. *)
Definition result_dict (result : ToolResult) : json :=
  JDict [(Py.lit "success", JBool (success result));
         (Py.lit "data", json_opt (data result));
         (Py.lit "message", json_opt_str (message result));
         (Py.lit "error", json_opt_str (error result))].

(** The dictionary serialised for a failed call. *)
Definition failure_dict (e : str) : json :=
  JDict [(Py.lit "success", JBool false); (Py.lit "error", JStr e)].

Definition tool_message (tool_call : ToolCall) (result_content : str)
  : LlmMessage :=
  mkLlmMessage (Py.lit "tool") (Some result_content)
               (Some (call_id tool_call)) None.

(** [tool_args] of a call: malformed JSON gives the empty dictionary. *)
Definition parse_arguments (tool_call : ToolCall) : json :=
  match json_loads (function_arguments tool_call) with
  | Some tool_args => tool_args
  | None => JDict []
  end.

(** [json.dumps(j)]: a [TypeError] on an object it cannot serialise. *)
Definition dumps_or_raise (j : json) : M str :=
  match not_serializable j with
  | Some type_name =>
      raise (Py.lit "Object of type " ++ type_name
             ++ Py.lit " is not JSON serializable")
  | None => ret (json_dumps j)
  end.

(** The loop "Execute each tool" of [_handle_tool_calls]; [messages] is
    the list being extended in place. *)
Fixpoint execute_tool_calls (tool_calls : list ToolCall)
    (messages : list LlmMessage) : M (list LlmMessage) :=
  match tool_calls with
  | [] => ret messages
  | tool_call :: rest =>
      let tool_name := function_name tool_call in
      let tool_args := parse_arguments tool_call in
      s <- get ;;
      result_content <-
        match tool_registry s !! tool_name with
        | Some tool =>
            try_except
              (result <- call (tool_execute tool tool_args) ;;
               dumps_or_raise (result_dict result))
              (λ e, ret (json_dumps (failure_dict e)))
        | None =>
            ret (json_dumps
                   (failure_dict (Py.lit "Unknown tool: " ++ tool_name)))
        end ;;
      let messages := messages ++ [tool_message tool_call result_content] in
      short_term_add_message (Py.lit "tool") result_content
                             (Some tool_name) (Some (call_id tool_call)) ;;
      execute_tool_calls rest messages
  end.

(** [JarvisAgent._handle_tool_calls]; returns the reply together with the
    caller's [messages] list as the method leaves it. *)
Definition _handle_tool_calls (assistant_message : AssistantMessage)
    (messages : list LlmMessage) : M (str * list LlmMessage) :=
  let tool_calls := default [] (am_tool_calls assistant_message) in
  let messages :=
    messages ++ [mkLlmMessage (Py.lit "assistant")
                              (am_content assistant_message) None
                              (Some tool_calls)] in
  messages <- execute_tool_calls tool_calls messages ;;
  reply <-
    try_except
      (final_response <-
         call (chat_completions_create
                 (mkChatRequest (openai_model settings) messages
                                None None 500 None)) ;;
       ret (or_else (am_content final_response) (Py.lit "Done.")))
      (λ _, ret (Py.lit
         "I completed the task, but had trouble summarizing it.")) ;;
  ret (reply, messages).

Definition truthy_tool_calls (o : option (list ToolCall)) : bool :=
  match o with Some (_ :: _) => true | _ => false end.

(** [JarvisAgent.process] *)
Definition process (user_input : str) : M str :=
  s <- get ;;
  match current_user s with
  | None => start_session None None ;; ret tt
  | Some _ => ret tt
  end ;;
  short_term_add_message (Py.lit "user") user_input None None ;;
  system_prompt <- _build_system_prompt user_input ;;
  s <- get ;;
  let messages :=
    mkLlmMessage (Py.lit "system") (Some system_prompt) None None
    :: get_messages_for_llm (short_term s) in
  let offered := match tool_definitions s with [] => false | _ => true end in
  reply <-
    try_except
      (assistant_message <-
         call (chat_completions_create
                 (mkChatRequest (openai_model settings) messages
                    (if offered then Some (tool_definitions s) else None)
                    (if offered then Some (Py.lit "auto") else None)
                    500 (Some (7, 10)))) ;;
       if truthy_tool_calls (am_tool_calls assistant_message)
       then r <- _handle_tool_calls assistant_message messages ;; ret r.1
       else ret (or_else (am_content assistant_message)
                         (Py.lit "I'm not sure how to respond to that.")))
      (λ _, ret (Py.lit
         "Sorry, I had trouble thinking about that. Could you try again?")) ;;
  let reply :=
    if Py.len reply >? max_response_length settings
    then _truncate_for_voice settings reply else reply in
  short_term_add_message (Py.lit "assistant") reply None None ;;
  ret reply.

(** The guarded block "Extract learnings from conversation" of
    [end_session]: the value left in [summary]. A fault in
    [extract_and_save] leaves it [None]; a fault in [generate_summary]
    leaves it as read from the extraction. *)
Definition extract_learnings_summary (conversation : Conversation)
  : M (option str) :=
  try_except
    (extracted <- call (extractor_extract_and_save conversation) ;;
     let summary := extracted_summary extracted in
     if truthy_opt_str summary then ret summary
     else try_except (call (extractor_generate_summary conversation))
                     (λ _, ret summary))
    (λ _, ret None).

(** [JarvisAgent.end_session] *)
Definition end_session (extract_learnings : bool) : M unit :=
  s <- get ;;
  match current_conversation (short_term s) with
  | None => ret tt
  | Some conversation =>
      summary <-
        (if extract_learnings && (Py.len (messages conversation) >=? 4)
         then extract_learnings_summary conversation
         else ret None) ;;
      end_conversation summary ;;
      s <- get ;;
      match current_user s with
      | Some user => increment_conversation_count (profile_id user)
      | None => ret tt
      end ;;
      s <- get ;;
      put (mkJarvisAgent (short_term s) None ∅ [])
  end.

End Agent.

(** ** Running a program against its environment *)

(** A call made by a program. *)
Definition event : Type := sigT Call.

Definition Event {X} (c : Call X) : event := existT X c.

Section Run.

(** The environment: a state and, for each call, its answer and the next
    state. *)
Context {W : Type} (answer : ∀ X, Call X → W → X * W).

Record outcome (A : Type) := mkOutcome {
  result : A;
  world : W;
  trace : list event
}.
Arguments mkOutcome {A}.
Arguments result {A}.
Arguments world {A}.
Arguments trace {A}.

Fixpoint run {A} (p : prog A) (w : W) : outcome A :=
  match p with
  | Ret a => mkOutcome a w []
  | Vis c k =>
      let r := answer _ c w in
      let o := run (k r.1) r.2 in
      mkOutcome (result o) (world o) (Event c :: trace o)
  end.

End Run.

Arguments mkOutcome {W A}.
Arguments result {W A}.
Arguments world {W A}.
Arguments trace {W A}.

(** The tool executions of a trace, in order. *)
Definition tool_run (e : event) : option (Tool * json) :=
  match projT2 e with
  | tool_execute tool tool_args => Some (tool, tool_args)
  | _ => None
  end.

Definition tool_runs (tr : list event) : list (Tool * json) := omap tool_run tr.

(** Whether the call goes to the Extractor. *)
Definition extractor_call (e : event) : bool :=
  match projT2 e with
  | extractor_extract_and_save _ => true
  | extractor_generate_summary _ => true
  | _ => false
  end.

(** The conversations handed to the store by a trace. *)
Definition saved_conversation (e : event) : option Conversation :=
  match projT2 e with
  | storage_save_conversation conversation => Some conversation
  | _ => None
  end.

Definition saved_conversations (tr : list event) : list Conversation :=
  omap saved_conversation tr.

(** The [add_message] call recording the result of a tool call, and the
    tool looked up for a call, with its parsed arguments. *)
Definition tool_add_args (tool_call : ToolCall) (recorded : str * datetime)
  : add_args :=
  mkAddArgs (Py.lit "tool") recorded.1 (Some (function_name tool_call))
            (Some (call_id tool_call)) recorded.2.

Definition dispatch (json_loads : str → option json) (s : JarvisAgent)
    (tool_call : ToolCall) : option (Tool * json) :=
  tool ← tool_registry s !! function_name tool_call;
  Some (tool, parse_arguments json_loads tool_call).

(** [post answer m s w Q]: running the method [m] from the agent state
    [s] in the environment state [w] ends with an outcome, a final agent
    state, a final environment state and a trace that satisfy [Q]. *)
Definition post {W : Type} (answer : ∀ X, Call X → W → X * W) {A : Type}
    (m : M A) (s : JarvisAgent) (w : W)
    (Q : res A → JarvisAgent → W → list event → Prop) : Prop :=
  Q (result (run answer (m s) w)).1 (result (run answer (m s) w)).2
    (world (run answer (m s) w)) (trace (run answer (m s) w)).

(** ** tools/calculator.py

    [CalculatorTool.execute] rewrites the expression text and hands it to
    Python's [eval]. The model covers the arithmetic fragment of Python
    expressions: integer and decimal literals, [+ - * /], unary signs and
    parentheses, with [int] as [Z] and [float] as IEEE 754 binary64
    ([spec_float] with 53 bits of precision, round to nearest even). Text
    outside the fragment, and results the model does not format, give
    [None]. *)

Module Calculator.

(** *** str methods *)

Fixpoint lstrip (s : str) : str :=
  match s with
  | c :: rest => if PyStr.isspace c then lstrip rest else s
  | [] => []
  end.

(** [s.strip()] *)
Definition strip (s : str) : str := reverse (lstrip (reverse (lstrip s))).

Fixpoint starts_with (p s : str) : option str :=
  match p, s with
  | [], _ => Some s
  | a :: p', b :: s' => if N.eqb a b then starts_with p' s' else None
  | _ :: _, [] => None
  end.

(** [s.replace(old, new)] for a non-empty [old]: occurrences are replaced
    from left to right, without overlap. *)
Fixpoint replace_fuel (fuel : nat) (old new s : str) : str :=
  match fuel with
  | O => s
  | S fuel' =>
      match starts_with old s with
      | Some rest => new ++ replace_fuel fuel' old new rest
      | None =>
          match s with
          | [] => []
          | c :: rest => c :: replace_fuel fuel' old new rest
          end
      end
  end.

Definition replace (old new s : str) : str :=
  replace_fuel (S (length s)) old new s.

(** *** Regular expressions, as matched by [re.match] *)

Inductive regex : Type :=
| Chr (class : Py.char → bool)
| Seq (r1 r2 : regex)
| Opt (r : regex)
| Star (r : regex)
| Group (r : regex)
| End.

Definition Plus (r : regex) : regex := Seq r (Star r).

Fixpoint Lit (s : str) (then_ : regex) : regex :=
  match s with
  | [] => then_
  | c :: rest => Seq (Chr (N.eqb c)) (Lit rest then_)
  end.

(** Backtracking match of [r] at the head of [s]; [k] continues with the
    rest of the text and the groups captured so far, in the order they
    close. Quantifiers are greedy. *)
Fixpoint rmatch {R} (r : regex) (s : str) (groups : list str)
    (k : str → list str → option R) : option R :=
  match r with
  | Chr class =>
      match s with
      | c :: rest => if class c then k rest groups else None
      | [] => None
      end
  | Seq r1 r2 => rmatch r1 s groups (λ s' groups', rmatch r2 s' groups' k)
  | Opt r1 =>
      match rmatch r1 s groups k with
      | Some x => Some x
      | None => k s groups
      end
  | Star r1 =>
      (fix star (n : nat) (s : str) (groups : list str) : option R :=
         match n with
         | O => k s groups
         | S n' =>
             match rmatch r1 s groups
                     (λ s' groups',
                        if (length s' <? length s)%nat
                        then star n' s' groups' else None) with
             | Some x => Some x
             | None => k s groups
             end
         end) (length s) s groups
  | Group r1 =>
      rmatch r1 s groups
        (λ s' groups',
           k s' (groups' ++ [take (length s - length s') s]))
  | End =>
      match s with
      | [] => k s groups
      | [c] => if N.eqb c 10 then k s groups else None
      | _ => None
      end
  end.

(** [re.match(r, s)]: the groups of the first match, if any. *)
Definition re_match (r : regex) (s : str) : option (list str) :=
  rmatch r s [] (λ _ groups, Some groups).

(** The classes [\d] and [\w] as they are on ASCII text: below code
    point 128 they are the digits, and the letters, digits and underscore.
    Python's classes also hold the digits and letters of other scripts,
    which are not given here; what is stated of the calculator is stated
    of ASCII expressions, or of whitespace alone. *)
Definition digit (c : Py.char) : bool := ((48 <=? c) && (c <=? 57))%N.

Definition word (c : Py.char) : bool :=
  (digit c || ((65 <=? c) && (c <=? 90)) || ((97 <=? c) && (c <=? 122))
   || (c =? 95))%N.

Definition one_of (s : string) (c : Py.char) : bool :=
  bool_decide (c ∈ Py.lit s).

(** [\d+(?:\.\d+)?] *)
Definition number : regex :=
  Seq (Plus (Chr digit))
      (Opt (Seq (Chr (one_of ".")) (Plus (Chr digit)))).

(** [(\d+(?:\.\d+)?)\s*%\s*of\s*(\d+(?:\.\d+)?)] *)
Definition percent_pattern : regex :=
  Seq (Group number)
   (Seq (Star (Chr PyStr.isspace))
    (Seq (Chr (one_of "%"))
     (Seq (Star (Chr PyStr.isspace))
      (Lit (Py.lit "of")
       (Seq (Star (Chr PyStr.isspace)) (Group number)))))).

(** [^[\d\s\+\-\*\/\(\)\.\,\%\w]+$] *)
Definition safe_pattern : regex :=
  Seq (Plus (Chr (λ c, digit c || PyStr.isspace c || one_of "+-*/().,%" c
                       || word c)))
      End.

(** *** The arithmetic fragment of [eval] *)

(** binary64 *)
Definition prec : Z := 53.
Definition emax : Z := 1024.

Inductive value : Type :=
| VInt (n : Z)
| VFloat (x : spec_float).

(** What evaluating the text does. *)
Inductive evaluation : Type :=
| Value (v : value)
| ZeroDivisionError
| Unmodelled.

(** [float(n)] for an [int] that a double holds exactly. *)
Definition float_of_int (n : Z) : option spec_float :=
  if Z.abs n <=? 2 ^ 53 then Some (binary_normalize prec emax n 0 false)
  else None.

Definition is_zero (x : spec_float) : bool :=
  match x with S754_zero _ => true | _ => false end.

Definition to_float (v : value) : option spec_float :=
  match v with
  | VInt n => float_of_int n
  | VFloat x => Some x
  end.

Inductive binop := Add | Sub | Mul | Div.

(** A binary operation on two values: exact on two [int]s except for
    [/], which always divides as [float]s. *)
Definition apply (op : binop) (a b : value) : evaluation :=
  match op, a, b with
  | Add, VInt x, VInt y => Value (VInt (x + y))
  | Sub, VInt x, VInt y => Value (VInt (x - y))
  | Mul, VInt x, VInt y => Value (VInt (x * y))
  | _, _, _ =>
      match to_float a, to_float b with
      | Some x, Some y =>
          match op with
          | Add => Value (VFloat (SFadd prec emax x y))
          | Sub => Value (VFloat (SFsub prec emax x y))
          | Mul => Value (VFloat (SFmul prec emax x y))
          | Div => if is_zero y then ZeroDivisionError
                   else Value (VFloat (SFdiv prec emax x y))
          end
      | _, _ => Unmodelled
      end
  end.

Definition negate (v : value) : value :=
  match v with
  | VInt n => VInt (- n)
  | VFloat x => VFloat (SFopp x)
  end.

Inductive token : Type :=
| TInt (n : Z)
| TFloat (x : spec_float)
| TOp (op : binop)
| TOpen
| TClose.

(** The value of a run of decimal digits. *)
Definition digits_value (ds : str) : Z :=
  fold_left (λ acc d, 10 * acc + (Z.of_N d - 48)) ds 0.

(** The longest run of digits at the head of the text, and the rest. *)
Fixpoint span_digits (s : str) : str * str :=
  match s with
  | c :: rest =>
      if digit c then let r := span_digits rest in (c :: r.1, r.2)
      else ([], s)
  | [] => ([], [])
  end.

(** A decimal literal [whole.fraction]: the double nearest to it, obtained
    as the quotient of two integers that doubles hold exactly. *)
Definition decimal_literal (whole fraction : str) : option spec_float :=
  let n := digits_value (whole ++ fraction) in
  let k := Z.of_nat (length fraction) in
  if (n <=? 2 ^ 53) && (k <=? 22)
  then Some (SFdiv prec emax (binary_normalize prec emax n 0 false)
                             (binary_normalize prec emax (10 ^ k) 0 false))
  else None.

(** An integer literal; one with a leading zero is a syntax error unless
    it is zero. *)
Definition int_literal (ds : str) : option Z :=
  match ds with
  | 48%N :: _ :: _ => if digits_value ds =? 0 then Some 0 else None
  | _ => Some (digits_value ds)
  end.

Fixpoint tokenize (fuel : nat) (s : str) : option (list token) :=
  match fuel with
  | O => None
  | S fuel' =>
      match s with
      | [] => Some []
      | c :: rest =>
          if one_of " " c then tokenize fuel' rest
          else if one_of "(" c then cons TOpen <$> tokenize fuel' rest
          else if one_of ")" c then cons TClose <$> tokenize fuel' rest
          else if one_of "+" c then cons (TOp Add) <$> tokenize fuel' rest
          else if one_of "-" c then cons (TOp Sub) <$> tokenize fuel' rest
          else if one_of "*" c then
            match rest with
            | 42%N :: _ => None
            | _ => cons (TOp Mul) <$> tokenize fuel' rest
            end
          else if one_of "/" c then
            match rest with
            | 47%N :: _ => None
            | _ => cons (TOp Div) <$> tokenize fuel' rest
            end
          else if digit c then
            let whole := span_digits s in
            match whole.2 with
            | 46%N :: after =>
                let fraction := span_digits after in
                match fraction.2 with
                | c' :: _ =>
                    if word c' || one_of "." c' then None
                    else x ← decimal_literal whole.1 fraction.1;
                         cons (TFloat x) <$> tokenize fuel' fraction.2
                | [] => x ← decimal_literal whole.1 fraction.1;
                        Some [TFloat x]
                end
            | c' :: _ =>
                if word c' then None
                else n ← int_literal whole.1;
                     cons (TInt n) <$> tokenize fuel' whole.2
            | [] => n ← int_literal whole.1; Some [TInt n]
            end
          else None
      end
  end.

(** The parser returns the evaluation of the phrase it reads and the
    tokens left; [None] is a syntax error. *)
Definition seq_eval (a : evaluation) (f : value → evaluation) : evaluation :=
  match a with Value v => f v | other => other end.

Fixpoint parse_sum (fuel : nat) (ts : list token)
  : option (evaluation * list token) :=
  match fuel with
  | O => None
  | S fuel' =>
      let atom (ts : list token) : option (evaluation * list token) :=
        match ts with
        | TInt n :: rest => Some (Value (VInt n), rest)
        | TFloat x :: rest => Some (Value (VFloat x), rest)
        | TOpen :: rest =>
            match parse_sum fuel' rest with
            | Some (v, TClose :: rest') => Some (v, rest')
            | _ => None
            end
        | _ => None
        end in
      let factor :=
        (fix factor (n : nat) (ts : list token) :=
           match n, ts with
           | S n', TOp Sub :: rest =>
               r ← factor n' rest;
               Some (seq_eval r.1 (λ v, Value (negate v)), r.2)
           | S n', TOp Add :: rest => factor n' rest
           | _, _ => atom ts
           end) (length ts) in
      let products :=
        (fix products (n : nat) (acc : evaluation) (ts : list token) :=
           match n, ts with
           | S n', TOp Mul :: rest =>
               r ← factor rest;
               products n' (seq_eval acc (λ a, seq_eval r.1 (apply Mul a))) r.2
           | S n', TOp Div :: rest =>
               r ← factor rest;
               products n' (seq_eval acc (λ a, seq_eval r.1 (apply Div a))) r.2
           | _, _ => Some (acc, ts)
           end) in
      let term (ts : list token) :=
        r ← factor ts; products (length r.2) r.1 r.2 in
      let sums :=
        (fix sums (n : nat) (acc : evaluation) (ts : list token) :=
           match n, ts with
           | S n', TOp Add :: rest =>
               r ← term rest;
               sums n' (seq_eval acc (λ a, seq_eval r.1 (apply Add a))) r.2
           | S n', TOp Sub :: rest =>
               r ← term rest;
               sums n' (seq_eval acc (λ a, seq_eval r.1 (apply Sub a))) r.2
           | _, _ => Some (acc, ts)
           end) in
      r ← term ts; sums (length r.2) r.1 r.2
  end.

(** [eval(expr, ...)] on the arithmetic fragment. *)
Definition eval (expr : str) : evaluation :=
  match tokenize (S (length expr)) expr with
  | Some ts =>
      match parse_sum (S (length ts)) ts with
      | Some (v, []) => v
      | _ => Unmodelled
      end
  | None => Unmodelled
  end.

(** *** Formatting the result *)

(** [x.is_integer()] and [int(x)]: the integer a double equals, if any. *)
Definition integer_of_float (x : spec_float) : option Z :=
  match x with
  | S754_zero _ => Some 0
  | S754_finite s m e =>
      let magnitude :=
        if 0 <=? e then Some (Zpos m * 2 ^ e)
        else if Zpos m mod 2 ^ (- e) =? 0 then Some (Zpos m / 2 ^ (- e))
        else None in
      (λ n, if s then - n else n) <$> magnitude
  | _ => None
  end.

Fixpoint digits_of (fuel : nat) (n : Z) (acc : str) : str :=
  match fuel with
  | O => acc
  | S fuel' =>
      let acc := Z.to_N (n mod 10 + 48) :: acc in
      if n <? 10 then acc else digits_of fuel' (n / 10) acc
  end.

(** [str(n)] for an [int]. *)
Definition str_of_int (n : Z) : str :=
  if n <? 0 then Py.lit "-" ++ digits_of (Z.to_nat (Z.log2 (- n)) + 1) (- n) []
  else digits_of (Z.to_nat (Z.log2 n) + 1) n [].

Definition succeed (expression : str) (n : Z) : ToolResult :=
  mkToolResult true
    (Some (JDict [(Py.lit "expression", JStr expression);
                  (Py.lit "result", JInt n)]))
    None
    (Some (expression ++ Py.lit " = " ++ str_of_int n)).

Definition fail (e : string) : ToolResult :=
  mkToolResult false None (Some (Py.lit e)) None.

(** [CalculatorTool.execute]; [None] where the model does not reach:
    text outside the arithmetic fragment (which Python may still
    evaluate, or reject with a message the model does not build), and
    results that are not whole numbers (rounded to 4 places by the
    code). *)
Definition execute (expression : str) : option ToolResult :=
  let expr := strip (PyStr.lower expression) in
  let percent_match := re_match percent_pattern expr in
  let expr :=
    match percent_match with
    | Some [pct; num] => Py.lit "(" ++ pct ++ Py.lit "/100) * " ++ num
    | _ => expr
    end in
  let expr := replace (Py.lit "x") (Py.lit "*") expr in
  let expr := replace [3619; 151]%N (Py.lit "*") expr in
  let expr := replace [3619; 3607]%N (Py.lit "/") expr in
  let expr := replace (Py.lit "^") (Py.lit "**") expr in
  let expr := replace (Py.lit "plus") (Py.lit "+") expr in
  let expr := replace (Py.lit "minus") (Py.lit "-") expr in
  let expr := replace (Py.lit "times") (Py.lit "*") expr in
  let expr := replace (Py.lit "divided by") (Py.lit "/") expr in
  match re_match safe_pattern expr with
  | None => Some (fail "Invalid characters in expression")
  | Some _ =>
      match eval expr with
      | Value (VInt n) => Some (succeed expression n)
      | Value (VFloat x) => succeed expression <$> integer_of_float x
      | ZeroDivisionError => Some (fail "Cannot divide by zero")
      | Unmodelled => None
      end
  end.

End Calculator.

(** ** Sample data *)

Module Sample.

Definition conversation : Conversation :=
  mkConversation (Some (Py.lit "c-1")) (Py.lit "default-family-user") None
                 [] 1700000000000000 None None.

Definition say (role text : string) (now : datetime) : add_args :=
  mkAddArgs (Py.lit role) (Py.lit text) None None now.

Definition hello : add_args := say "user" "hello" 1700000000000001.
Definition reply : add_args := say "assistant" "hi there" 1700000000000002.

(** A memory with an open, empty conversation and the given maximum. *)
Definition memory (maximum : Z) : ShortTermMemory :=
  mkShortTermMemory maximum (Some conversation) [].

(** A memory with no conversation open. *)
Definition idle_memory : ShortTermMemory :=
  ShortTermMemory_init default_settings.

(** A budget of 10 characters. *)
Definition voice_settings : Settings :=
  mkSettings (Py.lit "gpt-4o") 20 10 (Py.lit "default-family-user").

Definition two_sentences : str := Py.lit "Hi there. How are you today?".
Definition no_sentence : str := Py.lit "one two three four five".

Definition a_fact (text : string) (i : Importance) : UserFact :=
  mkUserFact None (Py.lit "default-family-user") (Py.lit text)
             (Py.lit "other") i None 1700000000000000 None 0.

Definition peanuts : UserFact := a_fact "Allergic to peanuts" CRITICAL.
Definition green_tea : UserFact := a_fact "likes green tea daily" NORMAL.
Definition tea_query : str := Py.lit "Green TEA  daily please".
Definition clock (i : nat) : datetime := 1700000000000000 + Z.of_nat i.

(** An environment in which every collaborator works: the state counts
    the calls made so far and serves as the clock. *)
Definition answer (X : Type) (c : Call X) (w : nat) : X * nat :=
  (match c in Call X return X with
   | utcnow => 1700000000000000 + Z.of_nat w
   | storage_get_user _ => None
   | storage_create_user profile => Ok profile
   | storage_update_user profile => Ok profile
   | storage_insert_conversation _ _ =>
       Ok (Py.lit "c-1", 1700000000000000 + Z.of_nat w)
   | storage_save_conversation _ => Ok tt
   | assemble_context _ _ => Ok (Py.lit "USER PROFILE")
   | chat_completions_create _ =>
       Ok (mkAssistantMessage (Some (Py.lit "Hello!")) None)
   | tool_execute _ _ => Ok (mkToolResult true None None None)
   | extractor_extract_and_save _ => Ok (mkExtracted None)
   | extractor_generate_summary _ => Ok None
   end, S w).

(** An agent that has not started a session, and one in a session whose
    conversation holds two messages. *)
Definition idle_agent : JarvisAgent := JarvisAgent_init default_settings.

Definition friend : UserProfile :=
  new_UserProfile (Py.lit "default-family-user") (Py.lit "Friend") ADULT true.

Definition short_conversation : Conversation :=
  set_messages conversation [new_message hello; new_message reply].

Definition active_agent : JarvisAgent :=
  mkJarvisAgent (mkShortTermMemory 20 (Some short_conversation) [])
                (Some friend)
                (get_tool_registry (Py.lit "default-family-user"))
                (get_tool_definitions (Py.lit "default-family-user")).

(** A codec and prompt templates for running the agent. *)
Definition json_loads (text : str) : option json :=
  if bool_decide (text = Py.lit "{}") then Some (JDict []) else None.

Definition json_dumps (j : json) : str :=
  match j with
  | JDict ((_, JBool false) :: _) => Py.lit "{success: false}"
  | _ => Py.lit "{success: true}"
  end.

Definition process (user_input : str) : M str :=
  process default_settings json_loads json_dumps (Py.lit "You are Jarvis.")
          (λ base context, base ++ context) user_input.

(** A batch of three calls whose second names no registered tool. *)
Definition batch : AssistantMessage :=
  mkAssistantMessage None
    (Some [mkToolCall (Py.lit "call-1") (Py.lit "calculator") (Py.lit "{}");
           mkToolCall (Py.lit "call-2") (Py.lit "launch_rocket") (Py.lit "{}");
           mkToolCall (Py.lit "call-3") (Py.lit "get_current_time") (Py.lit "{}")]).

End Sample.

(** ** Further functions of the cited files *)

(** The loop of [SupabaseStorage.get_preferences] over the rows
    [(category, key, value)] of the answer: a dictionary of dictionaries. *)
Definition preferences_add (prefs : gmap str (gmap str str))
    (row : str * str * str) : gmap str (gmap str str) :=
  let cat := row.1.1 in
  let prefs :=
    match prefs !! cat with
    | None => <[cat := ∅]> prefs
    | Some _ => prefs
    end in
  <[cat := <[row.1.2 := row.2]> (default ∅ (prefs !! cat))]> prefs.

Definition preferences_of_rows (rows : list (str * str * str))
  : gmap str (gmap str str) :=
  foldl preferences_add ∅ rows.

(** [prefs[cat][key]], when both keys are present. *)
Definition preference_lookup (prefs : gmap str (gmap str str))
    (cat key : str) : option str :=
  prefs !! cat ≫= (λ d, d !! key).

(** The value of the last row written for [(cat, key)]. *)
Definition last_written (rows : list (str * str * str)) (cat key : str)
  : option str :=
  snd <$> last (filter (λ row, row.1.1 = cat ∧ row.1.2 = key) rows).

(** The values of the members of [Importance]. *)
Definition code_importances : list str :=
  map Importance_value Importance_members.

(** The fetched facts that score, with their scores, in fetch order. *)
Definition scoring (lower : str → str) (query : str) (clock : nat → datetime)
    (facts : list UserFact) : list (Z * UserFact) :=
  filter (λ p, p.1 ≠ 0) (spec_scored lower query clock facts).

(** [ShortTermMemory.save_progress] *)
Definition save_progress : M unit :=
  (s <- get ;;
   match current_conversation (short_term s), _message_buffer (short_term s) with
   | Some conversation, _ :: _ =>
       try_except
         (call (storage_save_conversation conversation) ;;
          s <- get ;;
          put (set_short_term s
                 (mkShortTermMemory (max_messages (short_term s))
                                    (current_conversation (short_term s)) [])))
         (λ _, ret tt)
   | _, _ => ret tt
   end)%agent.

(** The messages that [SupabaseStorage.save_conversation] inserts: those
    whose [id] is not set ("only save new messages"). *)
Definition messages_data (conversation : Conversation) : list Message :=
  filter (λ msg, truthy_opt_str (msg_id msg) = false) (messages conversation).

(** The [name] attribute of the class of a tool. *)
Definition Tool_name (tool : Tool) : str :=
  match tool with
  | WeatherTool => Py.lit "get_weather"
  | CalculatorTool => Py.lit "calculator"
  | CurrentTimeTool => Py.lit "get_current_time"
  | SetReminderTool _ => Py.lit "set_reminder"
  | GetRemindersTool _ => Py.lit "get_reminders"
  | AddToGroceryListTool _ _ => Py.lit "add_to_grocery_list"
  | ViewGroceryListTool _ => Py.lit "view_grocery_list"
  | CreateOrderRequestTool _ _ => Py.lit "create_order_request"
  end.

(** The classes whose definitions [get_tool_definitions] collects, in its
    order, as instances for the user. *)
Definition declared_tools (user_id : str) : list Tool :=
  (STATELESS_TOOLS.*2) ++
  [SetReminderTool user_id; GetRemindersTool user_id;
   AddToGroceryListTool user_id user_id; ViewGroceryListTool user_id;
   CreateOrderRequestTool user_id user_id].

(** The completion requests of a trace, in order. *)
Definition chat_request (e : event) : option ChatRequest :=
  match projT2 e with
  | chat_completions_create request => Some request
  | _ => None
  end.

Definition chat_requests (tr : list event) : list ChatRequest :=
  omap chat_request tr.

(** The reply of [process] when the completion service fails. *)
Definition apology : str :=
  Py.lit "Sorry, I had trouble thinking about that. Could you try again?".

(** The profile [increment_conversation_count] writes back. *)
Definition counted (user : UserProfile) : UserProfile :=
  mkUserProfile (profile_id user) (user_name user) (role user) (age user)
                (preferred_language user) (preferred_response_length user)
                (requires_approval user) (can_approve_orders user)
                (total_conversations user + 1).

(** The step "Truncate for voice if too long" of [process]. *)
Definition voice_reply (settings : Settings) (reply : str) : str :=
  if Py.len reply >? max_response_length settings
  then _truncate_for_voice settings reply else reply.

(** The arguments of the [add_message] calls of [process]. *)
Definition user_turn (user_input : str) (now : datetime) : add_args :=
  mkAddArgs (Py.lit "user") user_input None None now.

Definition assistant_turn (reply : str) (now : datetime) : add_args :=
  mkAddArgs (Py.lit "assistant") reply None None now.

(** The first completion request of a turn. *)
Definition first_request (settings : Settings) (system_prompt : str)
    (s : JarvisAgent) : ChatRequest :=
  let offered := match tool_definitions s with [] => false | _ => true end in
  mkChatRequest (openai_model settings)
    (mkLlmMessage (Py.lit "system") (Some system_prompt) None None
     :: get_messages_for_llm (short_term s))
    (if offered then Some (tool_definitions s) else None)
    (if offered then Some (Py.lit "auto") else None)
    500 (Some (7, 10)).

(** The follow-up completion request of [_handle_tool_calls]. *)
Definition follow_up_request (settings : Settings)
    (messages : list LlmMessage) : ChatRequest :=
  mkChatRequest (openai_model settings) messages None None 500 None.

(** The content recorded for a call whose tool ran: the serialised
    result; the failure dictionary carrying the [TypeError] text when the
    result holds an object that cannot be serialised; the failure
    dictionary carrying [str(e)] when the tool raised. *)
Definition result_content (json_dumps : json → str) (r : res ToolResult) : str :=
  match r with
  | Ok result =>
      match not_serializable (result_dict result) with
      | None => json_dumps (result_dict result)
      | Some type_name =>
          json_dumps (failure_dict (Py.lit "Object of type " ++ type_name
                                    ++ Py.lit " is not JSON serializable"))
      end
  | Raise e => json_dumps (failure_dict e)
  end.

Section ToolLoop.

Context {W : Type} (answer : ∀ X, Call X → W → X * W).
Context (json_loads : str → option json) (json_dumps : json → str).
Context (registry : gmap str Tool).

(** What the loop records for a call reached in the environment state
    [w], and the state the run of its tool leaves. *)
Definition tool_ran (tool_call : ToolCall) (w : W) : str * W :=
  match registry !! function_name tool_call with
  | Some tool =>
      let r := answer _ (tool_execute tool (parse_arguments json_loads tool_call))
                      w in
      (result_content json_dumps r.1, r.2)
  | None =>
      (json_dumps (failure_dict
                     (Py.lit "Unknown tool: " ++ function_name tool_call)), w)
  end.

(** One round of the loop: the content and the clock reading recorded
    for the call, and the environment state the round leaves. *)
Definition tool_step (tool_call : ToolCall) (w : W) : (str * datetime) * W :=
  let ran := tool_ran tool_call w in
  let now := answer _ utcnow ran.2 in
  ((ran.1, now.1), now.2).

(** The rounds of a batch, each starting where the one before ended. *)
Fixpoint tool_records (tool_calls : list ToolCall) (w : W)
  : list (str * datetime) * W :=
  match tool_calls with
  | [] => ([], w)
  | tool_call :: rest =>
      let r := tool_step tool_call w in
      let rs := tool_records rest r.2 in
      (r.1 :: rs.1, rs.2)
  end.

(** The calls a batch makes: for each tool call the run of its tool, when
    it is registered, and the clock reading of [add_message]. *)
Definition tool_events (tool_calls : list ToolCall) : list event :=
  flat_map (λ tool_call,
              match registry !! function_name tool_call with
              | Some tool =>
                  [Event (tool_execute tool
                            (parse_arguments json_loads tool_call));
                   Event utcnow]
              | None => [Event utcnow]
              end)
           tool_calls.

End ToolLoop.

(** The reply [_handle_tool_calls] draws from its follow-up completion. *)
Definition follow_up_reply (r : res AssistantMessage) : str :=
  match r with
  | Ok final_response => or_else (am_content final_response) (Py.lit "Done.")
  | Raise _ => Py.lit "I completed the task, but had trouble summarizing it."
  end.

(** The assistant message [_handle_tool_calls] appends before the tool
    results. *)
Definition assistant_request_message (assistant_message : AssistantMessage)
  : LlmMessage :=
  mkLlmMessage (Py.lit "assistant") (am_content assistant_message) None
               (Some (default [] (am_tool_calls assistant_message))).

(** The value [end_session] leaves in [summary] after the guarded
    extraction block, given the answer of [extract_and_save] and, when it
    is asked, that of [generate_summary]. *)
Definition summary_after (extracted : res Extracted)
    (generated : res (option str)) : option str :=
  match extracted with
  | Raise _ => None
  | Ok extracted =>
      if truthy_opt_str (extracted_summary extracted)
      then extracted_summary extracted
      else match generated with
           | Ok summary => summary
           | Raise _ => extracted_summary extracted
           end
  end.

(** The agent as [end_session] leaves it. *)
Definition session_cleared (s : JarvisAgent) : JarvisAgent :=
  mkJarvisAgent (mkShortTermMemory (max_messages (short_term s)) None [])
                None ∅ [].

(** The character class of the validation pattern of
    [CalculatorTool.execute]. *)
Definition allowed (c : Py.char) : bool :=
  Calculator.digit c || PyStr.isspace c || Calculator.one_of "+-*/().,%" c
  || Calculator.word c.

(** ** lambda_function.py: the conversational handler *)

(** What the handler reads of [handler_input.request_envelope.session]:
    the [new] flag, the user id when a user is attached, and the session
    id. *)
Record Session := mkSession {
  session_new : bool;
  session_user : option (option str);
  session_id : option str
}.

(** The three settings of agent/config.py that [Settings.validate]
    requires. *)
Record Credentials := mkCredentials {
  openai_api_key : str;
  supabase_url : str;
  supabase_key : str
}.

(** [Settings.validate] *)
Definition Settings_validate (required : Credentials) : res bool :=
  if negb (truthy_str (openai_api_key required))
  then Raise (Py.lit "OPENAI_API_KEY environment variable is required")
  else if negb (truthy_str (supabase_url required))
  then Raise (Py.lit "SUPABASE_URL environment variable is required")
  else if negb (truthy_str (supabase_key required))
  then Raise (Py.lit "SUPABASE_KEY environment variable is required")
  else Ok true.

Section Handler.

Variable settings : Settings.
Variable json_loads : str → option json.
Variable json_dumps : json → str.
Variable SYSTEM_PROMPT_BASE : str.
Variable SYSTEM_PROMPT_WITH_CONTEXT : str → str → str.

(** [JarvisAgent()]: the settings are validated before anything else;
    [clients] is the outcome of building the OpenAI and Supabase clients
    (in the constructors of the agent, of its storage and of its
    extractor), which nothing guards. *)
Definition JarvisAgent_new (required : Credentials) (clients : res unit)
  : res JarvisAgent :=
  match Settings_validate required with
  | Raise e => Raise e
  | Ok _ =>
      match clients with
      | Raise e => Raise e
      | Ok _ => Ok (JarvisAgent_init settings)
      end
  end.

(** [get_agent], on the global [_agent]: the agent is built only when
    there is none, and kept only when it could be built. *)
Definition get_agent (required : Credentials) (clients : res unit)
    (_agent : option JarvisAgent) : res JarvisAgent * option JarvisAgent :=
  match _agent with
  | Some agent => (Ok agent, _agent)
  | None =>
      match JarvisAgent_new required clients with
      | Ok agent => (Ok agent, Some agent)
      | Raise e => (Raise e, None)
      end
  end.

(** [CatchAllIntentHandler.handle] from the point where it holds the
    agent, as a method on it: the session is started when needed, without
    a guard, and the turn is processed under one, the handler of the
    [except] clause being [on_error]. The result is the pair of texts
    given to [speak] and to [ask]. *)
Definition CatchAllIntentHandler_serve_with (on_error : str → M str)
    (session : option Session) (user_input : str) : M (str * str) :=
  (let user_id :=
     match session with
     | Some (mkSession _ (Some user_id) _) => user_id
     | _ => Some (default_user_id settings)
     end in
   let session_id := session ≫= session_id in
   let is_new := from_option session_new true session in
   s <- get ;;
   (if is_new || negb (bool_decide (is_Some (current_user s)))
    then start_session settings user_id session_id ;; ret tt
    else ret tt) ;;
   response_text <-
     try_except
       (process settings json_loads json_dumps SYSTEM_PROMPT_BASE
                SYSTEM_PROMPT_WITH_CONTEXT user_input)
       on_error ;;
   ret (response_text, Py.lit "Anything else?"))%agent.

(** [CatchAllIntentHandler.handle], on the global [_agent]. [utterance]
    is the value of the slot "utterance" when the slot is there. An empty
    utterance is answered before [get_agent] is called; a fault of
    [get_agent] propagates, as nothing guards it. The global refers to
    the agent on which the methods ran, so it holds their effects. *)
Definition CatchAllIntentHandler_handle_with (on_error : str → M str)
    (required : Credentials) (clients : res unit)
    (session : option Session) (utterance : option str)
    (_agent : option JarvisAgent)
  : prog (res (str * str) * option JarvisAgent) :=
  let user_input := or_else utterance [] in
  if negb (truthy_str user_input)
  then Ret (Ok (Py.lit "I didn't catch that. What would you like?",
                Py.lit "You can ask me about weather, set reminders, or manage your grocery list."),
            _agent)
  else
    match get_agent required clients _agent with
    | (Raise e, _agent) => Ret (Raise e, _agent)
    | (Ok agent, _) =>
        bind (CatchAllIntentHandler_serve_with on_error session user_input agent)
             (λ rs, Ret (rs.1, Some rs.2))
    end.

Definition CatchAllIntentHandler_handle
  : Credentials → res unit → option Session → option str →
    option JarvisAgent → prog (res (str * str) * option JarvisAgent) :=
  CatchAllIntentHandler_handle_with
    (λ _, ret (Py.lit "Sorry, I had trouble processing that. Please try again.")).

End Handler.

(** ** agent/prompts.py: sections of the user context

    The sections that [build_user_context] adds to [parts] for the
    preferences, the facts and the conversation summaries. A dictionary
    is given by its items in iteration order. *)

Definition newline : string := String "010" EmptyString.

(** The lines appended to [pref_lines] by the two nested loops. *)
Definition preference_lines (preferences : list (str * list (str * str)))
  : list str :=
  flat_map (λ cp, map (λ kv, cp.1 ++ Py.lit "/" ++ kv.1 ++ Py.lit ": " ++ kv.2)
                      cp.2)
           preferences.

Definition preferences_section (preferences : list (str * list (str * str)))
  : list str :=
  match preferences with
  | [] => []
  | _ =>
      let pref_lines :=
        [Py.lit (newline ++ "USER PREFERENCES:")]
        ++ preference_lines preferences in
      if Py.len pref_lines >? 1 then Py.slice_to 12 pref_lines else []
  end.

Definition importance_marker (f : UserFact) : str :=
  if bool_decide (Importance_value (importance f)
                  ∈ [Py.lit "high"; Py.lit "critical"])
  then Py.lit "[IMPORTANT] " else [].

Definition facts_section (facts : list UserFact) : list str :=
  match facts with
  | [] => []
  | _ =>
      [Py.lit (newline ++ "THINGS YOU KNOW ABOUT THIS USER:")]
      ++ map (λ f, importance_marker f ++ fact f) (Py.slice_to 10 facts)
  end.

Definition summaries_section (conversation_summaries : list str) : list str :=
  match conversation_summaries with
  | [] => []
  | _ =>
      [Py.lit (newline ++ "RECENT CONVERSATIONS:")]
      ++ Py.slice_to 3 conversation_summaries
  end.

(** ** Further sample data *)

Module Scenario.

(** An environment whose completion service is down; the other
    collaborators work as in [Sample.answer]. *)
Definition offline (X : Type) (c : Call X) (w : nat) : X * nat :=
  match c in Call X return X * nat with
  | chat_completions_create _ => (Raise (Py.lit "timeout"), S w)
  | c => Sample.answer _ c w
  end.

(** An environment whose completion service asks for the calls of
    [Sample.batch] and then sums up, while the clock tool is broken. *)
Definition tooling (X : Type) (c : Call X) (w : nat) : X * nat :=
  match c in Call X return X * nat with
  | chat_completions_create request =>
      (Ok (match req_temperature request with
           | Some _ => Sample.batch
           | None => mkAssistantMessage (Some (Py.lit "All done.")) None
           end), S w)
  | tool_execute CurrentTimeTool _ => (Raise (Py.lit "clock broken"), S w)
  | c => Sample.answer _ c w
  end.

(** A user known to the store, and a store that cannot be written. *)
Definition resident : UserProfile :=
  mkUserProfile (Py.lit "amzn1.ask.account.A1") (Py.lit "Asha") ELDERLY
                (Some 71) (Py.lit "hindi") (Py.lit "short") true false 41.

Definition read_only (X : Type) (c : Call X) (w : nat) : X * nat :=
  match c in Call X return X * nat with
  | storage_get_user _ => (Some resident, S w)
  | storage_insert_conversation _ _ => (Raise (Py.lit "503"), S w)
  | storage_save_conversation _ => (Raise (Py.lit "503"), S w)
  | storage_update_user _ => (Raise (Py.lit "503"), S w)
  | c => Sample.answer _ c w
  end.

(** An agent whose user is set while no conversation is open, as
    [start_session] leaves it when the conversation cannot be created. *)
Definition stranded_agent : JarvisAgent :=
  mkJarvisAgent Sample.idle_memory (Some resident) ∅ [].

(** A session whose conversation holds four messages. *)
Definition long_conversation : Conversation :=
  set_messages Sample.conversation
    [new_message Sample.hello; new_message Sample.reply;
     new_message Sample.hello; new_message Sample.reply].

Definition long_agent : JarvisAgent :=
  mkJarvisAgent (mkShortTermMemory 20 (Some long_conversation)
                   [new_message Sample.hello; new_message Sample.reply])
                (Some resident)
                (get_tool_registry (Py.lit "amzn1.ask.account.A1"))
                (get_tool_definitions (Py.lit "amzn1.ask.account.A1")).



(** A deployment in which the key of the completion service is not set. *)
Definition no_openai_key : Credentials :=
  mkCredentials [] (Py.lit "https://jarvis.supabase.co") (Py.lit "service-key").

End Scenario.

(** * Properties *)

(** ** Python slices *)

Lemma slice_index_nonneg n i : 0 <= i -> Py.slice_index n i = Z.min i n.
Proof. intros Hi. unfold Py.slice_index. destruct (Z.ltb_spec i 0); lia. Qed.

Lemma slice_to_take {A} (j : Z) (l : list A) :
  0 <= j -> Py.slice_to j l = take (Z.to_nat j) l.
Proof.
  intros Hj. unfold Py.slice_to, Py.len. rewrite slice_index_nonneg by done.
  destruct (Z.le_gt_cases j (Z.of_nat (length l))) as [Hle|Hgt].
  - by rewrite Z.min_l.
  - rewrite Z.min_r by lia. rewrite Nat2Z.id.
    rewrite !take_ge; [done | lia | lia].
Qed.

Lemma slice_from_negative {A} (n : Z) (l : list A) :
  0 < n -> Py.slice_from (- n) l = drop (length l - Z.to_nat n) l.
Proof.
  intros Hn. unfold Py.slice_from, Py.slice_index, Py.len.
  destruct (Z.ltb_spec (- n) 0); [|lia]. f_equal. lia.
Qed.

(** [l[-0:]] is [l[0:]], the whole list. *)
Lemma slice_from_zero {A} (l : list A) : Py.slice_from (- 0) l = l.
Proof. unfold Py.slice_from, Py.slice_index, Py.len. simpl. by rewrite Z.min_l by lia. Qed.

Lemma length_slice_to {A} (j : Z) (l : list A) :
  0 <= j -> Py.len (Py.slice_to j l) = Z.min j (Py.len l).
Proof.
  intros Hj. rewrite slice_to_take by done. unfold Py.len.
  rewrite length_take. lia.
Qed.

(** ** Short-term memory *)

Section ShortTerm.

Implicit Types (stm : ShortTermMemory) (a : add_args) (calls : list add_args).

Lemma add_message_max stm a :
  max_messages (add_message a stm).2 = max_messages stm.
Proof. unfold add_message. by destruct (current_conversation stm). Qed.

Lemma add_messages_max calls stm :
  max_messages (add_messages calls stm) = max_messages stm.
Proof.
  revert stm. induction calls as [|a calls IH]; intros stm; [done|].
  unfold add_messages in *. simpl. rewrite IH. apply add_message_max.
Qed.

Lemma add_messages_snoc calls a stm :
  add_messages (calls ++ [a]) stm = (add_message a (add_messages calls stm)).2.
Proof. unfold add_messages. by rewrite fold_left_app. Qed.

Lemma add_messages_active calls stm :
  is_Some (current_conversation stm) ->
  is_Some (current_conversation (add_messages calls stm)).
Proof.
  revert stm. induction calls as [|a calls IH]; intros stm Hs; [done|].
  unfold add_messages in *. simpl. apply IH.
  unfold add_message. destruct Hs as [c ->]. simpl. eauto.
Qed.

(** The log after one call, in terms of the log before it. *)
Lemma stored_log_add_message stm a :
  is_Some (current_conversation stm) ->
  stored_log (add_message a stm).2 =
    let appended := stored_log stm ++ [new_message a] in
    if Py.len appended >? max_messages stm
    then Py.slice_from (- max_messages stm) appended else appended.
Proof. intros [c Hc]. unfold stored_log, add_message. rewrite Hc. done. Qed.

(** With a positive maximum [N], the log always is the last [N] messages
    appended so far. *)
Lemma stored_log_last_messages calls stm :
  0 < max_messages stm ->
  is_Some (current_conversation stm) ->
  stored_log stm = [] ->
  stored_log (add_messages calls stm) =
    drop (length calls - Z.to_nat (max_messages stm)) (map new_message calls).
Proof.
  intros Hpos Hact Hempty.
  induction calls as [|a calls IH] using rev_ind.
  - simpl. by rewrite Hempty.
  - rewrite add_messages_snoc, stored_log_add_message
      by (by apply add_messages_active).
    rewrite add_messages_max, IH. clear IH. simpl.
    rewrite map_app, length_app. simpl.
    set (N := Z.to_nat (max_messages stm)).
    set (all := map new_message calls).
    assert (Hlen : length all = length calls) by apply length_map.
    unfold Py.len. rewrite length_app, length_drop, Hlen. simpl.
    destruct (Z.gtb_spec (Z.of_nat (length calls - (length calls - N) + 1))
                         (max_messages stm)) as [Hgt|Hle].
    + rewrite slice_from_negative by done.
      rewrite length_app, length_drop, Hlen. simpl. fold N.
      rewrite drop_app_le by (rewrite length_drop; lia). rewrite drop_drop.
      rewrite drop_app_le by lia. f_equal. f_equal. lia.
    + rewrite drop_app_le by lia. f_equal. f_equal. lia.
Qed.

Lemma stored_log_bounded calls stm :
  0 < max_messages stm ->
  is_Some (current_conversation stm) ->
  stored_log stm = [] ->
  Py.len (stored_log (add_messages calls stm)) <= max_messages stm.
Proof.
  intros Hpos Hact Hempty. rewrite stored_log_last_messages by done.
  unfold Py.len. rewrite length_drop, length_map. lia.
Qed.

(** With the maximum set to 0 nothing is ever dropped: the trim keeps
    [messages[-0:]], the whole list. *)
Lemma stored_log_zero_maximum calls stm :
  max_messages stm = 0 ->
  is_Some (current_conversation stm) ->
  stored_log stm = [] ->
  stored_log (add_messages calls stm) = map new_message calls.
Proof.
  intros Hzero Hact Hempty.
  induction calls as [|a calls IH] using rev_ind.
  - simpl. by rewrite Hempty.
  - rewrite add_messages_snoc, stored_log_add_message
      by (by apply add_messages_active).
    rewrite add_messages_max, IH, Hzero, map_app. simpl.
    rewrite slice_from_zero. by destruct (_ >? _).
Qed.

End ShortTerm.

(** C1 (the code departs from the claim when the configured maximum is 0).
    With [MAX_CONVERSATION_MESSAGES=0] the first [add_message] on an empty
    conversation overflows, yet the trim [messages[-0:]] keeps the whole
    list: the stored log holds one message, more than the maximum, and is
    not the most recent 0 messages. For every maximum of at least 1 the
    claim holds, see [stored_log_bounded] and [stored_log_last_messages]. *)
Theorem short_term_zero_maximum_not_trimmed :
  let stm := (add_message Sample.hello (Sample.memory 0)).2 in
  max_messages stm = 0 /\
  stored_log stm = [new_message Sample.hello] /\
  Py.len (stored_log stm) > max_messages stm /\
  stored_log stm <> drop (1 - 0) [new_message Sample.hello].
Proof. vm_compute. repeat split; congruence. Qed.

(** C10. [add_message] called while no conversation is active builds and
    returns the message from its arguments and leaves the memory as it
    was: the conversation pointer, the log and the buffer of unsaved
    messages are unchanged. *)
Theorem add_message_without_conversation (a : add_args) (stm : ShortTermMemory) :
  current_conversation stm = None ->
  let (message, stm') := add_message a stm in
  message = mkMessage None (arg_role a) (arg_content a) (arg_tool_name a)
                      (arg_tool_call_id a) (arg_now a) /\
  stm' = stm /\
  stored_log stm' = [] /\
  _message_buffer stm' = _message_buffer stm.
Proof.
  intros Hnone. unfold add_message, stored_log. rewrite Hnone. simpl.
  rewrite Hnone. done.
Qed.

Lemma add_message_without_conversation_witness :
  current_conversation Sample.idle_memory = None /\
  (add_message Sample.hello Sample.idle_memory).2 = Sample.idle_memory.
Proof.
  split; [reflexivity|].
  pose proof (add_message_without_conversation Sample.hello
                Sample.idle_memory eq_refl) as H.
  destruct (add_message Sample.hello Sample.idle_memory) as [m s].
  exact (proj1 (proj2 H)).
Defined.

(** ** Voice-length truncation *)

Section Truncate.

Implicit Types (s text : str) (c : Py.char).

(** [rfind] returns -1 when the character is absent, and otherwise the
    position of its last occurrence. *)
Lemma rfind_from_spec c s k :
  0 <= k ->
  (rfind_from c s k = -1 ∧ ∀ j x, s !! j = Some x → x ≠ c) ∨
  (∃ i : nat, rfind_from c s k = k + Z.of_nat i ∧ s !! i = Some c ∧
     ∀ j x, (i < j)%nat → s !! j = Some x → x ≠ c).
Proof.
  revert k. induction s as [|x s IH]; intros k Hk; simpl.
  - left. split; [done|]. intros j y Hj. by destruct j.
  - destruct (IH (k + 1)) as [[Hr Hno]|(i & Hr & Hi & Hlater)]; [lia| |].
    + rewrite Hr. simpl. destruct (N.eqb_spec x c) as [->|Hne].
      * right. exists 0%nat. split; [lia|]. split; [done|].
        intros [|j] y Hlt Hj; [lia|]. simpl in Hj. eauto.
      * left. split; [done|]. intros [|j] y Hj; simpl in Hj; [congruence|eauto].
    + rewrite Hr. destruct (Z.geb_spec (k + 1 + Z.of_nat i) 0) as [_|Hneg]; [|lia].
      right. exists (S i). split; [lia|]. split; [done|].
      intros [|j] y Hlt Hj; [lia|]. simpl in Hj. apply (Hlater j); [lia|done].
Qed.

Lemma rfind_spec c s :
  (rfind c s = -1 ∧ ∀ j x, s !! j = Some x → x ≠ c) ∨
  (∃ i : nat, rfind c s = Z.of_nat i ∧ s !! i = Some c ∧
     ∀ j x, (i < j)%nat → s !! j = Some x → x ≠ c).
Proof. unfold rfind. by destruct (rfind_from_spec c s 0) as [?|(i & ? & ?)]; eauto. Qed.

Lemma rfind_bounds c s : -1 <= rfind c s < Py.len s.
Proof.
  destruct (rfind_spec c s) as [[-> _]|(i & -> & Hi & _)].
  - unfold Py.len. lia.
  - apply lookup_lt_Some in Hi. unfold Py.len. lia.
Qed.

Lemma sentence_end_cases c :
  sentence_end c = true ↔ c = Py.chr "." ∨ c = Py.chr "?" ∨ c = Py.chr "!".
Proof.
  unfold sentence_end. rewrite !orb_true_iff, !N.eqb_eq. tauto.
Qed.

Lemma break_point_bounds s : -1 <= break_point_of s < Py.len s.
Proof.
  unfold break_point_of.
  pose proof (rfind_bounds (Py.chr ".") s).
  pose proof (rfind_bounds (Py.chr "?") s).
  pose proof (rfind_bounds (Py.chr "!") s). lia.
Qed.

(** [break_point] is the position of the rightmost sentence end. *)
Lemma break_point_rightmost s i :
  rightmost_sentence_end s i → break_point_of s = Z.of_nat i.
Proof.
  intros [(c & Hc & Hend) Hlater]. unfold break_point_of.
  assert (Hle : ∀ d, sentence_end d = true → rfind d s <= Z.of_nat i).
  { intros d Hd. destruct (rfind_spec d s) as [[-> _]|(k & -> & Hk & _)]; [lia|].
    destruct (decide (i < k)%nat) as [Hlt|]; [|lia].
    specialize (Hlater k d Hlt Hk). congruence. }
  assert (Heq : rfind c s = Z.of_nat i).
  { destruct (rfind_spec c s) as [[_ Hno]|(k & -> & Hk & Hlast)].
    - by specialize (Hno i c Hc).
    - destruct (decide (k < i)%nat) as [Hlt|].
      + by specialize (Hlast i c Hlt Hc).
      + destruct (decide (i < k)%nat) as [Hgt|]; [|lia].
        specialize (Hlater k c Hgt Hk). congruence. }
  pose proof (Hle (Py.chr ".") eq_refl).
  pose proof (Hle (Py.chr "?") eq_refl).
  pose proof (Hle (Py.chr "!") eq_refl).
  apply sentence_end_cases in Hend as [-> | [-> | ->]]; lia.
Qed.

Lemma break_point_none s : no_sentence_end s → break_point_of s = -1.
Proof.
  intros Hno. unfold break_point_of.
  assert (Hm : ∀ d, sentence_end d = true → rfind d s = -1).
  { intros d Hd. destruct (rfind_spec d s) as [[-> _]|(k & _ & Hk & _)]; [done|].
    specialize (Hno k d Hk). congruence. }
  rewrite !Hm by done. done.
Qed.

(** The two outcomes of the code on a long text. *)
Lemma truncate_long settings text :
  let B := max_response_length settings in
  0 <= B -> Py.len text > B ->
  _truncate_for_voice settings text =
    if break_point_of (take (Z.to_nat B) text) >? B / 2
    then take (Z.to_nat (break_point_of (take (Z.to_nat B) text) + 1)) text
    else take (Z.to_nat B) text ++ Py.lit "...".
Proof.
  intros B HB Hlong. unfold _truncate_for_voice. fold B.
  destruct (Z.leb_spec (Py.len text) B); [lia|].
  rewrite slice_to_take by done. fold (break_point_of (take (Z.to_nat B) text)).
  destruct (_ >? _) eqn:Hgt; [|done].
  apply slice_to_take.
  pose proof (break_point_bounds (take (Z.to_nat B) text)). lia.
Qed.

End Truncate.

(** C3 as stated fails: with a budget of 4 the text "ab.de" has its
    rightmost sentence end at position 2, the midpoint of the budget, yet
    the code cuts at the budget and appends the ellipsis. *)
Theorem truncate_at_midpoint_not_cut :
  ¬ (∀ settings text i,
       Py.len text > max_response_length settings →
       rightmost_sentence_end
         (take (Z.to_nat (max_response_length settings)) text) i →
       max_response_length settings <= 2 * Z.of_nat i →
       _truncate_for_voice settings text = take (S i) text).
Proof.
  intros H.
  specialize (H (mkSettings (Py.lit "gpt-4o") 20 4 (Py.lit "u")) (Py.lit "ab.de") 2%nat).
  assert (Hr : rightmost_sentence_end (Py.lit "ab.d") 2).
  { split; [by exists (Py.chr ".")|].
    intros [|[|[|[|j]]]] c Hlt Hj; try lia; simpl in Hj; [|done].
    by injection Hj as <-. }
  specialize (H eq_refl Hr ltac:(simpl; lia)). vm_compute in H. congruence.
Qed.

(** C3, amended. For a text longer than the budget [B]: when the
    rightmost sentence-ending punctuation within the first [B] characters
    sits at a position strictly greater than [B // 2], the output is the
    text cut just after it; when it sits at a position of at most
    [B // 2], or when there is none, the output is the first [B]
    characters followed by "...". *)
Theorem truncate_for_voice_long settings text :
  let B := max_response_length settings in
  let head := take (Z.to_nat B) text in
  0 <= B → Py.len text > B →
  (∀ i, rightmost_sentence_end head i → B / 2 < Z.of_nat i →
        _truncate_for_voice settings text = take (S i) text) ∧
  (∀ i, rightmost_sentence_end head i → Z.of_nat i <= B / 2 →
        _truncate_for_voice settings text = head ++ Py.lit "...") ∧
  (no_sentence_end head →
        _truncate_for_voice settings text = head ++ Py.lit "...").
Proof.
  intros B head HB Hlong. rewrite truncate_long by done. fold B head.
  split; [|split].
  - intros i Hr Hi. rewrite (break_point_rightmost _ _ Hr).
    destruct (Z.gtb_spec (Z.of_nat i) (B / 2)); [|lia]. f_equal. lia.
  - intros i Hr Hi. rewrite (break_point_rightmost _ _ Hr).
    by destruct (Z.gtb_spec (Z.of_nat i) (B / 2)); [lia|].
  - intros Hno. rewrite (break_point_none _ Hno).
    destruct (Z.gtb_spec (-1) (B / 2)) as [Hgt|]; [|done].
    pose proof (Z.div_pos B 2 HB ltac:(lia)). lia.
Qed.

(** C4. A text no longer than the budget is returned unchanged (so
    truncating it again changes nothing), and for a non-negative budget
    [B] the result never has more than [B + 3] characters. *)
Theorem truncate_for_voice_short_and_bounded settings text :
  let B := max_response_length settings in
  (Py.len text <= B → _truncate_for_voice settings text = text) ∧
  (Py.len text <= B →
     _truncate_for_voice settings (_truncate_for_voice settings text) =
     _truncate_for_voice settings text) ∧
  (0 <= B → Py.len (_truncate_for_voice settings text) <= B + 3).
Proof.
  intros B.
  assert (Hshort : Py.len text <= B → _truncate_for_voice settings text = text).
  { intros Hle. unfold _truncate_for_voice. fold B.
    by destruct (Z.leb_spec (Py.len text) B); [|lia]. }
  split; [done|]. split; [intros Hle; by rewrite !Hshort|].
  intros HB. destruct (Z.le_gt_cases (Py.len text) B) as [Hle|Hlong].
  - rewrite Hshort by done. lia.
  - rewrite truncate_long by (done || lia). fold B.
    pose proof (break_point_bounds (take (Z.to_nat B) text)) as Hbp.
    assert (Hhead : Py.len (take (Z.to_nat B) text) = B).
    { unfold Py.len in *. rewrite length_take. lia. }
    destruct (_ >? _).
    + unfold Py.len in *. rewrite length_take. lia.
    + unfold Py.len in *. rewrite length_app. simpl. lia.
Qed.

Lemma truncate_for_voice_long_witness :
  _truncate_for_voice Sample.voice_settings Sample.two_sentences
  = Py.lit "Hi there.".
Proof.
  assert (Hr : rightmost_sentence_end
                 (take (Z.to_nat 10) Sample.two_sentences) 8).
  { split; [by exists (Py.chr ".")|].
    intros j c Hlt Hj. do 9 (destruct j as [|j]; [lia|]).
    destruct j as [|j]; simpl in Hj; [|done]. by injection Hj as <-. }
  exact (proj1 (truncate_for_voice_long Sample.voice_settings
                  Sample.two_sentences ltac:(done) ltac:(done))
               8%nat Hr ltac:(done)).
Defined.

Lemma truncate_for_voice_short_and_bounded_witness :
  _truncate_for_voice Sample.voice_settings (Py.lit "Hi.") = Py.lit "Hi." ∧
  Py.len (_truncate_for_voice Sample.voice_settings Sample.no_sentence) <= 13.
Proof.
  split.
  - exact (proj1 (truncate_for_voice_short_and_bounded Sample.voice_settings
                    (Py.lit "Hi.")) ltac:(done)).
  - exact (proj2 (proj2 (truncate_for_voice_short_and_bounded
                           Sample.voice_settings Sample.no_sentence))
                 ltac:(done)).
Defined.

(** ** The role enumeration *)

Lemma UserRole_of_value_value (r : UserRole) :
  UserRole_of_value (UserRole_value r) = Some r.
Proof. by destruct r. Qed.

Lemma UserRole_of_value_Some (v : str) (r : UserRole) :
  UserRole_of_value v = Some r → v = UserRole_value r.
Proof.
  unfold UserRole_of_value, enum_of_value. intros H.
  apply find_some in H as [_ H]. by apply bool_decide_eq_true in H.
Qed.

(** C7 as stated fails: the value "staff" is rejected, and the value
    "maid", which is not in the listed set, is accepted. *)
Theorem role_staff_rejected_maid_accepted :
  validate_role (Py.lit "staff") = None ∧
  validate_role (Py.lit "maid") = Some MAID ∧
  (Py.lit "maid" ∉ spec_roles) ∧
  ¬ (∀ v, is_Some (validate_role v) ↔ v ∈ spec_roles).
Proof.
  assert (Hmaid : Py.lit "maid" ∉ spec_roles).
  { unfold spec_roles. rewrite !not_elem_of_cons. vm_compute.
    repeat split; try congruence. apply not_elem_of_nil. }
  repeat split; [done|].
  intros H. apply Hmaid, H. by exists MAID.
Qed.

(** C7, amended. The role field of every user profile is one of adult,
    child, elderly, maid and guest; a value validates as a role exactly
    when it is one of these five, and any other value is a validation
    failure. *)
Theorem user_role_closed_set :
  code_roles = [Py.lit "adult"; Py.lit "child"; Py.lit "elderly";
                Py.lit "maid"; Py.lit "guest"] ∧
  (∀ p : UserProfile, UserRole_value (role p) ∈ code_roles) ∧
  (∀ v, is_Some (validate_role v) ↔ v ∈ code_roles) ∧
  (∀ v, v ∉ code_roles → validate_role v = None).
Proof.
  assert (Hiff : ∀ v, is_Some (validate_role v) ↔ v ∈ code_roles).
  { intros v. unfold validate_role, code_roles. split.
    - intros [r Hr]. apply UserRole_of_value_Some in Hr as ->.
      apply list_elem_of_fmap. exists r. split; [done|].
      destruct r; unfold UserRole_members; set_solver.
    - intros (r & -> & _)%list_elem_of_fmap.
      rewrite UserRole_of_value_value. by eexists. }
  split; [done|]. split; [|split; [done|]].
  - intros p. apply Hiff. unfold validate_role.
    rewrite UserRole_of_value_value. by eexists.
  - intros v Hv. destruct (validate_role v) eqn:E; [|done].
    exfalso. apply Hv, Hiff. by eexists.
Qed.

Lemma user_role_closed_set_witness :
  validate_role (Py.lit "staff") = None ∧
  is_Some (validate_role (Py.lit "maid")).
Proof.
  destruct user_role_closed_set as (Hroles & _ & Hiff & Hother). split.
  - apply Hother. rewrite Hroles. rewrite !not_elem_of_cons. vm_compute.
    repeat split; try congruence. apply not_elem_of_nil.
  - apply Hiff. rewrite Hroles. rewrite !elem_of_cons. tauto.
Defined.

(** ** Relevance ranking *)

Section StableSort.

Context {A : Type} (key : A → Z).

Lemma insert_reverse_perm x l : insert_reverse key x l ≡ₚ x :: l.
Proof.
  induction l as [|y l IH]; simpl; [done|].
  destruct (key y >? key x); [|done]. rewrite IH. apply Permutation_swap.
Qed.

Lemma sort_reverse_perm l : sort_reverse key l ≡ₚ l.
Proof.
  induction l as [|x l IH]; simpl; [done|].
  unfold sort_reverse in *. simpl. by rewrite insert_reverse_perm, IH.
Qed.





End StableSort.

Section Relevance.

Context (lower : str → str).

Implicit Types (f : UserFact) (facts : list UserFact) (query : str).

(** The size of the intersection of the two word sets is the number of
    distinct shared words. *)
Lemma overlap_size (a b : list str) :
  size (list_to_set a ∩ list_to_set b : gset str) =
  length (remove_dups (filter (λ w, w ∈ b) a)).
Proof.
  rewrite <- (size_list_to_set (C := gset str)) by apply NoDup_remove_dups.
  f_equal. apply set_eq. intros w.
  rewrite elem_of_intersection, !elem_of_list_to_set, elem_of_remove_dups,
    list_elem_of_filter. tauto.
Qed.

(** Fewer than seven whole days have passed exactly when the elapsed
    time is below seven days. *)
Lemma days_ago_recent (now t : datetime) :
  (timedelta_days (now - t) <? 7) = referenced_within 7 now t.
Proof.
  unfold timedelta_days, referenced_within, microseconds_per_day.
  change (86400 * 1000000) with 86400000000.
  pose proof (Z.div_mod (now - t) 86400000000 ltac:(lia)) as Hdm.
  pose proof (Z.mod_pos_bound (now - t) 86400000000 ltac:(lia)) as Hb.
  destruct (Z.ltb_spec ((now - t) / 86400000000) 7),
    (Z.ltb_spec (now - t) (7 * 86400000000)); (done || lia).
Qed.

(** The score computed by the loop body: the recency points are earned by
    a naive timestamp only. *)
Lemma score_fact_spec query now f :
  score_fact lower (list_to_set (PyStr.split (lower query))) now f =
  spec_score lower query now f.
Proof.
  unfold score_fact, spec_score, score_with, word_set, shared_words,
    recently_referenced.
  rewrite overlap_size.
  destruct (last_referenced f) as [[t|t]|]; cbn [utcnow_minus];
    [rewrite days_ago_recent| |];
    destruct (importance f); simpl;
    try destruct (referenced_within 7 now t); lia.
Qed.

Lemma spec_score_nonneg query now f : 0 <= spec_score lower query now f.
Proof.
  unfold spec_score, score_with.
  repeat case_bool_decide; destruct (recently_referenced now f); lia.
Qed.

(** The loop keeps, in fetch order, the facts whose score is not 0. *)
Lemma score_loop_spec query clock i facts :
  score_loop lower (list_to_set (PyStr.split (lower query))) clock i facts =
  filter (λ p, p.1 ≠ 0)
         (imap (λ j f, (spec_score lower query (clock (i + j)%nat) f, f)) facts).
Proof.
  revert i. induction facts as [|f facts IH]; intros i; [done|].
  simpl. rewrite score_fact_spec, IH, filter_cons. simpl.
  rewrite Nat.add_0_r.
  erewrite (imap_ext _ ((λ j f0, (spec_score lower query (clock (i + j)%nat) f0, f0)) ∘ S));
    [|intros; simpl; do 3 f_equal; lia].
  pose proof (spec_score_nonneg query (clock i) f).
  destruct (Z.gtb_spec (spec_score lower query (clock i) f) 0); case_decide;
    (done || lia).
Qed.

End Relevance.




Example get_relevant_facts_sample :
  get_relevant_facts PyStr.lower [Sample.peanuts; Sample.green_tea]
                     Sample.clock Sample.tea_query 1 = [Sample.green_tea] ∧
  get_relevant_facts PyStr.lower [Sample.green_tea; Sample.peanuts]
                     Sample.clock (Py.lit "nothing in common") 10
    = [Sample.peanuts].
Proof. by vm_compute. Qed.

(** ** Running agent methods *)

Section RunLemmas.

Context {W : Type} (answer : ∀ X, Call X → W → X * W).

(** Running a method from an agent state. *)
Abbreviation exec m s w := (run answer (m s) w).

Lemma run_bind {A B} (p : prog A) (f : A → prog B) w :
  run answer (bind p f) w =
  let o := run answer p w in
  let o' := run answer (f (result o)) (world o) in
  mkOutcome (result o') (world o') (trace o ++ trace o').
Proof.
  revert w. induction p as [a|X c k IH]; intros w; simpl.
  - by destruct (run answer (f a) w).
  - rewrite IH. done.
Qed.

Lemma exec_mbind {A B} (m : M A) (f : A → M B) s w :
  exec (mbind m f) s w =
  let o := exec m s w in
  match (result o).1 with
  | Ok a =>
      let o' := exec (f a) (result o).2 (world o) in
      mkOutcome (result o') (world o') (trace o ++ trace o')
  | Raise e => mkOutcome (Raise e, (result o).2) (world o) (trace o)
  end.
Proof.
  unfold mbind. rewrite run_bind. simpl.
  destruct (result (run answer (m s) w)).1; simpl; [done|].
  by rewrite app_nil_r.
Qed.

Lemma exec_try_except {A} (m : M A) (h : str → M A) s w :
  exec (try_except m h) s w =
  let o := exec m s w in
  match (result o).1 with
  | Ok a => mkOutcome (Ok a, (result o).2) (world o) (trace o)
  | Raise e =>
      let o' := exec (h e) (result o).2 (world o) in
      mkOutcome (result o') (world o') (trace o ++ trace o')
  end.
Proof.
  unfold try_except. rewrite run_bind. simpl.
  destruct (result (run answer (m s) w)).1; simpl; [|done].
  by rewrite app_nil_r.
Qed.

Lemma post_ret {A} (a : A) s w Q : Q (Ok a) s w [] → post answer (ret a) s w Q.
Proof. done. Qed.

Lemma post_get s w Q : Q (Ok s) s w [] → post answer get s w Q.
Proof. done. Qed.

Lemma post_put s' s w Q : Q (Ok tt) s' w [] → post answer (put s') s w Q.
Proof. done. Qed.

Lemma post_ask {X} (c : Call X) s w Q :
  Q (Ok (answer _ c w).1) s (answer _ c w).2 [Event c] →
  post answer (ask c) s w Q.
Proof. done. Qed.

Lemma post_call {X} (c : Call (res X)) s w Q :
  Q (answer _ c w).1 s (answer _ c w).2 [Event c] →
  post answer (call c) s w Q.
Proof. done. Qed.

Lemma post_mbind {A B} (m : M A) (f : A → M B) s w Q :
  post answer m s w (λ r s' w' tr,
    match r with
    | Ok a => post answer (f a) s' w' (λ r' s'' w'' tr', Q r' s'' w'' (tr ++ tr'))
    | Raise e => Q (Raise e) s' w' tr
    end) →
  post answer (mbind m f) s w Q.
Proof.
  unfold post. rewrite exec_mbind. cbv zeta.
  by destruct (result (run answer (m s) w)).1.
Qed.

Lemma post_try_except {A} (m : M A) (h : str → M A) s w Q :
  post answer m s w (λ r s' w' tr,
    match r with
    | Ok a => Q (Ok a) s' w' tr
    | Raise e => post answer (h e) s' w' (λ r' s'' w'' tr', Q r' s'' w'' (tr ++ tr'))
    end) →
  post answer (try_except m h) s w Q.
Proof.
  unfold post. rewrite exec_try_except. cbv zeta.
  by destruct (result (run answer (m s) w)).1.
Qed.

Lemma post_raise {A} (e : str) s w (Q : res A → _) :
  Q (Raise e) s w [] → post answer (raise e) s w Q.
Proof. done. Qed.

Lemma post_mono {A} (m : M A) s w (Q Q' : res A → _) :
  post answer m s w Q → (∀ r s' w' tr, Q r s' w' tr → Q' r s' w' tr) →
  post answer m s w Q'.
Proof. unfold post. auto. Qed.

End RunLemmas.

(** ** Tool dispatch *)

Section Dispatch.

Context {W : Type} (answer : ∀ X, Call X → W → X * W).
Context (settings : Settings) (loads : str → option json) (dumps : json → str).

Abbreviation exec m s w := (run answer (m s) w).

Lemma exec_short_term_add_message role content tn tid s w :
  exec (short_term_add_message role content tn tid) s w =
  let now := answer _ utcnow w in
  let r := add_message (mkAddArgs role content tn tid now.1) (short_term s) in
  mkOutcome (Ok r.1, set_short_term s r.2) now.2 [Event utcnow].
Proof. done. Qed.

Lemma exec_execute_tool_calls calls messages s w :
  let o := exec (execute_tool_calls loads dumps calls messages) s w in
  ∃ recorded : list (str * datetime),
    (result o).1 = Ok (messages ++ zip_with tool_message calls recorded.*1) ∧
    length recorded = length calls ∧
    (∀ i tc, calls !! i = Some tc →
       tool_registry s !! function_name tc = None →
       recorded.*1 !! i =
         Some (dumps (failure_dict (Py.lit "Unknown tool: " ++ function_name tc)))) ∧
    tool_runs (trace o) = omap (dispatch loads s) calls ∧
    (result o).2 =
      set_short_term s
        (add_messages (zip_with tool_add_args calls recorded) (short_term s)).
Proof.
  revert messages s w. induction calls as [|tc calls IH]; intros messages s w.
  - exists []. simpl. rewrite app_nil_r. repeat split; [by intros []|by destruct s].
  - cbn [execute_tool_calls]. rewrite exec_mbind. cbn [get run result trace world fst snd].
    rewrite exec_mbind. cbv zeta.
    set (o1 := exec _ s w).
    assert (Ho1 : ∃ content, (result o1) = (Ok content, s) ∧
       tool_runs (trace o1) = option_list (dispatch loads s tc) ∧
       (tool_registry s !! function_name tc = None →
          content = dumps (failure_dict (Py.lit "Unknown tool: " ++ function_name tc)))).
    { enough (post answer
                (match tool_registry s !! function_name tc with
                 | Some tool =>
                     try_except
                       (mbind (call (tool_execute tool (parse_arguments loads tc)))
                              (λ result, dumps_or_raise dumps (result_dict result)))
                       (λ e, ret (dumps (failure_dict e)))
                 | None =>
                     ret (dumps (failure_dict
                                   (Py.lit "Unknown tool: " ++ function_name tc)))
                 end) s w
                (λ r s' _ tr, ∃ content, (r, s') = (Ok content, s) ∧
                   tool_runs tr = option_list (dispatch loads s tc) ∧
                   (tool_registry s !! function_name tc = None →
                    content = dumps (failure_dict
                                (Py.lit "Unknown tool: " ++ function_name tc)))))
        as H.
      { unfold post in H. fold o1 in H. destruct H as (content & Hp & H).
        exists content. split; [|done]. by destruct (result o1). }
      unfold dispatch. destruct (tool_registry s !! function_name tc) as [tool|].
      - apply post_try_except, post_mbind, post_call.
        destruct (answer _ (tool_execute tool (parse_arguments loads tc)) w).1
          as [r|e]; [unfold dumps_or_raise;
                     destruct (not_serializable (result_dict r));
                     [apply post_raise|]|];
          apply post_ret; eexists; (split; [done|]); done.
      - apply post_ret. eexists. done. }
    destruct Ho1 as (content & Hr1 & Ht1 & Hc1).
    rewrite Hr1. cbn [fst snd].
    rewrite exec_mbind, exec_short_term_add_message. cbv zeta. cbn [result fst snd world trace].
    set (now := answer _ utcnow (world o1)).
    set (s1 := set_short_term s _).
    specialize (IH (messages ++ [tool_message tc content]) s1 now.2).
    destruct IH as (recorded & Hres & Hlen & Hunk & Hruns & Hst).
    exists ((content, now.1) :: recorded). cbn [fst snd trace result world].
    split; [|split; [|split; [|split]]].
    + rewrite Hres. simpl. by rewrite <- app_assoc.
    + simpl. by rewrite Hlen.
    + intros [|i] tc' Hi Hn; simpl in *.
      * injection Hi as <-. by rewrite Hc1.
      * by apply Hunk.
    + unfold tool_runs in *. rewrite !omap_app, Ht1. simpl. rewrite Hruns.
      destruct (dispatch loads s tc); simpl; f_equal.
    + rewrite Hst. subst s1. simpl. done.
Qed.

(** [_handle_tool_calls] always returns: the follow-up completion is
    guarded, and the loop records one result per call. *)
Lemma exec_handle_tool_calls am messages s w :
  let calls := default [] (am_tool_calls am) in
  post answer (_handle_tool_calls settings loads dumps am messages) s w
    (λ r s' _ tr,
       ∃ (reply : str) (recorded : list (str * datetime)),
         r = Ok (reply,
                 (messages ++ [mkLlmMessage (Py.lit "assistant") (am_content am)
                                            None (Some calls)])
                 ++ zip_with tool_message calls recorded.*1) ∧
         length recorded = length calls ∧
         (∀ i tc, calls !! i = Some tc →
            tool_registry s !! function_name tc = None →
            recorded.*1 !! i =
              Some (dumps (failure_dict
                             (Py.lit "Unknown tool: " ++ function_name tc)))) ∧
         tool_runs tr = omap (dispatch loads s) calls ∧
         s' = set_short_term s
                (add_messages (zip_with tool_add_args calls recorded)
                              (short_term s))).
Proof.
  intros calls. unfold _handle_tool_calls. fold calls.
  apply post_mbind.
  destruct (exec_execute_tool_calls calls
              (messages ++ [mkLlmMessage (Py.lit "assistant") (am_content am)
                                         None (Some calls)]) s w)
    as (recorded & Hres & Hlen & Hunk & Hruns & Hst).
  unfold post at 1. rewrite Hres.
  apply post_mbind, post_try_except, post_mbind, post_call.
  match goal with
  | |- context [answer ?X ?c ?w'] => destruct (answer X c w') as [[final|e] w2]
  end; cbn [fst snd]; repeat apply post_ret; eexists _, recorded;
    (split; [done|]); (split; [done|]); (split; [done|]);
    (split; [|done]);
    unfold tool_runs in *; rewrite !omap_app, Hruns; simpl;
    by rewrite app_nil_r.
Qed.

End Dispatch.



Example handle_tool_calls_sample :
  let o := run Sample.answer
             (_handle_tool_calls default_settings Sample.json_loads
                Sample.json_dumps Sample.batch [] Sample.active_agent) 0%nat in
  tool_runs (trace o) = [(CalculatorTool, JDict []); (CurrentTimeTool, JDict [])] ∧
  ∃ reply messages,
    (result o).1 = Ok (reply, messages) ∧
    llm_content <$> messages
      = [None; Some (Py.lit "{success: true}");
         Some (Py.lit "{success: false}"); Some (Py.lit "{success: true}")].
Proof. split; [by vm_compute|]. eexists _, _. split; by vm_compute. Qed.

(** ** Ending a session *)

Section EndSession.

Context {W : Type} (answer : ∀ X, Call X → W → X * W).

Lemma post_end_conversation summary conversation s w :
  current_conversation (short_term s) = Some conversation →
  post answer (end_conversation summary) s w (λ r s' _ tr,
    r = Ok tt ∧
    s' = set_short_term s
           (mkShortTermMemory (max_messages (short_term s)) None []) ∧
    tr = [Event utcnow;
          Event (storage_save_conversation
                   (closed conversation (answer _ utcnow w).1 summary))]).
Proof.
  intros Hconv. unfold end_conversation.
  apply post_mbind, post_get. rewrite Hconv.
  apply post_mbind, post_ask, post_mbind, post_try_except, post_call.
  destruct (answer _ (storage_save_conversation _) _).1;
    repeat apply post_ret; apply post_mbind, post_get, post_put; done.
Qed.

Lemma post_increment_conversation_count user_id s w :
  post answer (increment_conversation_count user_id) s w (λ r s' _ tr,
    r = Ok tt ∧ s' = s ∧
    Forall (λ e, extractor_call e = false ∧ saved_conversation e = None) tr).
Proof.
  unfold increment_conversation_count.
  apply post_try_except, post_mbind, post_ask.
  destruct (answer _ (storage_get_user user_id) w).1 as [user|].
  - apply post_mbind, post_call.
    destruct (answer _ (storage_update_user _) _).1; repeat apply post_ret;
      repeat split; repeat constructor.
  - apply post_ret. repeat split; repeat constructor.
Qed.

End EndSession.

(** C6. [end_session] does nothing when no conversation is active: it
    returns at once, makes no call and leaves the agent as it was. For an
    active conversation of fewer than 4 messages it makes no call to the
    Extractor, and hands the conversation to the store exactly once: the
    same id, user, Alexa session, messages and start, with [ended_at] set
    to the clock reading and its summary equal to [None]. The session
    state is then cleared: no conversation, an empty buffer, no user, no
    tools. *)
Theorem end_session_idle_or_short {W : Type}
    (answer : ∀ X, Call X → W → X * W) (extract_learnings : bool)
    (s : JarvisAgent) (w : W) :
  let o := run answer (end_session extract_learnings s) w in
  (current_conversation (short_term s) = None →
     o = mkOutcome (Ok tt, s) w []) ∧
  (∀ conversation,
     current_conversation (short_term s) = Some conversation →
     Py.len (messages conversation) < 4 →
     result o =
       (Ok tt,
        mkJarvisAgent (mkShortTermMemory (max_messages (short_term s)) None [])
                      None ∅ []) ∧
     Forall (λ e, extractor_call e = false) (trace o) ∧
     saved_conversations (trace o) =
       [mkConversation (conv_id conversation) (conv_user_id conversation)
          (conv_alexa_session_id conversation) (messages conversation)
          (started_at conversation) (Some (answer _ utcnow w).1) None] ∧
     current_conversation (short_term (result o).2) = None ∧
     current_user (result o).2 = None).
Proof.
  intros o. split.
  - intros Hnone. subst o. unfold end_session, mbind, get. simpl.
    by rewrite Hnone.
  - intros conversation Hconv Hshort.
    enough (H : ((result o).1, (result o).2) =
                  (Ok tt,
                   mkJarvisAgent
                     (mkShortTermMemory (max_messages (short_term s)) None [])
                     None ∅ []) ∧
                Forall (λ e, extractor_call e = false) (trace o) ∧
                saved_conversations (trace o) =
                  [closed conversation (answer _ utcnow w).1 None]).
    { destruct H as (Hr & Hx & Hsaved). destruct (result o) as [r s'].
      cbn [fst snd] in Hr. by rewrite Hr. }
    subst o.
    change (post answer (end_session extract_learnings) s w (λ r s' _ tr,
      (r, s') =
        (Ok tt,
         mkJarvisAgent (mkShortTermMemory (max_messages (short_term s)) None [])
                       None ∅ []) ∧
      Forall (λ e, extractor_call e = false) tr ∧
      saved_conversations tr = [closed conversation (answer _ utcnow w).1 None])).
    unfold end_session. apply post_mbind, post_get. rewrite Hconv.
    replace (extract_learnings && (Py.len (messages conversation) >=? 4))
      with false
      by (destruct (Z.geb_spec (Py.len (messages conversation)) 4);
          [lia|by rewrite andb_false_r]).
    apply post_mbind, post_ret, post_mbind.
    eapply post_mono; [by apply post_end_conversation|].
    intros r s1 w1 tr (-> & -> & ->).
    apply post_mbind, post_get. cbn [set_short_term current_user].
    apply post_mbind.
    eapply post_mono with
      (Q := λ r s' _ tr, r = Ok tt ∧ s' = set_short_term s
               (mkShortTermMemory (max_messages (short_term s)) None []) ∧
             Forall (λ e, extractor_call e = false ∧ saved_conversation e = None) tr).
    + destruct (current_user s) as [user|].
      * eapply post_mono; [apply post_increment_conversation_count|].
        intros r s' w' tr (-> & -> & Htr). done.
      * apply post_ret. repeat split; constructor.
    + intros r s' w' tr (-> & -> & Htr).
      apply post_mbind, post_get, post_put. simpl.
      split; [done|]. split.
      * repeat constructor. rewrite app_nil_r.
        eapply Forall_impl; [exact Htr|]. by intros e [? _].
      * unfold saved_conversations. simpl. f_equal. rewrite app_nil_r.
        clear -Htr. induction Htr as [|e tr [_ He] _ IH]; simpl; [done|].
        by rewrite He.
Qed.

Lemma end_session_idle_or_short_witness :
  run Sample.answer (end_session true Sample.idle_agent) 0%nat
    = mkOutcome (Ok tt, Sample.idle_agent) 0%nat [] ∧
  saved_conversations
    (trace (run Sample.answer (end_session true Sample.active_agent) 0%nat))
    = [mkConversation (conv_id Sample.short_conversation)
         (conv_user_id Sample.short_conversation)
         (conv_alexa_session_id Sample.short_conversation)
         (messages Sample.short_conversation)
         (started_at Sample.short_conversation)
         (Some 1700000000000000) None].
Proof.
  split.
  - exact (proj1 (end_session_idle_or_short Sample.answer true
                    Sample.idle_agent 0%nat) eq_refl).
  - exact (proj1 (proj2 (proj2
             (proj2 (end_session_idle_or_short Sample.answer true
                       Sample.active_agent 0%nat)
                    Sample.short_conversation eq_refl ltac:(done))))).
Defined.

(** ** Processing a turn *)

Section Process.

Context {W : Type} (answer : ∀ X, Call X → W → X * W).
Context (settings : Settings) (loads : str → option json) (dumps : json → str).
Context (BASE : str) (WITH_CONTEXT : str → str → str).

Abbreviation process' := (process settings loads dumps BASE WITH_CONTEXT).

Lemma post_short_term_add_message role content tn tid s w Q :
  Q (Ok (add_message (mkAddArgs role content tn tid (answer _ utcnow w).1)
                     (short_term s)).1)
    (set_short_term s
       (add_message (mkAddArgs role content tn tid (answer _ utcnow w).1)
                    (short_term s)).2)
    (answer _ utcnow w).2 [Event utcnow] →
  post answer (short_term_add_message role content tn tid) s w Q.
Proof. done. Qed.

Lemma post_build_system_prompt user_input s w :
  post answer (_build_system_prompt BASE WITH_CONTEXT user_input) s w
    (λ r s' _ _, (∃ prompt, r = Ok prompt) ∧ s' = s).
Proof.
  unfold _build_system_prompt. apply post_mbind, post_get.
  destruct (current_user s) as [user|]; [|apply post_ret; eauto].
  apply post_try_except, post_mbind, post_call.
  destruct (answer _ (assemble_context user user_input) w).1;
    apply post_ret; eauto.
Qed.


(** Within a session a turn always returns a reply. *)
Lemma post_process_active user_input user s w :
  current_user s = Some user →
  post answer (process' user_input) s w (λ r _ _ _, ∃ reply, r = Ok reply).
Proof.
  intros Huser. unfold process.
  apply post_mbind, post_get. rewrite Huser.
  apply post_mbind, post_ret, post_mbind, post_short_term_add_message.
  apply post_mbind.
  eapply post_mono; [apply post_build_system_prompt|].
  intros r s1 w1 tr1 [[prompt ->] ->].
  apply post_mbind, post_get, post_mbind.
  eapply post_mono with (Q := λ r _ _ _, ∃ reply, r = Ok reply).
  { apply post_try_except, post_mbind, post_call.
    destruct (answer _ (chat_completions_create _) _).1 as [am|e];
      [|apply post_ret; eauto].
    destruct (truthy_tool_calls (am_tool_calls am)); [|apply post_ret; eauto].
    apply post_mbind.
    eapply post_mono; [apply exec_handle_tool_calls|].
    intros r s2 w2 tr2 (reply & recorded & -> & _).
    apply post_ret. eauto. }
  intros r s2 w2 tr2 [reply ->].
  apply post_mbind, post_short_term_add_message, post_ret. eauto.
Qed.


End Process.



(** ** The calculator *)

(** The double nearest to 15/100, times 200, is exactly 30. *)
Lemma percent_product_is_thirty :
  Calculator.eval (Py.lit "(15/100) * 200")
  = Calculator.Value
      (Calculator.VFloat (binary_normalize Calculator.prec Calculator.emax 30 0 false)).
Proof. by vm_compute. Qed.

(** C8. Given the expression "15% of 200", [execute] recognises the
    percentage form with groups 15 and 200, evaluates "(15/100) * 200" to
    the float 30.0, converts it to the integer 30 and returns a success
    result whose [result] is 30. *)
Theorem calculator_fifteen_percent_of_200 :
  Calculator.re_match Calculator.percent_pattern (Py.lit "15% of 200")
    = Some [Py.lit "15"; Py.lit "200"] ∧
  Calculator.integer_of_float
    (binary_normalize Calculator.prec Calculator.emax 30 0 false) = Some 30 ∧
  Calculator.execute (Py.lit "15% of 200")
    = Some (mkToolResult true
              (Some (JDict [(Py.lit "expression", JStr (Py.lit "15% of 200"));
                            (Py.lit "result", JInt 30)]))
              None
              (Some (Py.lit "15% of 200 = 30"))).
Proof.
  split; [by vm_compute|]. split; [by vm_compute|].
  unfold Calculator.execute.
  replace (Calculator.re_match Calculator.percent_pattern
             (Calculator.strip (PyStr.lower (Py.lit "15% of 200"))))
    with (Some [Py.lit "15"; Py.lit "200"]) by (by vm_compute).
  cbv zeta.
  replace (Calculator.replace (Py.lit "divided by") (Py.lit "/") _)
    with (Py.lit "(15/100) * 200") by (by vm_compute).
  replace (Calculator.re_match Calculator.safe_pattern _)
    with (Some ([] : list str)) by (by vm_compute).
  rewrite percent_product_is_thirty. by vm_compute.
Qed.

(** * Further properties *)

(** ** Short-term memory: the window, the buffer and the views *)

Section Window.

Implicit Types (stm : ShortTermMemory) (calls : list add_args).

Lemma buffer_add_message stm a :
  _message_buffer (add_message a stm).2 =
  _message_buffer stm ++
    match current_conversation stm with
    | Some _ => [new_message a]
    | None => []
    end.
Proof.
  unfold add_message. destruct (current_conversation stm); simpl; [done|].
  by rewrite app_nil_r.
Qed.

Lemma add_messages_inactive calls stm :
  current_conversation stm = None → add_messages calls stm = stm.
Proof.
  intros Hnone. induction calls as [|a calls IH] using rev_ind; [done|].
  rewrite add_messages_snoc, IH. unfold add_message. by rewrite Hnone.
Qed.

Lemma buffer_add_messages calls stm :
  _message_buffer (add_messages calls stm) =
  _message_buffer stm ++
    match current_conversation stm with
    | Some _ => map new_message calls
    | None => []
    end.
Proof.
  destruct (current_conversation stm) as [conv|] eqn:Hconv.
  - induction calls as [|a calls IH] using rev_ind;
      [by rewrite app_nil_r|].
    rewrite add_messages_snoc, buffer_add_message, IH, map_app.
    destruct (add_messages_active calls stm) as [c ->]; [by rewrite Hconv|].
    by rewrite app_assoc.
  - by rewrite add_messages_inactive, app_nil_r.
Qed.

(** The log after some calls, from any starting log, for a positive
    maximum. *)
Lemma stored_log_window calls stm :
  0 < max_messages stm →
  is_Some (current_conversation stm) →
  calls ≠ [] ∨ Py.len (stored_log stm) <= max_messages stm →
  let all := stored_log stm ++ map new_message calls in
  stored_log (add_messages calls stm) =
    drop (length all - Z.to_nat (max_messages stm)) all.
Proof.
  intros Hpos Hact Hstart.
  induction calls as [|a calls IH] using rev_ind.
  - destruct Hstart as [|Hle]; [done|]. simpl. rewrite app_nil_r.
    unfold Py.len in Hle. replace (_ - _)%nat with 0%nat by lia. done.
  - clear Hstart. cbv zeta. rewrite add_messages_snoc, stored_log_add_message
      by (by apply add_messages_active).
    rewrite add_messages_max. cbv zeta.
    set (N := Z.to_nat (max_messages stm)).
    set (all := stored_log stm ++ map new_message calls).
    rewrite map_app, app_assoc. fold all. simpl.
    assert (Hprev : ∃ k, stored_log (add_messages calls stm) = drop k all ∧
              (k = 0 ∨ k = length all - N)%nat).
    { destruct calls as [|b calls].
      - exists 0%nat. subst all. simpl. rewrite app_nil_r. split; [done|]. lia.
      - exists (length all - N)%nat. split; [apply IH; by left|]. lia. }
    destruct Hprev as (k & -> & Hk).
    unfold Py.len. rewrite !length_app, length_drop. simpl.
    destruct (Z.gtb_spec (Z.of_nat (length all - k + 1)) (max_messages stm))
      as [Hgt|Hle].
    + rewrite slice_from_negative by done. fold N.
      rewrite length_app, length_drop. simpl.
      rewrite drop_app_le by (rewrite length_drop; lia).
      rewrite drop_drop, drop_app_le by lia. do 2 f_equal. lia.
    + rewrite drop_app_le by lia. do 2 f_equal. lia.
Qed.

(** With room for one message, the newest message is the last of the
    log. *)
Lemma stored_log_last calls a stm :
  1 <= max_messages stm →
  is_Some (current_conversation stm) →
  last (stored_log (add_messages (calls ++ [a]) stm)) = Some (new_message a).
Proof.
  intros Hpos Hact.
  rewrite stored_log_window; [|lia|done|left; by destruct calls].
  rewrite map_app, app_assoc. simpl.
  set (older := stored_log stm ++ map new_message calls).
  rewrite length_app. simpl.
  rewrite drop_app_le by lia. apply last_snoc.
Qed.

End Window.

(** X1. With a maximum [N] of at least 1, after any non-empty sequence of
    [add_message] calls on an active conversation (whatever its log held
    before) the stored log is exactly the last [N] of all messages, in
    append order, and it holds [min (total, N)] messages. *)
Theorem short_term_keeps_last_messages (calls : list add_args)
    (stm : ShortTermMemory) :
  1 <= max_messages stm →
  is_Some (current_conversation stm) →
  calls ≠ [] →
  let all := stored_log stm ++ map new_message calls in
  stored_log (add_messages calls stm) =
    drop (length all - Z.to_nat (max_messages stm)) all ∧
  Py.len (stored_log (add_messages calls stm)) =
    Z.min (Py.len all) (max_messages stm).
Proof.
  intros Hpos Hact Hcalls all.
  rewrite stored_log_window by (lia || auto). fold all.
  split; [done|]. unfold Py.len. rewrite length_drop. lia.
Qed.

Lemma short_term_keeps_last_messages_witness :
  stored_log (add_messages [Sample.hello; Sample.reply; Sample.hello]
                           (Sample.memory 2))
  = [new_message Sample.reply; new_message Sample.hello].
Proof.
  exact (proj1 (short_term_keeps_last_messages
                  [Sample.hello; Sample.reply; Sample.hello]
                  (Sample.memory 2) ltac:(done) ltac:(by eexists)
                  ltac:(done))).
Defined.

(** X2. The buffer of unsaved messages is never trimmed: while a
    conversation is active every [add_message] appends to it, whatever the
    configured maximum; with no conversation it stays as it is. *)
Theorem message_buffer_keeps_everything (calls : list add_args)
    (stm : ShortTermMemory) :
  _message_buffer (add_messages calls stm) =
  _message_buffer stm ++
    match current_conversation stm with
    | Some _ => map new_message calls
    | None => []
    end.
Proof. apply buffer_add_messages. Qed.

(** The view of a log: roles and contents are kept in order, and only
    tool messages keep their tool-call id. *)
Lemma llm_view_of_log (stm : ShortTermMemory) (conv : Conversation) :
  current_conversation stm = Some conv →
  let view := get_messages_for_llm stm in
  (λ m, (llm_role m, llm_content m)) <$> view
    = (λ m, (msg_role m, Some (msg_content m))) <$> messages conv ∧
  (∀ i m, view !! i = Some m →
     llm_tool_calls m = None ∧
     (llm_role m ≠ Py.lit "tool" → llm_tool_call_id m = None) ∧
     (llm_role m = Py.lit "tool" →
        llm_tool_call_id m = messages conv !! i ≫= msg_tool_call_id)).
Proof.
  intros Hconv. unfold get_messages_for_llm. rewrite Hconv. cbv zeta.
  generalize (messages conv) as log. intros log. split.
  - induction log as [|m log IH]; [done|]. cbn [map fmap list_fmap] in *.
    rewrite <- IH. f_equal. by case_bool_decide as Hrole; [rewrite Hrole|].
  - intros i m Hi. change (map ?f log) with (f <$> log) in Hi.
    rewrite list_lookup_fmap in Hi.
    destruct (log !! i) as [msg|]; [|done]. simpl in *.
    injection Hi as <-. case_bool_decide as Hrole; simpl; done.
Qed.

(** X3. What the completion service is sent is the stored window: after
    any non-empty sequence of [add_message] calls with a maximum [N] of at
    least 1, [get_messages_for_llm] lists the roles and contents of the
    last [N] messages in append order, and only messages of role "tool"
    carry a tool-call id. *)
Theorem llm_view_is_the_window (calls : list add_args) (stm : ShortTermMemory) :
  1 <= max_messages stm →
  is_Some (current_conversation stm) →
  calls ≠ [] →
  let all := stored_log stm ++ map new_message calls in
  let window := drop (length all - Z.to_nat (max_messages stm)) all in
  let view := get_messages_for_llm (add_messages calls stm) in
  (λ m, (llm_role m, llm_content m)) <$> view
    = (λ m, (msg_role m, Some (msg_content m))) <$> window ∧
  (∀ i m, view !! i = Some m →
     llm_tool_calls m = None ∧
     (llm_role m ≠ Py.lit "tool" → llm_tool_call_id m = None) ∧
     (llm_role m = Py.lit "tool" →
        llm_tool_call_id m = window !! i ≫= msg_tool_call_id)).
Proof.
  intros Hpos Hact Hcalls all window view.
  pose proof (stored_log_window calls stm ltac:(lia) Hact (or_introl Hcalls))
    as Hlog.
  cbv zeta in Hlog.
  destruct (add_messages_active calls stm Hact) as [conv Hconv].
  assert (Hw : messages conv = window).
  { subst window all. rewrite <- Hlog. unfold stored_log. by rewrite Hconv. }
  clear Hlog. rename Hw into Hlog.
  rewrite <- Hlog. by apply llm_view_of_log.
Qed.

Lemma llm_view_is_the_window_witness :
  (λ m, (llm_role m, llm_content m)) <$>
    get_messages_for_llm
      (add_messages [Sample.hello; Sample.reply; Sample.hello] (Sample.memory 2))
  = [(Py.lit "assistant", Some (Py.lit "hi there"));
     (Py.lit "user", Some (Py.lit "hello"))].
Proof.
  exact (proj1 (llm_view_is_the_window
                  [Sample.hello; Sample.reply; Sample.hello]
                  (Sample.memory 2) ltac:(done) ltac:(by eexists)
                  ltac:(done))).
Defined.

(** ** What a save inserts *)

Section Saving.

Implicit Types (stm : ShortTermMemory) (calls : list add_args).

(** Whatever the maximum, the log is a suffix of what was appended. *)
Lemma stored_log_suffix calls stm :
  is_Some (current_conversation stm) →
  stored_log (add_messages calls stm)
    `suffix_of` stored_log stm ++ map new_message calls.
Proof.
  intros Hact. induction calls as [|a calls IH] using rev_ind.
  - simpl. by rewrite app_nil_r.
  - rewrite add_messages_snoc, stored_log_add_message
      by (by apply add_messages_active).
    cbv zeta. rewrite map_app, app_assoc. simpl.
    destruct (_ >? _).
    + etrans; [apply suffix_drop|]. by apply suffix_app.
    + by apply suffix_app.
Qed.

Lemma messages_data_all conversation :
  Forall (λ m, msg_id m = None) (messages conversation) →
  messages_data conversation = messages conversation.
Proof.
  unfold messages_data. induction 1 as [|m log Hm _ IH]; [done|].
  rewrite filter_cons_True by (by rewrite Hm). by rewrite IH.
Qed.

End Saving.

(** X23. Whatever the configured maximum, the stored log is always a
    suffix of the messages appended so far. No [add_message] gives a
    message an id, so for a conversation whose messages had none (such as
    a newly created one) the "only new messages" filter of
    [save_conversation] keeps every message of the log: each save inserts
    the whole stored window again. *)
Theorem save_conversation_inserts_whole_window (calls : list add_args)
    (stm : ShortTermMemory) (before after : Conversation) :
  current_conversation stm = Some before →
  Forall (λ m, msg_id m = None) (messages before) →
  current_conversation (add_messages calls stm) = Some after →
  messages after `suffix_of` messages before ++ map new_message calls ∧
  messages_data after = messages after.
Proof.
  intros Hbefore Hids Hafter.
  pose proof (stored_log_suffix calls stm ltac:(by rewrite Hbefore)) as Hsuf.
  unfold stored_log in Hsuf. rewrite Hbefore, Hafter in Hsuf.
  split; [done|]. apply messages_data_all.
  destruct Hsuf as [dropped Hall].
  assert (Hforall : Forall (λ m, msg_id m = None)
                           (messages before ++ map new_message calls)).
  { apply Forall_app. split; [done|]. clear.
    induction calls as [|a calls IH]; by constructor. }
  rewrite Hall in Hforall. by apply Forall_app in Hforall as [_ ?].
Qed.

Lemma save_conversation_inserts_whole_window_witness :
  messages_data
    (set_messages Sample.conversation
       [new_message Sample.reply; new_message Sample.hello])
  = [new_message Sample.reply; new_message Sample.hello].
Proof.
  exact (proj2 (save_conversation_inserts_whole_window
                  [Sample.hello; Sample.reply; Sample.hello] (Sample.memory 2)
                  Sample.conversation
                  (set_messages Sample.conversation
                     [new_message Sample.reply; new_message Sample.hello])
                  eq_refl ltac:(constructor) eq_refl)).
Defined.

(** ** Truncation: shape of the result and idempotence *)

Section TruncateMore.

Implicit Types (s text : str).

(** A non-negative break point designates a sentence end. *)
Lemma break_point_sentence_end s :
  0 <= break_point_of s →
  ∃ c, s !! Z.to_nat (break_point_of s) = Some c ∧ sentence_end c = true.
Proof.
  unfold break_point_of. intros Hbp.
  assert (Hone : ∀ d, sentence_end d = true → 0 <= rfind d s →
            ∃ c, s !! Z.to_nat (rfind d s) = Some c ∧ sentence_end c = true).
  { intros d Hd Hr. destruct (rfind_spec d s) as [[Hm _]|(i & Hi & Hc & _)];
      [lia|]. rewrite Hi, Nat2Z.id. eauto. }
  pose proof (Hone (Py.chr ".") eq_refl).
  pose proof (Hone (Py.chr "?") eq_refl).
  pose proof (Hone (Py.chr "!") eq_refl).
  destruct (Z.max_spec (Z.max (rfind (Py.chr ".") s) (rfind (Py.chr "?") s))
                       (rfind (Py.chr "!") s)) as [[_ Heq]|[_ Heq]];
    rewrite Heq in *; [by auto|].
  destruct (Z.max_spec (rfind (Py.chr ".") s) (rfind (Py.chr "?") s))
    as [[_ Heq']|[_ Heq']]; rewrite Heq' in *; auto.
Qed.

End TruncateMore.

(** X4. For a non-negative budget [B], truncating a text longer than [B]
    gives either the first [B] characters followed by "...", or a prefix
    of the text of more than [B // 2 + 1] and at most [B] characters that
    ends with a period, a question mark or an exclamation mark. *)
Theorem truncate_for_voice_result_shape (settings : Settings) (text : str) :
  let B := max_response_length settings in
  let r := _truncate_for_voice settings text in
  0 <= B → Py.len text > B →
  r = take (Z.to_nat B) text ++ Py.lit "..." ∨
  (r `prefix_of` text ∧ B / 2 + 1 < Py.len r <= B ∧
   ∃ c, last r = Some c ∧ sentence_end c = true).
Proof.
  intros B r HB Hlong. subst r. rewrite truncate_long by done. fold B.
  set (firstB := take (Z.to_nat B) text).
  pose proof (break_point_bounds firstB) as Hbp.
  assert (Hhead : Py.len firstB = B).
  { unfold Py.len, firstB in *. rewrite length_take. lia. }
  destruct (Z.gtb_spec (break_point_of firstB) (B / 2)) as [Hgt|_]; [|by left].
  right. pose proof (Z.div_pos B 2 HB ltac:(lia)) as Hhalf.
  destruct (break_point_sentence_end firstB ltac:(lia)) as (c & Hc & Hend).
  split; [apply prefix_take|].
  assert (Hlen : length (take (Z.to_nat (break_point_of firstB + 1)) text)
                 = Z.to_nat (break_point_of firstB + 1)).
  { rewrite length_take. unfold Py.len in *. lia. }
  split; [unfold Py.len; rewrite Hlen; lia|].
  exists c. split; [|done]. rewrite last_lookup, Hlen.
  replace (pred (Z.to_nat (break_point_of firstB + 1)))
    with (Z.to_nat (break_point_of firstB)) by lia.
  rewrite lookup_take_lt by lia.
  rewrite <- Hc. symmetry. apply lookup_take_lt. unfold Py.len in *. lia.
Qed.

Lemma truncate_for_voice_result_shape_witness :
  _truncate_for_voice Sample.voice_settings Sample.no_sentence
    = take 10 Sample.no_sentence ++ Py.lit "..." ∨
  (_truncate_for_voice Sample.voice_settings Sample.no_sentence
     `prefix_of` Sample.no_sentence ∧
   10 / 2 + 1 < Py.len (_truncate_for_voice Sample.voice_settings
                          Sample.no_sentence) <= 10 ∧
   ∃ c, last (_truncate_for_voice Sample.voice_settings Sample.no_sentence)
        = Some c ∧ sentence_end c = true).
Proof.
  exact (truncate_for_voice_result_shape Sample.voice_settings
           Sample.no_sentence ltac:(done) ltac:(done)).
Defined.

(** X5. For a non-negative budget, truncation is idempotent on every
    text: truncating a truncated reply changes nothing, although a reply
    ending in "..." is longer than the budget. *)
Theorem truncate_for_voice_idempotent (settings : Settings) (text : str) :
  0 <= max_response_length settings →
  _truncate_for_voice settings (_truncate_for_voice settings text)
  = _truncate_for_voice settings text.
Proof.
  intros HB. set (B := max_response_length settings) in *.
  destruct (Z.le_gt_cases (Py.len text) B) as [Hle|Hlong].
  { assert (H : _truncate_for_voice settings text = text).
    { unfold _truncate_for_voice. fold B.
      by destruct (Z.leb_spec (Py.len text) B); [|lia]. }
    by rewrite !H. }
  rewrite (truncate_long settings text) by (done || lia). fold B.
  set (firstB := take (Z.to_nat B) text).
  pose proof (break_point_bounds firstB) as Hbp.
  assert (Hhead : length firstB = Z.to_nat B).
  { unfold firstB, Py.len in *. rewrite length_take. lia. }
  destruct (Z.gtb_spec (break_point_of firstB) (B / 2)) as [Hgt|Hle].
  - unfold _truncate_for_voice at 1. fold B.
    destruct (Z.leb_spec (Py.len (take (Z.to_nat (break_point_of firstB + 1)) text)) B)
      as [|Hbad]; [done|].
    unfold Py.len in *. rewrite length_take in Hbad. lia.
  - rewrite (truncate_long settings (firstB ++ Py.lit "..."));
      [|done|unfold Py.len; rewrite length_app; fold B; simpl; lia].
    fold B. rewrite take_app_length' by done. fold firstB.
    by destruct (Z.gtb_spec (break_point_of firstB) (B / 2)); [lia|].
Qed.

Lemma truncate_for_voice_idempotent_witness :
  _truncate_for_voice Sample.voice_settings
    (_truncate_for_voice Sample.voice_settings Sample.no_sentence)
  = _truncate_for_voice Sample.voice_settings Sample.no_sentence.
Proof.
  exact (truncate_for_voice_idempotent Sample.voice_settings
           Sample.no_sentence ltac:(done)).
Defined.

(** ** Relevance ranking: limits and membership *)

Section RankingMore.

Context (lower : str → str).

Implicit Types (facts : list UserFact) (clock : nat → datetime) (query : str).

Lemma get_relevant_facts_code facts clock query limit :
  get_relevant_facts lower facts clock query limit =
  (Py.slice_to limit (sort_reverse fst (scoring lower query clock facts))).*2.
Proof.
  unfold get_relevant_facts, scoring, spec_scored.
  destruct facts as [|f facts].
  - unfold Py.slice_to. simpl. by rewrite take_nil.
  - by rewrite score_loop_spec.
Qed.

Lemma spec_scored_facts query clock facts :
  (spec_scored lower query clock facts).*2 = facts.
Proof.
  revert clock. induction facts as [|f facts IH]; intros clock; [done|].
  unfold spec_scored. rewrite imap_cons. cbn [fmap list_fmap snd]. f_equal.
  apply (IH (clock ∘ S)).
Qed.

Lemma ranking_length query clock facts :
  (length (sort_reverse fst (scoring lower query clock facts)) ≤ length facts)%nat.
Proof.
  rewrite (Permutation_length (sort_reverse_perm fst _)). unfold scoring.
  etrans; [apply sublist_length, sublist_filter|].
  unfold spec_scored. by rewrite length_imap.
Qed.

End RankingMore.

(** X6. [get_relevant_facts] only returns fetched facts, each at most as
    often as it was fetched, and never more than [limit] of them when
    [limit] is not negative. *)
Theorem get_relevant_facts_bounded (lower : str → str)
    (facts : list UserFact)
    (clock : nat → datetime) (query : str) (limit : Z) :
  get_relevant_facts lower facts clock query limit ⊆+ facts ∧
  (0 <= limit → Py.len (get_relevant_facts lower facts clock query limit) <= limit).
Proof.
  rewrite get_relevant_facts_code. split.
  - rewrite <- (spec_scored_facts lower query clock facts) at 2.
    apply fmap_submseteq. unfold Py.slice_to.
    etrans; [apply sublist_submseteq, sublist_take|].
    rewrite sort_reverse_perm. apply sublist_submseteq, sublist_filter.
  - intros Hl. rewrite slice_to_take by done. unfold Py.len.
    rewrite length_fmap, length_take. lia.
Qed.

Lemma get_relevant_facts_bounded_witness :
  Py.len (get_relevant_facts PyStr.lower [Sample.peanuts; Sample.green_tea] Sample.clock
                             Sample.tea_query 1) <= 1.
Proof.
  exact (proj2 (get_relevant_facts_bounded PyStr.lower [Sample.peanuts; Sample.green_tea]
                  Sample.clock Sample.tea_query 1) ltac:(done)).
Defined.

(** X7. A negative [limit] does not mean "none": the slice [[:limit]]
    drops the [-limit] lowest-ranked facts from the full ranking and
    returns the others. A [limit] of 0 returns nothing. *)
Theorem get_relevant_facts_negative_limit (lower : str → str)
    (facts : list UserFact)
    (clock : nat → datetime) (query : str) (limit : Z) :
  let full := get_relevant_facts lower facts clock query (Py.len facts) in
  (limit < 0 →
     get_relevant_facts lower facts clock query limit
     = take (length full - Z.to_nat (- limit)) full) ∧
  get_relevant_facts lower facts clock query 0 = [].
Proof.
  intros full. subst full. rewrite !get_relevant_facts_code.
  pose proof (ranking_length lower query clock facts) as Hlen.
  set (ranked := sort_reverse fst _) in *.
  assert (Hfull : Py.slice_to (Py.len facts) ranked = ranked).
  { rewrite slice_to_take by (unfold Py.len; lia). apply take_ge.
    unfold Py.len. lia. }
  rewrite Hfull. split.
  - intros Hneg. rewrite length_fmap, <- fmap_take. f_equal.
    unfold Py.slice_to, Py.slice_index, Py.len.
    destruct (Z.ltb_spec limit 0); [|lia]. f_equal. lia.
  - by rewrite slice_to_take.
Qed.

Lemma get_relevant_facts_negative_limit_witness :
  get_relevant_facts PyStr.lower [Sample.peanuts; Sample.green_tea] Sample.clock
                     Sample.tea_query (-1) = [Sample.green_tea].
Proof.
  rewrite (proj1 (get_relevant_facts_negative_limit PyStr.lower
                    [Sample.peanuts; Sample.green_tea] Sample.clock
                    Sample.tea_query (-1)) ltac:(done)).
  by vm_compute.
Defined.

(** X8. For every case mapping [lower], a fact is returned only if it
    scores: it shares a word with the query, is of high or critical
    importance, or its last reference is a naive timestamp less than
    seven days before the clock reading taken for it. When [limit] is at
    least the number of fetched facts, every fact that scores is
    returned. A reference with an aware timestamp never counts. *)
Theorem get_relevant_facts_membership (lower : str → str)
    (facts : list UserFact)
    (clock : nat → datetime) (query : str) (limit : Z) :
  let scores (now : datetime) (f : UserFact) : Prop :=
    shared_words lower query (fact f) ≠ [] ∨ importance f = HIGH ∨
    importance f = CRITICAL ∨
    ∃ t, last_referenced f = Some (Naive t) ∧ now - t < 7 * (86400 * 1000000) in
  (∀ f, f ∈ get_relevant_facts lower facts clock query limit →
     ∃ i, facts !! i = Some f ∧ scores (clock i) f) ∧
  (Py.len facts <= limit →
     ∀ i f, facts !! i = Some f → scores (clock i) f →
       f ∈ get_relevant_facts lower facts clock query limit).
Proof.
  intros scores.
  assert (Hrecent : ∀ now f, recently_referenced now f = true ↔
            ∃ t, last_referenced f = Some (Naive t) ∧
                 now - t < 7 * (86400 * 1000000)).
  { intros now f. unfold recently_referenced, referenced_within,
      microseconds_per_day.
    destruct (last_referenced f) as [[t|t]|]; split;
      try (by intros (t' & ? & ?)); try done.
    - intros H%Z.ltb_lt. eauto.
    - intros (t' & [= <-] & H). by apply Z.ltb_lt. }
  assert (Hzero : ∀ now f, spec_score lower query now f ≠ 0 ↔ scores now f).
  { intros now f. unfold scores. rewrite <- Hrecent. unfold spec_score, score_with.
    destruct (shared_words lower query (fact f)) as [|w ws]; cbn [length];
      destruct (importance f); destruct (recently_referenced now f);
      repeat case_bool_decide; try done;
      (split;
       [intros ?;
        first [lia | by left | by right; left | by right; right; left
              | by right; right; right]
       |intros [?|[?|[?|?]]]; first [lia | done]]). }
  assert (Hin : ∀ f, f ∈ (sort_reverse fst (scoring lower query clock facts)).*2 ↔
            ∃ i, facts !! i = Some f ∧ spec_score lower query (clock i) f ≠ 0).
  { intros f. rewrite sort_reverse_perm, list_elem_of_fmap. unfold scoring.
    split.
    - intros ([s f'] & -> & Hp). apply list_elem_of_filter in Hp as [Hs Hp].
      apply list_elem_of_lookup in Hp as [i Hi]. unfold spec_scored in Hi.
      rewrite list_lookup_imap in Hi.
      destruct (facts !! i) as [g|] eqn:Hg; [|done]. simpl in Hi.
      injection Hi as <- <-. eauto.
    - intros (i & Hi & Hs). exists (spec_score lower query (clock i) f, f).
      split; [done|]. apply list_elem_of_filter. split; [done|].
      apply list_elem_of_lookup. exists i. unfold spec_scored.
      by rewrite list_lookup_imap, Hi. }
  rewrite get_relevant_facts_code. split.
  - intros f Hf.
    assert (Hr : f ∈ (sort_reverse fst (scoring lower query clock facts)).*2).
    { eapply elem_of_submseteq; [exact Hf|].
      apply fmap_submseteq, sublist_submseteq, sublist_take. }
    apply Hin in Hr as (i & Hi & Hs). exists i. by rewrite <- Hzero.
  - intros Hl i f Hi Hs.
    pose proof (ranking_length lower query clock facts) as Hlen.
    rewrite slice_to_take by (unfold Py.len in *; lia).
    rewrite take_ge by (unfold Py.len in *; lia).
    apply Hin. exists i. by rewrite Hzero.
Qed.

Lemma get_relevant_facts_membership_witness :
  Sample.peanuts ∈ get_relevant_facts PyStr.lower [Sample.peanuts; Sample.green_tea]
                     Sample.clock Sample.tea_query 5.
Proof.
  refine (proj2 (get_relevant_facts_membership PyStr.lower
                   [Sample.peanuts; Sample.green_tea] Sample.clock
                   Sample.tea_query 5) _ 0%nat Sample.peanuts eq_refl _).
  - done.
  - right. right. by left.
Defined.

(** ** The importance enumeration *)

(** X9. [Importance(value)] succeeds exactly on "low", "normal", "high"
    and "critical" and is the inverse of [.value]: the member read back
    from a stored value is the member that was stored, and any other text
    (such as "medium", or "High" with a capital) is a [ValueError]. *)
Theorem importance_round_trip :
  code_importances = [Py.lit "low"; Py.lit "normal"; Py.lit "high";
                      Py.lit "critical"] ∧
  (∀ i, Importance_of_value (Importance_value i) = Some i) ∧
  (∀ v i, Importance_of_value v = Some i → v = Importance_value i) ∧
  (∀ v, v ∉ code_importances → Importance_of_value v = None) ∧
  Importance_of_value (Py.lit "medium") = None ∧
  Importance_of_value (Py.lit "High") = None.
Proof.
  assert (Hback : ∀ v i, Importance_of_value v = Some i → v = Importance_value i).
  { intros v i H. unfold Importance_of_value, enum_of_value in H.
    apply find_some in H as [_ H]. by apply bool_decide_eq_true in H. }
  split; [done|]. split; [by intros []|]. split; [done|].
  split; [|by vm_compute].
  intros v Hv. destruct (Importance_of_value v) as [i|] eqn:E; [|done].
  exfalso. apply Hv. apply Hback in E as ->. unfold code_importances.
  apply list_elem_of_fmap. exists i. split; [done|].
  destruct i; unfold Importance_members; rewrite !elem_of_cons; tauto.
Qed.

Lemma importance_round_trip_witness :
  Importance_of_value (Py.lit "urgent") = None.
Proof.
  apply (proj1 (proj2 (proj2 (proj2 importance_round_trip)))).
  rewrite (proj1 importance_round_trip), !not_elem_of_cons. vm_compute.
  repeat split; try congruence. apply not_elem_of_nil.
Defined.

(** ** Preferences *)

Section Preferences.

Implicit Types (prefs : gmap str (gmap str str)) (row : str * str * str).

Lemma preference_lookup_add prefs row cat key :
  preference_lookup (preferences_add prefs row) cat key =
  if decide (row.1.1 = cat ∧ row.1.2 = key) then Some row.2
  else preference_lookup prefs cat key.
Proof.
  unfold preference_lookup, preferences_add. destruct row as [[c k] v]. simpl.
  destruct (decide (c = cat)) as [->|Hc].
  - rewrite lookup_insert_eq. simpl.
    destruct (decide (k = key)) as [->|Hk].
    + rewrite lookup_insert_eq. by rewrite decide_True.
    + rewrite lookup_insert_ne by done. rewrite decide_False by tauto.
      destruct (prefs !! cat) as [d|] eqn:Hd; simpl.
      * by rewrite Hd.
      * by rewrite lookup_insert_eq.
  - rewrite lookup_insert_ne by done. rewrite decide_False by tauto.
    destruct (prefs !! c); [done|]. by rewrite lookup_insert_ne.
Qed.

End Preferences.

(** X10. The dictionary built by [get_preferences] answers, for every
    category and key, the value of the last row with that category and
    key, and nothing when no row has them: a later row overrides an
    earlier one and rows of other keys do not interfere. *)
Theorem preferences_last_row_wins (rows : list (str * str * str))
    (cat key : str) :
  preference_lookup (preferences_of_rows rows) cat key
  = last_written rows cat key.
Proof.
  unfold preferences_of_rows, last_written.
  induction rows as [|row rows IH] using rev_ind; [done|].
  rewrite foldl_snoc, preference_lookup_add, IH, filter_app.
  rewrite filter_cons, filter_nil.
  destruct (decide (row.1.1 = cat ∧ row.1.2 = key)).
  - by rewrite last_snoc.
  - by rewrite app_nil_r.
Qed.

(** ** The tool registry *)

(** X11. The tools offered to the completion service and the tools the
    dispatcher knows are the same eight: every declared name is found in
    the registry, every registered name is declared, each tool is
    registered under the name its class declares, and the names are
    distinct. *)
Theorem tool_names_are_dispatchable (user_id : str) :
  get_tool_definitions user_id = Tool_name <$> declared_tools user_id ∧
  NoDup (get_tool_definitions user_id) ∧
  length (get_tool_definitions user_id) = 8%nat ∧
  (∀ name, name ∈ get_tool_definitions user_id ↔
           is_Some (get_tool_registry user_id !! name)) ∧
  (∀ name tool, get_tool_registry user_id !! name = Some tool →
                Tool_name tool = name ∧ tool ∈ declared_tools user_id).
Proof.
  assert (Hreg : ∀ name tool, get_tool_registry user_id !! name = Some tool →
            Tool_name tool = name ∧ tool ∈ declared_tools user_id).
  { intros name tool. unfold get_tool_registry, declared_tools. simpl.
    rewrite !lookup_insert_Some, lookup_empty.
    intros H. repeat (destruct H as [[<- <-]|[_ H]]; [split; [done|]|]);
      try done; rewrite !elem_of_cons; tauto. }
  split; [done|]. split; [apply (bool_decide_unpack _); by vm_compute|].
  split; [done|]. split; [|done].
  intros name. split.
  - unfold get_tool_definitions. simpl. rewrite !elem_of_cons.
    intros H. repeat (destruct H as [->|H]; [vm_compute; by eexists|]).
    by apply elem_of_nil in H.
  - intros [tool Htool]. destruct (Hreg _ _ Htool) as [<- Hin].
    unfold declared_tools in Hin. simpl in Hin. rewrite !elem_of_cons in Hin.
    unfold get_tool_definitions. simpl. rewrite !elem_of_cons.
    repeat (destruct Hin as [->|Hin]; [tauto|]). by apply elem_of_nil in Hin.
Qed.

Lemma tool_names_are_dispatchable_witness :
  Tool_name (SetReminderTool (Py.lit "u-1")) = Py.lit "set_reminder" ∧
  SetReminderTool (Py.lit "u-1") ∈ declared_tools (Py.lit "u-1").
Proof.
  exact (proj2 (proj2 (proj2 (proj2
           (tool_names_are_dispatchable (Py.lit "u-1")))))
           (Py.lit "set_reminder") (SetReminderTool (Py.lit "u-1"))
           ltac:(by vm_compute)).
Defined.

(** ** The conversation counter *)

(** X12. [increment_conversation_count] reads the profile and, when there
    is one, writes it back with [total_conversations] increased by one and
    every other field as read; when there is none it writes nothing. It
    never raises, even when the update fails, and leaves the agent
    untouched. *)
Theorem increment_conversation_count_effect {W : Type}
    (answer : ∀ X, Call X → W → X * W) (user_id : str)
    (s : JarvisAgent) (w : W) :
  let o := run answer (increment_conversation_count user_id s) w in
  result o = (Ok tt, s) ∧
  trace o = Event (storage_get_user user_id) ::
            match (answer _ (storage_get_user user_id) w).1 with
            | Some user => [Event (storage_update_user (counted user))]
            | None => []
            end ∧
  (∀ user, total_conversations (counted user) = total_conversations user + 1 ∧
           profile_id (counted user) = profile_id user ∧
           user_name (counted user) = user_name user ∧
           role (counted user) = role user).
Proof.
  cbv zeta. unfold increment_conversation_count.
  rewrite exec_try_except, exec_mbind. cbn [ask run result world trace fst snd].
  destruct (answer _ (storage_get_user user_id) w) as [[user|] w1];
    cbn [fst snd ret run result world trace app]; [|done].
  rewrite exec_mbind. cbn [call run result world trace fst snd].
  destruct (answer _ (storage_update_user _) w1) as [[u|e] w2];
    cbn [fst snd ret run result world trace app]; done.
Qed.

(** ** Tool calls and the follow-up completion *)

Section Turn.

Context {W : Type} (answer : ∀ X, Call X → W → X * W).
Context (settings : Settings) (loads : str → option json) (dumps : json → str).
Context (BASE : str) (WITH_CONTEXT : str → str → str).

Abbreviation exec m s w := (run answer (m s) w).
Abbreviation process' := (process settings loads dumps BASE WITH_CONTEXT).

Lemma tool_records_length registry calls w :
  length (tool_records answer loads dumps registry calls w).1 = length calls.
Proof.
  revert w. induction calls as [|tc calls IH]; intros w; [done|].
  simpl. by rewrite IH.
Qed.


Lemma tool_events_cons registry tc calls :
  tool_events loads registry (tc :: calls)
  = tool_events loads registry [tc] ++ tool_events loads registry calls.
Proof. unfold tool_events. cbn [flat_map]. by rewrite app_nil_r. Qed.

Lemma tool_events_chat_requests registry calls :
  chat_requests (tool_events loads registry calls) = [].
Proof.
  induction calls as [|tc calls IH]; [done|].
  unfold tool_events, chat_requests in *. cbn [flat_map].
  rewrite omap_app, IH. by destruct (registry !! function_name tc).
Qed.

Lemma tool_events_tool_runs s calls :
  tool_runs (tool_events loads (tool_registry s) calls)
  = omap (dispatch loads s) calls.
Proof.
  induction calls as [|tc calls IH]; [done|].
  unfold tool_events, tool_runs, dispatch in *. cbn [flat_map omap].
  rewrite omap_app, IH.
  destruct (tool_registry s !! function_name tc) eqn:E; simpl;
    by rewrite ?E.
Qed.


(** The content of one round. *)
Lemma post_tool_content tc s w :
  let ran := tool_ran answer loads dumps (tool_registry s) tc w in
  post answer
    (match tool_registry s !! function_name tc with
     | Some tool =>
         try_except
           (mbind (call (tool_execute tool (parse_arguments loads tc)))
                  (λ result, dumps_or_raise dumps (result_dict result)))
           (λ e, ret (dumps (failure_dict e)))
     | None =>
         ret (dumps (failure_dict
                       (Py.lit "Unknown tool: " ++ function_name tc)))
     end)
    s w
    (λ r s' w' tr,
       r = Ok ran.1 ∧ s' = s ∧ w' = ran.2 ∧
       tr ++ [Event utcnow] = tool_events loads (tool_registry s) [tc]).
Proof.
  cbv zeta. unfold tool_ran, tool_events. cbn [flat_map].
  destruct (tool_registry s !! function_name tc) as [tool|].
  - apply post_try_except, post_mbind, post_call.
    destruct (answer _ (tool_execute tool (parse_arguments loads tc)) w)
      as [[r|e] w1]; cbn [fst snd result_content].
    + unfold dumps_or_raise. destruct (not_serializable (result_dict r)).
      * by apply post_raise, post_ret.
      * by apply post_ret.
    + by apply post_ret.
  - by apply post_ret.
Qed.

(** The loop over the calls, as a whole. *)
Lemma post_execute_tool_calls calls messages s w :
  let r := tool_records answer loads dumps (tool_registry s) calls w in
  post answer (execute_tool_calls loads dumps calls messages) s w
    (λ res s' w' tr,
       res = Ok (messages ++ zip_with tool_message calls r.1.*1) ∧
       s' = set_short_term s
              (add_messages (zip_with tool_add_args calls r.1) (short_term s)) ∧
       w' = r.2 ∧
       tr = tool_events loads (tool_registry s) calls).
Proof.
  revert messages s w. induction calls as [|tc calls IH]; intros messages s w.
  - apply post_ret. simpl. rewrite app_nil_r. by destruct s.
  - cbn [execute_tool_calls]. apply post_mbind, post_get.
    cbv zeta. apply post_mbind.
    eapply post_mono; [apply post_tool_content|].
    intros r s1 w1 tr1 (-> & -> & -> & Htr).
    apply post_mbind, post_short_term_add_message.
    eapply post_mono; [apply IH|].
    intros r s2 w2 tr2 (-> & -> & -> & ->).
    cbn [tool_records fst snd zip_with fmap list_fmap].
    unfold tool_step. cbn [fst snd].
    split; [by rewrite <- app_assoc|]. split; [done|]. split; [done|].
    rewrite tool_events_cons, <- Htr. cbn [app]. by rewrite <- !app_assoc.
Qed.

Lemma post_handle_tool_calls_turn am messages s w :
  let calls := default [] (am_tool_calls am) in
  let r := tool_records answer loads dumps (tool_registry s) calls w in
  let follow :=
    (messages ++ [assistant_request_message am])
    ++ zip_with tool_message calls r.1.*1 in
  let request := chat_completions_create (follow_up_request settings follow) in
  let a := answer _ request r.2 in
  post answer (_handle_tool_calls settings loads dumps am messages) s w
    (λ res s' w' tr,
       res = Ok (follow_up_reply a.1, follow) ∧
       s' = set_short_term s
              (add_messages (zip_with tool_add_args calls r.1) (short_term s)) ∧
       w' = a.2 ∧
       tr = tool_events loads (tool_registry s) calls ++ [Event request]).
Proof.
  intros calls. cbv zeta. unfold _handle_tool_calls. fold calls.
  apply post_mbind.
  eapply post_mono; [apply post_execute_tool_calls|].
  intros r s1 w1 tr1 (-> & -> & -> & ->).
  apply post_mbind, post_try_except, post_mbind, post_call.
  unfold follow_up_request, assistant_request_message. fold calls.
  destruct (answer _ (chat_completions_create _) _) as [[final|e] w2];
    cbn [fst snd follow_up_reply]; repeat apply post_ret;
    by rewrite ?app_nil_r.
Qed.

(** ** The turn *)

Lemma voice_reply_bound reply :
  0 <= max_response_length settings →
  Py.len (voice_reply settings reply) <= max_response_length settings + 3.
Proof.
  intros HB. unfold voice_reply.
  destruct (Z.gtb_spec (Py.len reply) (max_response_length settings)); [|lia].
  rewrite truncate_long by lia.
  pose proof (break_point_bounds
                (take (Z.to_nat (max_response_length settings)) reply)) as Hbp.
  revert Hbp. unfold Py.len. rewrite length_take. intros Hbp.
  destruct (_ >? _).
  - rewrite length_take. lia.
  - rewrite length_app, length_take. simpl. lia.
Qed.

Lemma post_process_turn user_input user s w :
  current_user s = Some user →
  let t := answer _ utcnow w in
  let s1 := set_short_term s
              (add_message (user_turn user_input t.1) (short_term s)).2 in
  let c := answer _ (assemble_context user user_input) t.2 in
  let prompt := match c.1 with
                | Ok user_context => WITH_CONTEXT BASE user_context
                | Raise _ => BASE
                end in
  let request := first_request settings prompt s1 in
  let a := answer _ (chat_completions_create request) c.2 in
  post answer (process' user_input) s w (λ r s' wf tr,
    ∃ (reply : str) (mid : list add_args) (middle : list event) (now : datetime),
      r = Ok (voice_reply settings reply) ∧
      match a.1 with
      | Ok am =>
          if truthy_tool_calls (am_tool_calls am)
          then
            let calls := default [] (am_tool_calls am) in
            let rec := tool_records answer loads dumps (tool_registry s) calls
                                    a.2 in
            let follow :=
              (req_messages request ++ [assistant_request_message am])
              ++ zip_with tool_message calls rec.1.*1 in
            let second :=
              chat_completions_create (follow_up_request settings follow) in
            let b := answer _ second rec.2 in
            mid = zip_with tool_add_args calls rec.1 ∧
            middle = tool_events loads (tool_registry s) calls ++ [Event second] ∧
            now = (answer _ utcnow b.2).1 ∧
            wf = (answer _ utcnow b.2).2 ∧
            reply = follow_up_reply b.1
          else
            mid = [] ∧ middle = [] ∧ now = (answer _ utcnow a.2).1 ∧
            wf = (answer _ utcnow a.2).2 ∧
            reply = or_else (am_content am)
                            (Py.lit "I'm not sure how to respond to that.")
      | Raise _ =>
          mid = [] ∧ middle = [] ∧ now = (answer _ utcnow a.2).1 ∧
          wf = (answer _ utcnow a.2).2 ∧
          reply = apology
      end ∧
      s' = set_short_term s
             (add_messages (user_turn user_input t.1 :: mid ++
                            [assistant_turn (voice_reply settings reply) now])
                           (short_term s)) ∧
      tr = [Event utcnow; Event (assemble_context user user_input);
            Event (chat_completions_create request)]
           ++ middle ++ [Event utcnow]).
Proof.
  intros Huser. cbv zeta. unfold first_request, user_turn, process. cbv zeta.
  apply post_mbind, post_get. rewrite Huser.
  apply post_mbind, post_ret, post_mbind, post_short_term_add_message.
  apply post_mbind. unfold _build_system_prompt.
  apply post_mbind, post_get. cbn [current_user set_short_term]. rewrite Huser.
  apply post_try_except, post_mbind, post_call.
  destruct (answer _ (assemble_context user user_input) _) as [[ctx|e] w2];
    cbn [fst snd]; repeat apply post_ret.
  all: apply post_mbind, post_get, post_mbind, post_try_except, post_mbind, post_call.
  all: match goal with
       | |- context [answer ?X (chat_completions_create ?r) ?w'] =>
           destruct (answer X (chat_completions_create r) w') as [[am|e'] w3]
       end; cbn [fst snd].
  all: try (destruct (truthy_tool_calls (am_tool_calls am))).
  all: try (apply post_mbind; eapply post_mono;
            [apply post_handle_tool_calls_turn|]; cbv zeta;
            intros r s2 w4 tr (-> & -> & -> & ->)).
  all: repeat apply post_ret.
  all: apply post_mbind, post_short_term_add_message, post_ret.
  all: unfold voice_reply.
  all: eexists _, _, _, _; split; [reflexivity|]; split;
    [cbv zeta; repeat split; reflexivity|]; split.
  all: first
    [ unfold set_short_term;
      cbn [short_term current_user tool_registry tool_definitions]; f_equal;
      rewrite app_comm_cons, add_messages_snoc; reflexivity
    | cbn [app]; rewrite ?app_nil_r, <- ?app_assoc; reflexivity ].
Qed.

Lemma outcome_eta {A} (o : outcome (W := W) (res A * JarvisAgent)) :
  o = mkOutcome ((result o).1, (result o).2) (world o) (trace o).
Proof. by destruct o as [[r s'] wf tr]. Qed.

End Turn.




(** X15. Within a session, with a non-negative budget [B], [process]
    always returns a reply, of at most [B + 3] characters, and makes one
    or two completion requests. *)
Theorem process_reply_fits_voice_budget {W : Type}
    (answer : ∀ X, Call X → W → X * W) (settings : Settings)
    (loads : str → option json) (dumps : json → str)
    (BASE : str) (WITH_CONTEXT : str → str → str)
    (user_input : str) (user : UserProfile) (s : JarvisAgent) (w : W) :
  current_user s = Some user →
  0 <= max_response_length settings →
  let o := run answer
             (process settings loads dumps BASE WITH_CONTEXT user_input s) w in
  ∃ reply,
    (result o).1 = Ok reply ∧
    Py.len reply <= max_response_length settings + 3 ∧
    (1 <= length (chat_requests (trace o)) <= 2)%nat.
Proof.
  intros Huser HB o.
  pose proof (post_process_turn answer settings loads dumps BASE WITH_CONTEXT
                user_input user s w Huser) as H.
  cbv zeta in H. unfold post in H. fold o in H.
  destruct H as (reply & mid & middle & now & Hr & Hcase & _ & Htr).
  exists (voice_reply settings reply). split; [done|].
  split; [by apply voice_reply_bound|].
  assert (Hmid : (length (chat_requests middle) <= 1)%nat).
  { destruct (answer _ (chat_completions_create _) _).1 as [am|e].
    - destruct (truthy_tool_calls (am_tool_calls am)).
      + cbv zeta in Hcase. destruct Hcase as (_ & -> & _).
        unfold chat_requests. rewrite omap_app.
        fold (chat_requests (tool_events loads (tool_registry s)
                               (default [] (am_tool_calls am)))).
        by rewrite tool_events_chat_requests.
      + destruct Hcase as (_ & -> & _). simpl. lia.
    - destruct Hcase as (_ & -> & _). simpl. lia. }
  rewrite Htr. unfold chat_requests in *. rewrite !omap_app, !length_app.
  simpl. lia.
Qed.

Lemma process_reply_fits_voice_budget_witness :
  ∃ reply,
    (result (run Scenario.tooling
               (process Sample.voice_settings Sample.json_loads
                  Sample.json_dumps (Py.lit "You are Jarvis.")
                  (λ base context, base ++ context) (Py.lit "what time is it")
                  Sample.active_agent) 0%nat)).1 = Ok reply ∧
    Py.len reply <= 13.
Proof.
  destruct (process_reply_fits_voice_budget Scenario.tooling
              Sample.voice_settings Sample.json_loads Sample.json_dumps
              (Py.lit "You are Jarvis.") (λ base context, base ++ context)
              (Py.lit "what time is it") Sample.friend Sample.active_agent
              0%nat eq_refl ltac:(done)) as (reply & Hr & Hlen & _).
  exists reply. split; [exact Hr|exact Hlen].
Defined.

(** X16. Within a session with an open conversation, [process] appends
    to the buffer of unsaved messages the user message first, then one
    message of role "tool" for each call of the completion answer, in
    call order and with the content and clock reading of its round (none
    when the answer has no tool calls or the request fails), and last the
    assistant message, whose content is exactly the reply returned (after
    truncation). With a maximum of at least 1 that assistant message is
    also the last of the stored log. The user and the tools of the agent
    are left as they were. *)
Theorem process_records_the_turn {W : Type}
    (answer : ∀ X, Call X → W → X * W) (settings : Settings)
    (loads : str → option json) (dumps : json → str)
    (BASE : str) (WITH_CONTEXT : str → str → str)
    (user_input : str) (user : UserProfile) (s : JarvisAgent) (w : W) :
  current_user s = Some user →
  is_Some (current_conversation (short_term s)) →
  let t := answer _ utcnow w in
  let asked := mkAddArgs (Py.lit "user") user_input None None t.1 in
  let c := answer _ (assemble_context user user_input) t.2 in
  let prompt := match c.1 with
                | Ok user_context => WITH_CONTEXT BASE user_context
                | Raise _ => BASE
                end in
  let offered := match tool_definitions s with [] => false | _ => true end in
  let request :=
    mkChatRequest (openai_model settings)
      (mkLlmMessage (Py.lit "system") (Some prompt) None None
       :: get_messages_for_llm (add_message asked (short_term s)).2)
      (if offered then Some (tool_definitions s) else None)
      (if offered then Some (Py.lit "auto") else None)
      500 (Some (7, 10)) in
  let a := answer _ (chat_completions_create request) c.2 in
  let calls :=
    match a.1 with
    | Ok am => if truthy_tool_calls (am_tool_calls am)
               then default [] (am_tool_calls am) else []
    | Raise _ => []
    end in
  let rounds := (tool_records answer loads dumps (tool_registry s) calls a.2).1 in
  let tools := zip_with tool_add_args calls rounds in
  let o := run answer
             (process settings loads dumps BASE WITH_CONTEXT user_input s) w in
  ∃ (reply : str) (answered : datetime),
    let said := mkAddArgs (Py.lit "assistant") reply None None answered in
    (result o).1 = Ok reply ∧
    _message_buffer (short_term (result o).2) =
      _message_buffer (short_term s) ++
      new_message asked :: map new_message tools ++ [new_message said] ∧
    length tools = length calls ∧
    (∀ i tc, calls !! i = Some tc →
       ∃ content now,
         rounds !! i = Some (content, now) ∧
         tools !! i = Some (mkAddArgs (Py.lit "tool") content
                              (Some (function_name tc)) (Some (call_id tc))
                              now)) ∧
    (1 <= max_messages (short_term s) →
       last (stored_log (short_term (result o).2)) = Some (new_message said)) ∧
    current_user (result o).2 = current_user s ∧
    tool_registry (result o).2 = tool_registry s ∧
    tool_definitions (result o).2 = tool_definitions s.
Proof.
  intros Huser Hact t asked c prompt offered request a calls rounds tools o.
  pose proof (post_process_turn answer settings loads dumps BASE WITH_CONTEXT
                user_input user s w Huser) as H.
  cbv zeta in H. unfold post in H. fold o in H.
  change (first_request settings _ _) with request in H.
  fold t c a in H. fold a in H.
  destruct H as (reply & mid & middle & now & Hr & Hcase & Hs & _).
  assert (Hmid : mid = tools).
  { subst tools rounds calls. destruct a.1 as [am|e].
    - destruct (truthy_tool_calls (am_tool_calls am)).
      + cbv zeta in Hcase. by destruct Hcase as (-> & _).
      + by destruct Hcase as (-> & _).
    - by destruct Hcase as (-> & _). }
  subst mid.
  assert (Hlen : length rounds = length calls) by apply tool_records_length.
  exists (voice_reply settings reply), now.
  cbv zeta. split; [done|]. rewrite Hs. cbn [set_short_term short_term
    current_user tool_registry tool_definitions].
  split; [|split; [|split; [|split; [|done]]]].
  - rewrite buffer_add_messages. destruct Hact as [conv ->].
    cbn [map]. by rewrite map_app.
  - unfold tools. rewrite length_zip_with. lia.
  - intros i tc Hi.
    destruct (lookup_lt_is_Some_2 rounds i) as [[content now'] Hround].
    { rewrite Hlen. by eapply lookup_lt_Some. }
    exists content, now'. split; [done|].
    unfold tools. rewrite lookup_zip_with, Hi. simpl. by rewrite Hround.
  - intros Hmax. rewrite app_comm_cons. by apply stored_log_last.
Qed.

Lemma process_records_the_turn_witness :
  ∃ reply answered,
    (result (run Scenario.tooling
               (Sample.process (Py.lit "what time is it") Sample.active_agent)
               0%nat)).1 = Ok reply ∧
    last (stored_log
            (short_term
               (result (run Scenario.tooling
                          (Sample.process (Py.lit "what time is it")
                                          Sample.active_agent) 0%nat)).2))
      = Some (new_message (mkAddArgs (Py.lit "assistant") reply None None
                                     answered)).
Proof.
  destruct (process_records_the_turn Scenario.tooling default_settings
              Sample.json_loads Sample.json_dumps (Py.lit "You are Jarvis.")
              (λ base context, base ++ context) (Py.lit "what time is it")
              Sample.friend Sample.active_agent 0%nat eq_refl
              ltac:(by eexists))
    as (reply & answered & Hr & _ & _ & _ & Hlast & _).
  exists reply, answered. cbv zeta in Hlast.
  split; [exact Hr|exact (Hlast ltac:(done))].
Defined.

(** X17. A turn whose completion request fails, or is answered without
    tool calls, is fully determined: the clock is read, the context is
    assembled, one completion request is made (model, system prompt
    followed by the stored window, the tools offered with choice "auto"
    only when the agent has definitions, 500 tokens, temperature 0.7) and
    the clock is read again. The reply is the apology on failure and
    otherwise the content, or a fixed sentence when the content is missing
    or empty; it is truncated for voice and recorded after the user
    message. A failing context assembly only changes the system prompt to
    the base prompt. *)
Theorem process_single_completion {W : Type}
    (answer : ∀ X, Call X → W → X * W) (settings : Settings)
    (loads : str → option json) (dumps : json → str)
    (BASE : str) (WITH_CONTEXT : str → str → str)
    (user_input : str) (user : UserProfile) (s : JarvisAgent) (w : W) :
  current_user s = Some user →
  let t := answer _ utcnow w in
  let asked := mkAddArgs (Py.lit "user") user_input None None t.1 in
  let c := answer _ (assemble_context user user_input) t.2 in
  let prompt := match c.1 with
                | Ok user_context => WITH_CONTEXT BASE user_context
                | Raise _ => BASE
                end in
  let offered := match tool_definitions s with [] => false | _ => true end in
  let request :=
    mkChatRequest (openai_model settings)
      (mkLlmMessage (Py.lit "system") (Some prompt) None None
       :: get_messages_for_llm (add_message asked (short_term s)).2)
      (if offered then Some (tool_definitions s) else None)
      (if offered then Some (Py.lit "auto") else None)
      500 (Some (7, 10)) in
  let a := answer _ (chat_completions_create request) c.2 in
  let u := answer _ utcnow a.2 in
  ∀ reply : str,
    match a.1 with
    | Raise _ =>
        reply = Py.lit
          "Sorry, I had trouble thinking about that. Could you try again?"
    | Ok am =>
        truthy_tool_calls (am_tool_calls am) = false ∧
        reply = match am_content am with
                | Some (ch :: text) => ch :: text
                | _ => Py.lit "I'm not sure how to respond to that."
                end
    end →
    let spoken := if Py.len reply >? max_response_length settings
                  then _truncate_for_voice settings reply else reply in
    run answer (process settings loads dumps BASE WITH_CONTEXT user_input s) w =
    mkOutcome
      (Ok spoken,
       set_short_term s
         (add_messages
            [asked; mkAddArgs (Py.lit "assistant") spoken None None u.1]
            (short_term s)))
      u.2
      [Event utcnow; Event (assemble_context user user_input);
       Event (chat_completions_create request); Event utcnow].
Proof.
  intros Huser t asked c prompt offered request a u reply Hreply spoken.
  pose proof (post_process_turn answer settings loads dumps BASE WITH_CONTEXT
                user_input user s w Huser) as H.
  cbv zeta in H. unfold post in H.
  set (o := run answer _ w) in *.
  change (first_request settings _ _) with request in H.
  fold t c a in H. fold a in H.
  destruct H as (reply' & mid & middle & now & Hr & Hcase & Hs & Htr).
  assert (Hplain : mid = [] ∧ middle = [] ∧ now = u.1 ∧ world o = u.2 ∧
                   reply' = reply).
  { destruct a.1 as [am|e].
    - destruct Hreply as [Hno ->]. rewrite Hno in Hcase.
      destruct Hcase as (-> & -> & -> & -> & ->). repeat split.
      unfold or_else. by destruct (am_content am) as [[|ch text]|].
    - by destruct Hcase as (-> & -> & -> & -> & ->). }
  destruct Hplain as (-> & -> & -> & Hw & ->).
  rewrite (outcome_eta o), Hr, Hs, Htr, Hw. done.
Qed.

Lemma process_single_completion_witness :
  run Scenario.offline (Sample.process (Py.lit "hi") Scenario.stranded_agent)
      0%nat
  = mkOutcome
      (Ok (Py.lit
             "Sorry, I had trouble thinking about that. Could you try again?"),
       Scenario.stranded_agent)
      4%nat
      [Event utcnow;
       Event (assemble_context Scenario.resident (Py.lit "hi"));
       Event (chat_completions_create
                (mkChatRequest (Py.lit "gpt-4o")
                   [mkLlmMessage (Py.lit "system")
                      (Some (Py.lit "You are Jarvis.USER PROFILE")) None None]
                   None None 500 (Some (7, 10))));
       Event utcnow].
Proof.
  exact (process_single_completion Scenario.offline default_settings
           Sample.json_loads Sample.json_dumps (Py.lit "You are Jarvis.")
           (λ base context, base ++ context) (Py.lit "hi") Scenario.resident
           Scenario.stranded_agent 0%nat eq_refl _ eq_refl).
Defined.

(** X18. A turn whose completion request is answered with tool calls
    is fully determined. After the clock reading, the context assembly
    and the first request come, for each call in call order, the run of
    its registered tool and a clock reading; then the second completion
    request, which offers no tools and carries the messages of the first,
    the assistant message with its tool calls and one tool message per
    call; then the last clock reading. The reply is drawn from the answer
    to the second request ("Done." for a missing or empty content, a
    fixed sentence when it fails), truncated for voice, and recorded
    after the user message and the tool messages. *)
Theorem process_tool_turn {W : Type}
    (answer : ∀ X, Call X → W → X * W) (settings : Settings)
    (loads : str → option json) (dumps : json → str)
    (BASE : str) (WITH_CONTEXT : str → str → str)
    (user_input : str) (user : UserProfile) (s : JarvisAgent) (w : W) :
  current_user s = Some user →
  let t := answer _ utcnow w in
  let asked := mkAddArgs (Py.lit "user") user_input None None t.1 in
  let c := answer _ (assemble_context user user_input) t.2 in
  let prompt := match c.1 with
                | Ok user_context => WITH_CONTEXT BASE user_context
                | Raise _ => BASE
                end in
  let offered := match tool_definitions s with [] => false | _ => true end in
  let request :=
    mkChatRequest (openai_model settings)
      (mkLlmMessage (Py.lit "system") (Some prompt) None None
       :: get_messages_for_llm (add_message asked (short_term s)).2)
      (if offered then Some (tool_definitions s) else None)
      (if offered then Some (Py.lit "auto") else None)
      500 (Some (7, 10)) in
  let a := answer _ (chat_completions_create request) c.2 in
  let o := run answer
             (process settings loads dumps BASE WITH_CONTEXT user_input s) w in
  ∀ am : AssistantMessage,
    a.1 = Ok am →
    truthy_tool_calls (am_tool_calls am) = true →
    let calls := default [] (am_tool_calls am) in
    let rounds := tool_records answer loads dumps (tool_registry s) calls a.2 in
    let follow :=
      (req_messages request ++
       [mkLlmMessage (Py.lit "assistant") (am_content am) None (Some calls)])
      ++ zip_with tool_message calls rounds.1.*1 in
    let second := mkChatRequest (openai_model settings) follow None None 500 None in
    let final := answer _ (chat_completions_create second) rounds.2 in
    let reply :=
      match final.1 with
      | Ok final_response =>
          match am_content final_response with
          | Some (ch :: text) => ch :: text
          | _ => Py.lit "Done."
          end
      | Raise _ => Py.lit "I completed the task, but had trouble summarizing it."
      end in
    let spoken := if Py.len reply >? max_response_length settings
                  then _truncate_for_voice settings reply else reply in
    let u := answer _ utcnow final.2 in
    o = mkOutcome
          (Ok spoken,
           set_short_term s
             (add_messages
                (asked :: zip_with tool_add_args calls rounds.1
                 ++ [mkAddArgs (Py.lit "assistant") spoken None None u.1])
                (short_term s)))
          u.2
          ([Event utcnow; Event (assemble_context user user_input);
            Event (chat_completions_create request)]
           ++ tool_events loads (tool_registry s) calls
           ++ [Event (chat_completions_create second); Event utcnow]) ∧
    length rounds.1 = length calls ∧
    chat_requests (trace o) = [request; second] ∧
    tool_runs (trace o) = omap (dispatch loads s) calls.
Proof.
  intros Huser t asked c prompt offered request a o am Ham Hcalls calls rounds
    follow second final reply spoken u.
  pose proof (post_process_turn answer settings loads dumps BASE WITH_CONTEXT
                user_input user s w Huser) as H.
  cbv zeta in H. unfold post in H. fold o in H.
  change (first_request settings _ _) with request in H.
  fold t c a in H. fold a in H. rewrite Ham, Hcalls in H.
  fold calls rounds in H.
  destruct H as (reply' & mid & middle & now & Hr & Hcase & Hs & Htr).
  change (answer _ (chat_completions_create (follow_up_request settings _)) _)
    with final in Hcase.
  destruct Hcase as (-> & -> & -> & Hw & ->).
  assert (Hreply : follow_up_reply final.1 = reply).
  { unfold follow_up_reply, reply. destruct final.1 as [final_response|e]; [|done].
    by destruct (am_content final_response) as [[|ch text]|]. }
  rewrite Hreply in Hr, Hs.
  assert (Ho : o = mkOutcome
          (Ok spoken,
           set_short_term s
             (add_messages
                (asked :: zip_with tool_add_args calls rounds.1
                 ++ [mkAddArgs (Py.lit "assistant") spoken None None u.1])
                (short_term s)))
          u.2
          ([Event utcnow; Event (assemble_context user user_input);
            Event (chat_completions_create request)]
           ++ tool_events loads (tool_registry s) calls
           ++ [Event (chat_completions_create second); Event utcnow])).
  { rewrite (outcome_eta o), Hr, Hs, Htr, Hw. unfold follow_up_request.
    fold follow second. by rewrite <- app_assoc. }
  split; [exact Ho|]. split; [apply tool_records_length|].
  rewrite Ho. cbn [trace]. split.
  - unfold chat_requests. rewrite !omap_app.
    fold (chat_requests (tool_events loads (tool_registry s) calls)).
    by rewrite tool_events_chat_requests.
  - unfold tool_runs. rewrite !omap_app.
    fold (tool_runs (tool_events loads (tool_registry s) calls)).
    rewrite tool_events_tool_runs. simpl. by rewrite app_nil_r.
Qed.

Lemma process_tool_turn_witness :
  let o := run Scenario.tooling
             (Sample.process (Py.lit "what time is it") Sample.active_agent)
             0%nat in
  length (chat_requests (trace o)) = 2%nat ∧
  tool_runs (trace o) = [(CalculatorTool, JDict []); (CurrentTimeTool, JDict [])] ∧
  (result o).1 = Ok (Py.lit "All done.").
Proof.
  destruct (process_tool_turn Scenario.tooling default_settings
              Sample.json_loads Sample.json_dumps (Py.lit "You are Jarvis.")
              (λ base context, base ++ context) (Py.lit "what time is it")
              Sample.friend Sample.active_agent 0%nat eq_refl
              Sample.batch eq_refl eq_refl)
    as (Ho & _ & Hreq & Hruns).
  cbv zeta. split; [exact (f_equal length Hreq)|].
  split; [exact Hruns|]. exact (f_equal (λ o, (result o).1) Ho).
Defined.

(** X19. With a user set but no conversation open (the state in which a
    failed [insert] of [start_session] leaves the agent), [process] still
    answers, but the turn leaves no record: the agent state is unchanged,
    and the first completion request consists of the system prompt alone,
    without the user's input. *)
Theorem process_without_conversation {W : Type}
    (answer : ∀ X, Call X → W → X * W) (settings : Settings)
    (loads : str → option json) (dumps : json → str)
    (BASE : str) (WITH_CONTEXT : str → str → str)
    (user_input : str) (user : UserProfile) (s : JarvisAgent) (w : W) :
  current_user s = Some user →
  current_conversation (short_term s) = None →
  let o := run answer
             (process settings loads dumps BASE WITH_CONTEXT user_input s) w in
  ∃ (reply prompt : str) (first : ChatRequest) (later : list ChatRequest),
    (result o).1 = Ok reply ∧
    (result o).2 = s ∧
    chat_requests (trace o) = first :: later ∧
    req_messages first = [mkLlmMessage (Py.lit "system") (Some prompt) None None] ∧
    (prompt = BASE ∨ ∃ user_context, prompt = WITH_CONTEXT BASE user_context).
Proof.
  intros Huser Hnone o.
  pose proof (post_process_turn answer settings loads dumps BASE WITH_CONTEXT
                user_input user s w Huser) as H.
  cbv zeta in H. unfold post in H. fold o in H.
  destruct H as (reply & mid & middle & now & Hr & _ & Hs & Htr).
  eexists _, _, _, _. split; [exact Hr|]. split; [|split; [|split]].
  - rewrite Hs, add_messages_inactive by done. by destruct s.
  - rewrite Htr. unfold chat_requests. simpl. reflexivity.
  - unfold first_request, get_messages_for_llm, add_message. cbn.
    rewrite Hnone. cbn. rewrite Hnone. reflexivity.
  - destruct (answer _ (assemble_context user user_input) _).1; eauto.
Qed.

Lemma process_without_conversation_witness :
  ∃ reply prompt first later,
    (result (run Sample.answer
               (Sample.process (Py.lit "hi") Scenario.stranded_agent) 0%nat)).1
      = Ok reply ∧
    (result (run Sample.answer
               (Sample.process (Py.lit "hi") Scenario.stranded_agent) 0%nat)).2
      = Scenario.stranded_agent ∧
    chat_requests
      (trace (run Sample.answer
                (Sample.process (Py.lit "hi") Scenario.stranded_agent) 0%nat))
      = first :: later ∧
    req_messages first = [mkLlmMessage (Py.lit "system") (Some prompt) None None].
Proof.
  destruct (process_without_conversation Sample.answer default_settings
              Sample.json_loads Sample.json_dumps (Py.lit "You are Jarvis.")
              (λ base context, base ++ context) (Py.lit "hi")
              Scenario.resident Scenario.stranded_agent 0%nat eq_refl eq_refl)
    as (reply & prompt & first & later & Hr & Hs & Hreq & Hmsg & _).
  exists reply, prompt, first, later. repeat split; assumption.
Defined.

(** ** Starting and ending a session *)

(** X20. [start_session] works for the given user id, or for the default
    id when none or an empty one is given. It reads the profile and
    creates one (named "Friend", an adult who may approve orders) only
    when the store has none. When that creation fails the fault
    propagates and the agent is unchanged. When the conversation cannot
    be created the fault propagates with the user already set, while the
    conversation, the buffer and the tools are still those of before.
    Otherwise the user is returned and the agent holds a fresh, empty
    conversation with an empty buffer and the tools bound to the id; a
    conversation that was open is replaced without being saved. *)
Theorem start_session_outcome {W : Type}
    (answer : ∀ X, Call X → W → X * W) (settings : Settings)
    (user_id alexa_session_id : option str) (s : JarvisAgent) (w : W) :
  let uid := match user_id with
             | Some (ch :: text) => ch :: text
             | _ => default_user_id settings
             end in
  let got := answer _ (storage_get_user uid) w in
  let fresh := new_UserProfile uid (Py.lit "Friend") ADULT true in
  let made := match got.1 with
              | Some user => (Ok user, got.2)
              | None => answer _ (storage_create_user fresh) got.2
              end in
  let lookup := Event (storage_get_user uid) ::
                match got.1 with
                | Some _ => []
                | None => [Event (storage_create_user fresh)]
                end in
  let o := run answer (start_session settings user_id alexa_session_id s) w in
  match made.1 with
  | Raise e => o = mkOutcome (Raise e, s) made.2 lookup
  | Ok user =>
      let opened :=
        answer _ (storage_insert_conversation uid alexa_session_id) made.2 in
      let tr := lookup ++ [Event (storage_insert_conversation uid alexa_session_id)] in
      match opened.1 with
      | Raise e =>
          o = mkOutcome (Raise e, set_current_user s (Some user)) opened.2 tr
      | Ok row =>
          o = mkOutcome
                (Ok user,
                 mkJarvisAgent
                   (mkShortTermMemory (max_messages (short_term s))
                      (Some (mkConversation (Some row.1) uid alexa_session_id
                                            [] row.2 None None))
                      [])
                   (Some user) (get_tool_registry uid)
                   (get_tool_definitions uid))
                opened.2 tr
      end
  end.
Proof.
  cbv zeta. unfold start_session.
  replace (or_else user_id (default_user_id settings))
    with (match user_id with
          | Some (ch :: text) => ch :: text
          | _ => default_user_id settings
          end) by (by destruct user_id as [[|ch text]|]).
  generalize (match user_id with
              | Some (ch :: text) => ch :: text
              | _ => default_user_id settings
              end). intros uid.
  unfold start_conversation, create_conversation, mbind, ask, call, get, put, ret.
  cbn [bind run result world trace fst snd].
  destruct (answer _ (storage_get_user uid) w) as [[user|] w1]; cbn.
  - destruct (answer _ (storage_insert_conversation uid alexa_session_id) w1)
      as [[row|e] w2]; cbn; done.
  - destruct (answer _ (storage_create_user _) w1) as [[user|e] w2]; cbn; [|done].
    destruct (answer _ (storage_insert_conversation uid alexa_session_id) w2)
      as [[row|e] w3]; cbn; done.
Qed.

Section EndSessionMore.

Context {W : Type} (answer : ∀ X, Call X → W → X * W).

Lemma post_extract_learnings_summary conversation s w :
  let ex := answer _ (extractor_extract_and_save conversation) w in
  let gen := answer _ (extractor_generate_summary conversation) ex.2 in
  post answer (extract_learnings_summary conversation) s w (λ r s' w' tr,
    r = Ok (summary_after ex.1 gen.1) ∧
    s' = s ∧
    w' = match ex.1 with
         | Ok extracted =>
             if truthy_opt_str (extracted_summary extracted)
             then ex.2 else gen.2
         | Raise _ => ex.2
         end ∧
    head tr = Some (Event (extractor_extract_and_save conversation)) ∧
    Forall (λ e, saved_conversation e = None) tr).
Proof.
  cbv zeta. unfold extract_learnings_summary.
  apply post_try_except, post_mbind, post_call.
  destruct (answer _ (extractor_extract_and_save conversation) w)
    as [[extracted|e] w1]; cbn [fst snd summary_after].
  - destruct (truthy_opt_str (extracted_summary extracted)).
    + apply post_ret. repeat split; repeat constructor.
    + apply post_try_except, post_call.
      destruct (answer _ (extractor_generate_summary conversation) w1)
        as [[generated|e] w2]; cbn [fst snd]; repeat apply post_ret;
        repeat split; repeat constructor.
  - apply post_ret. repeat split; repeat constructor.
Qed.

Lemma saved_conversations_none tr :
  Forall (λ e, saved_conversation e = None) tr → saved_conversations tr = [].
Proof.
  induction 1 as [|e tr He _ IH]; [done|].
  unfold saved_conversations in *. simpl. by rewrite He.
Qed.

(** The run of [end_session] on an open conversation. *)
Lemma post_end_session_open extract_learnings conversation s w :
  current_conversation (short_term s) = Some conversation →
  let extracting :=
    extract_learnings && (Py.len (messages conversation) >=? 4) in
  let ex := answer _ (extractor_extract_and_save conversation) w in
  let gen := answer _ (extractor_generate_summary conversation) ex.2 in
  let summary' := if extracting then summary_after ex.1 gen.1 else None in
  let reached :=
    if extracting
    then match ex.1 with
         | Ok extracted =>
             if truthy_opt_str (extracted_summary extracted)
             then ex.2 else gen.2
         | Raise _ => ex.2
         end
    else w in
  post answer (end_session extract_learnings) s w (λ r s' _ tr,
    (r, s') = (Ok tt, session_cleared s) ∧
    saved_conversations tr =
      [closed conversation (answer _ utcnow reached).1 summary'] ∧
    (extracting = true →
       head tr = Some (Event (extractor_extract_and_save conversation))) ∧
    (extracting = false → Forall (λ e, extractor_call e = false) tr)).
Proof.
  intros Hconv extracting ex gen summary' reached.
  unfold end_session. apply post_mbind, post_get. rewrite Hconv.
  fold extracting. apply post_mbind.
  eapply post_mono with (Q := λ r s' w' tr,
    r = Ok summary' ∧ s' = s ∧ w' = reached ∧
    (extracting = true →
       head tr = Some (Event (extractor_extract_and_save conversation))) ∧
    (extracting = false → tr = []) ∧
    Forall (λ e, saved_conversation e = None) tr).
  { subst summary' reached. destruct extracting.
    - eapply post_mono; [apply post_extract_learnings_summary|].
      intros r s' w' tr (-> & -> & -> & Hhead & Hquiet). done.
    - apply post_ret. repeat split; [done|constructor]. }
  intros r s1 w1 tr1 (-> & -> & -> & Hhead & Hnil & Hsaved1).
  apply post_mbind.
  eapply post_mono; [by apply post_end_conversation|].
  intros r s1 w2 tr2 (-> & -> & ->).
  apply post_mbind, post_get. cbn [set_short_term current_user].
  apply post_mbind.
  eapply post_mono with
    (Q := λ r s' _ tr, r = Ok tt ∧ s' = set_short_term s
             (mkShortTermMemory (max_messages (short_term s)) None []) ∧
           Forall (λ e, extractor_call e = false ∧ saved_conversation e = None) tr).
  { destruct (current_user s) as [user|].
    - eapply post_mono; [apply post_increment_conversation_count|].
      intros r s' w' tr (-> & -> & Htr). done.
    - apply post_ret. repeat split; constructor. }
  intros r s' w' tr3 (-> & -> & Htr3).
  apply post_mbind, post_get, post_put.
  split; [done|].
  assert (Hsaved3 : saved_conversations tr3 = []).
  { apply saved_conversations_none. eapply Forall_impl; [exact Htr3|].
    by intros e [_ ?]. }
  split; [|split].
  - unfold saved_conversations in *. rewrite !omap_app.
    fold (saved_conversations tr1). rewrite (saved_conversations_none tr1) by done.
    rewrite Hsaved3. done.
  - intros Hx. destruct tr1 as [|e tr1]; [by specialize (Hhead Hx)|].
    exact (Hhead Hx).
  - intros Hx. rewrite (Hnil Hx). simpl. repeat constructor.
    rewrite app_nil_r. eapply Forall_impl; [exact Htr3|]. by intros e [? _].
Qed.

End EndSessionMore.

(** X21. With a conversation open, [end_session] always returns
    normally, whatever the Extractor and the store answer, and clears the
    session: no conversation, an empty buffer, no user, no tools. The
    conversation is handed to the store exactly once: the same id, user,
    Alexa session, messages and start, with [ended_at] set to the clock
    reading taken after the calls to the Extractor, and with the summary.
    When learnings are extracted (flag set and at least 4 messages) the
    Extractor is called first, and the summary is the one it extracted,
    or the generated one when that is missing or empty, or none when
    [extract_and_save] fails; otherwise the summary is none and the
    Extractor is not called. *)
Theorem end_session_closes {W : Type}
    (answer : ∀ X, Call X → W → X * W) (extract_learnings : bool)
    (conversation : Conversation) (s : JarvisAgent) (w : W) :
  current_conversation (short_term s) = Some conversation →
  let extracting :=
    extract_learnings && (Py.len (messages conversation) >=? 4) in
  let ex := answer _ (extractor_extract_and_save conversation) w in
  let gen := answer _ (extractor_generate_summary conversation) ex.2 in
  let summary :=
    if extracting
    then match ex.1 with
         | Raise _ => None
         | Ok extracted =>
             match extracted_summary extracted with
             | Some (ch :: text) => Some (ch :: text)
             | falsy =>
                 match gen.1 with
                 | Ok generated => generated
                 | Raise _ => falsy
                 end
             end
         end
    else None in
  let reached :=
    if extracting
    then match ex.1 with
         | Raise _ => ex.2
         | Ok extracted =>
             match extracted_summary extracted with
             | Some (ch :: text) => ex.2
             | _ => gen.2
             end
         end
    else w in
  let now := (answer _ utcnow reached).1 in
  let o := run answer (end_session extract_learnings s) w in
  result o =
    (Ok tt,
     mkJarvisAgent (mkShortTermMemory (max_messages (short_term s)) None [])
                   None ∅ []) ∧
  saved_conversations (trace o) =
    [mkConversation (conv_id conversation) (conv_user_id conversation)
       (conv_alexa_session_id conversation) (messages conversation)
       (started_at conversation) (Some now) summary] ∧
  (extracting = true →
     head (trace o) = Some (Event (extractor_extract_and_save conversation))) ∧
  (extracting = false → Forall (λ e, extractor_call e = false) (trace o)).
Proof.
  intros Hconv extracting ex gen summary reached now o.
  pose proof (post_end_session_open answer extract_learnings conversation s w
                Hconv) as H.
  cbv zeta in H. fold extracting ex gen in H.
  unfold post in H. fold o in H. destruct H as (Hr & Hsaved & Hx).
  split; [by destruct (result o)|]. split; [|done].
  rewrite Hsaved. unfold closed. f_equal. subst now reached summary.
  destruct extracting; [|done]. unfold summary_after.
  destruct ex.1 as [extracted|e]; [|done].
  by destruct (extracted_summary extracted) as [[|ch text]|].
Qed.

Lemma end_session_closes_witness :
  let o := run Scenario.read_only (end_session true Scenario.long_agent) 0%nat in
  result o = (Ok tt, JarvisAgent_init default_settings) ∧
  head (trace o)
    = Some (Event (extractor_extract_and_save Scenario.long_conversation)).
Proof.
  destruct (end_session_closes Scenario.read_only true
              Scenario.long_conversation Scenario.long_agent 0%nat eq_refl)
    as (Hr & _ & Hhead & _).
  split; [exact Hr|exact (Hhead eq_refl)].
Defined.

(** X22. [save_progress] never raises. With no conversation open or an
    empty buffer it makes no call and changes nothing. Otherwise it hands
    the open conversation to the store once, as it is (not closed); the
    buffer is emptied when the store accepts it and kept when the store
    fails, and the conversation stays open either way. *)
Theorem save_progress_effect {W : Type}
    (answer : ∀ X, Call X → W → X * W) (s : JarvisAgent) (w : W) :
  let o := run answer (save_progress s) w in
  (result o).1 = Ok tt ∧
  current_conversation (short_term (result o).2)
    = current_conversation (short_term s) ∧
  match current_conversation (short_term s), _message_buffer (short_term s) with
  | Some conversation, _ :: _ =>
      let saved := answer _ (storage_save_conversation conversation) w in
      trace o = [Event (storage_save_conversation conversation)] ∧
      _message_buffer (short_term (result o).2) =
        match saved.1 with
        | Ok _ => []
        | Raise _ => _message_buffer (short_term s)
        end
  | _, _ => o = mkOutcome (Ok tt, s) w []
  end.
Proof.
  cbv zeta. unfold save_progress, mbind, try_except, call, get, put, ret.
  cbn [bind run result world trace fst snd].
  destruct (current_conversation (short_term s)) as [conversation|] eqn:Hconv;
    [|by rewrite ?Hconv].
  destruct (_message_buffer (short_term s)) as [|m buffer] eqn:Hbuf;
    [by rewrite ?Hconv, ?Hbuf|].
  cbn [bind run result world trace fst snd].
  destruct (answer _ (storage_save_conversation conversation) w) as [[u|e] w1];
    cbn; by rewrite ?Hconv, ?Hbuf.
Qed.

(** X27. [end_session] never raises, in any state of the agent and
    whatever the store and the Extractor answer, so the [except] clauses
    of the handlers that call it never fire. It leaves no conversation
    open, and it is idempotent: called again at once it makes no call and
    changes nothing. *)
Theorem end_session_total_and_idempotent {W : Type}
    (answer : ∀ X, Call X → W → X * W) (first again : bool)
    (s : JarvisAgent) (w : W) :
  let o := run answer (end_session first s) w in
  (result o).1 = Ok tt ∧
  current_conversation (short_term (result o).2) = None ∧
  run answer (end_session again (result o).2) (world o)
    = mkOutcome (Ok tt, (result o).2) (world o) [].
Proof.
  intros o.
  assert (H : (result o).1 = Ok tt ∧
              current_conversation (short_term (result o).2) = None).
  { destruct (current_conversation (short_term s)) as [conversation|] eqn:Hconv.
    - pose proof (post_end_session_open answer first conversation s w Hconv)
        as H.
      cbv zeta in H. unfold post in H. fold o in H.
      destruct H as ([= -> ->] & _). done.
    - subst o. unfold end_session, mbind, get. simpl. by rewrite Hconv. }
  destruct H as [Hok Hnone]. split; [done|]. split; [done|].
  unfold end_session, mbind, get. simpl. by rewrite Hnone.
Qed.

(** ** The calculator: validation of the expression *)

Section Validation.

Implicit Types (s old new : str) (c : Py.char).

Lemma elem_of_lstrip c s :
  c ∈ s → PyStr.isspace c = false → c ∈ Calculator.lstrip s.
Proof.
  intros Hin Hspace. induction s as [|d s IH]; [done|]. simpl.
  destruct (PyStr.isspace d) eqn:Hd; [|done].
  apply elem_of_cons in Hin as [->|Hin]; [congruence|by apply IH].
Qed.

Lemma elem_of_strip c s :
  c ∈ s → PyStr.isspace c = false → c ∈ Calculator.strip s.
Proof.
  intros Hin Hspace. unfold Calculator.strip.
  apply elem_of_reverse, elem_of_lstrip; [|done].
  by apply elem_of_reverse, elem_of_lstrip.
Qed.

Lemma starts_with_Some old s rest :
  Calculator.starts_with old s = Some rest → s = old ++ rest.
Proof.
  revert s. induction old as [|a old IH]; intros s; simpl.
  - by intros [= ->].
  - destruct s as [|b s]; [done|].
    destruct (N.eqb_spec a b) as [->|]; [|done].
    intros H. by rewrite (IH _ H).
Qed.

(** A character that is not part of the replaced word survives
    [str.replace]. *)
Lemma elem_of_replace_fuel fuel old new c s :
  c ∈ s → c ∉ old → c ∈ Calculator.replace_fuel fuel old new s.
Proof.
  intros Hin Hold. revert s Hin.
  induction fuel as [|fuel IH]; intros s Hin; [done|]. simpl.
  destruct (Calculator.starts_with old s) as [rest|] eqn:Hstart.
  - apply starts_with_Some in Hstart as ->.
    apply elem_of_app in Hin as [Hin|Hin]; [done|].
    apply elem_of_app. right. by apply IH.
  - destruct s as [|d s]; [done|].
    apply elem_of_cons in Hin as [->|Hin]; [by left|].
    right. by apply IH.
Qed.

Lemma elem_of_replace old new c s :
  c ∈ s → c ∉ old → c ∈ Calculator.replace old new s.
Proof. apply elem_of_replace_fuel. Qed.

(** The end-of-text check fails on a text holding a character outside the
    class. *)
Lemma end_rejects {R} c s groups (k : str → list str → option R) :
  c ∈ s → allowed c = false → Calculator.rmatch Calculator.End s groups k = None.
Proof.
  intros Hin Hc. destruct s as [|d [|e s]]; simpl; [by apply elem_of_nil in Hin| |done].
  apply elem_of_cons in Hin as [<-|Hin]; [|by apply elem_of_nil in Hin].
  destruct (N.eqb_spec c 10) as [->|]; [by vm_compute in Hc|done].
Qed.

Lemma star_rejects {R} c s groups (k : str → list str → option R) :
  c ∈ s → allowed c = false →
  (∀ s' groups', c ∈ s' → k s' groups' = None) →
  Calculator.rmatch (Calculator.Star (Calculator.Chr allowed)) s groups k = None.
Proof.
  intros Hin Hc Hk. cbn [Calculator.rmatch].
  generalize (length s) at 1. intros n. revert s groups Hin.
  induction n as [|n IH]; intros s groups Hin; [by apply Hk|].
  destruct s as [|d s]; [by apply elem_of_nil in Hin|].
  destruct (allowed d) eqn:Hd.
  - apply elem_of_cons in Hin as [->|Hin]; [congruence|].
    replace (length s <? length (d :: s))%nat with true
      by (symmetry; apply Nat.ltb_lt; simpl; lia).
    rewrite IH by done. apply Hk. by right.
  - by apply Hk.
Qed.

Lemma rmatch_Seq {R} r1 r2 s groups (k : str → list str → option R) :
  Calculator.rmatch (Calculator.Seq r1 r2) s groups k =
  Calculator.rmatch r1 s groups (λ s' groups', Calculator.rmatch r2 s' groups' k).
Proof. done. Qed.

Lemma rmatch_Chr {R} class d s groups (k : str → list str → option R) :
  Calculator.rmatch (Calculator.Chr class) (d :: s) groups k =
  if class d then k s groups else None.
Proof. done. Qed.

Lemma safe_pattern_rejects c s :
  c ∈ s → allowed c = false →
  Calculator.re_match Calculator.safe_pattern s = None.
Proof.
  intros Hin Hc. unfold Calculator.re_match, Calculator.safe_pattern,
    Calculator.Plus.
  destruct s as [|d s]; [done|].
  change (λ c0, _) with allowed.
  rewrite !rmatch_Seq, rmatch_Chr.
  destruct (allowed d) eqn:Hd; [|done].
  apply elem_of_cons in Hin as [->|Hin]; [congruence|].
  apply (star_rejects c); [done|done|].
  intros s' groups' Hin'. by apply (end_rejects c).
Qed.

Lemma lstrip_spaces s :
  Forall (λ c, PyStr.isspace c = true) s → Calculator.lstrip s = [].
Proof. induction 1 as [|c s Hc _ IH]; [done|]. simpl. by rewrite Hc. Qed.

Lemma lower_space c : PyStr.isspace c = true → PyStr.lower_char c = c.
Proof.
  unfold PyStr.isspace. intros Hc%bool_decide_eq_true.
  rewrite !elem_of_cons in Hc.
  repeat (destruct Hc as [->|Hc]; [done|]). by apply elem_of_nil in Hc.
Qed.

End Validation.

(** X24. The validation of [CalculatorTool.execute] stops unsafe text
    before [eval]: for an ASCII expression that is not of the percentage
    form, a single character outside digits, whitespace, letters, the
    underscore and [+-*/().,%] (other than [^], which is rewritten to
    [**]) makes the result the failure "Invalid characters in
    expression", wherever it stands and whatever surrounds it. *)
Theorem calculator_rejects_unsafe_character (expression : str) (c : Py.char) :
  Forall (λ d, (d < 128)%N) expression →
  c ∈ expression →
  allowed c = false →
  c ≠ Py.chr "^" →
  Calculator.re_match Calculator.percent_pattern
    (Calculator.strip (PyStr.lower expression)) = None →
  Calculator.execute expression =
    Some (mkToolResult false None
            (Some (Py.lit "Invalid characters in expression")) None).
Proof.
  intros Hascii Hin Hc Hcaret Hpercent.
  assert (Hc128 : (c < 128)%N) by (by eapply Forall_forall in Hascii).
  assert (Hlow : PyStr.lower_char c = c).
  { unfold PyStr.lower_char. destruct (_ && _) eqn:Hupper; [|done].
    unfold allowed, Calculator.word in Hc. rewrite Hupper in Hc.
    by rewrite !orb_true_r in Hc. }
  assert (Hspace : PyStr.isspace c = false).
  { unfold allowed in Hc. destruct (PyStr.isspace c); [|done].
    by rewrite !orb_true_r in Hc. }
  assert (Hexpr : c ∈ Calculator.strip (PyStr.lower expression)).
  { apply elem_of_strip; [|done]. rewrite <- Hlow. unfold PyStr.lower.
    change (map ?f ?l) with (f <$> l). by apply list_elem_of_fmap_2. }
  unfold Calculator.execute. rewrite Hpercent. cbv zeta.
  rewrite (safe_pattern_rejects c); [done| |done].
  repeat apply elem_of_replace; try done;
    intros Hold; vm_compute in Hold;
    repeat (apply elem_of_cons in Hold as [->|Hold];
            [first [by vm_compute in Hc | by apply Hcaret | lia]|]);
    by apply elem_of_nil in Hold.
Qed.

Lemma calculator_rejects_unsafe_character_witness :
  Calculator.execute (Py.lit "2 + 2; exit")
  = Some (mkToolResult false None
            (Some (Py.lit "Invalid characters in expression")) None).
Proof.
  apply (calculator_rejects_unsafe_character (Py.lit "2 + 2; exit")
           (Py.chr ";")).
  - apply (bool_decide_unpack _). by vm_compute.
  - apply (bool_decide_unpack _). by vm_compute.
  - by vm_compute.
  - by vm_compute.
  - by vm_compute.
Defined.

(** X25. An empty expression, or one made of whitespace only, is
    reported as "Invalid characters in expression": nothing is left after
    [strip], and the validation pattern needs at least one character. *)
Theorem calculator_blank_expression (expression : str) :
  Forall (λ c, PyStr.isspace c = true) expression →
  Calculator.execute expression =
    Some (mkToolResult false None
            (Some (Py.lit "Invalid characters in expression")) None).
Proof.
  intros Hblank.
  assert (Hlow : PyStr.lower expression = expression).
  { unfold PyStr.lower. induction Hblank as [|c s Hc _ IH]; [done|].
    simpl. by rewrite IH, lower_space. }
  assert (Hstrip : Calculator.strip (PyStr.lower expression) = []).
  { rewrite Hlow. unfold Calculator.strip.
    by rewrite (lstrip_spaces expression). }
  unfold Calculator.execute. rewrite Hstrip. by vm_compute.
Qed.

Lemma calculator_blank_expression_witness :
  Calculator.execute (Py.lit "   ")
  = Some (mkToolResult false None
            (Some (Py.lit "Invalid characters in expression")) None).
Proof.
  apply calculator_blank_expression. repeat constructor.
Defined.

(** ** The conversational handler *)

Section HandlerRuns.

Context {W : Type} (answer : ∀ X, Call X → W → X * W).
Context (settings : Settings) (loads : str → option json) (dumps : json → str).
Context (BASE : str) (WITH_CONTEXT : str → str → str).

(** A session that starts leaves a user set. *)
Lemma post_start_session_user user_id alexa_session_id s w :
  post answer (start_session settings user_id alexa_session_id) s w
    (λ r s' _ _, match r with
                 | Ok user => current_user s' = Some user
                 | Raise _ => True
                 end).
Proof.
  unfold start_session. apply post_mbind, post_ask, post_mbind.
  eapply post_mono with (Q := λ _ _ _ _, True).
  { destruct (answer _ (storage_get_user _) w).1; [by apply post_ret|].
    by apply post_call. }
  intros [user|e] s1 w1 tr1 _; [|done].
  apply post_mbind, post_get, post_mbind, post_put, post_mbind.
  unfold start_conversation, create_conversation.
  apply post_mbind, post_mbind, post_call.
  destruct (answer _ (storage_insert_conversation _ _) w1).1 as [row|e]; [|done].
  apply post_ret, post_mbind, post_get, post_mbind, post_put, post_ret.
  by apply post_mbind, post_get, post_mbind, post_put, post_ret.
Qed.

(** Guarding a turn that has a user changes nothing. *)
Lemma exec_guarded_process on_error user_input user s w :
  current_user s = Some user →
  run answer (try_except (process settings loads dumps BASE WITH_CONTEXT user_input)
                         on_error s) w
  = run answer (process settings loads dumps BASE WITH_CONTEXT user_input s) w.
Proof.
  intros Huser. rewrite exec_try_except. cbv zeta.
  destruct (post_process_active answer settings loads dumps BASE WITH_CONTEXT
              user_input user s w Huser) as [reply Hr].
  rewrite Hr. rewrite (outcome_eta (run answer _ w)) at 4. by rewrite Hr.
Qed.

(** The run of the handler on the agent, whatever its [except] clause
    does. *)
Lemma exec_serve_with on_error session user_input s w :
  let starting :=
    from_option session_new true session
    || negb (bool_decide (is_Some (current_user s))) in
  let user_id := match session with
                 | Some (mkSession _ (Some user_id) _) => user_id
                 | _ => Some (default_user_id settings)
                 end in
  let start := run answer (start_session settings user_id
                             (session ≫= session_id) s) w in
  let finish (pre : list event) (turn : outcome (res str * JarvisAgent)) :=
    mkOutcome (match (result turn).1 with
               | Ok reply => Ok (reply, Py.lit "Anything else?")
               | Raise e => Raise e
               end, (result turn).2) (world turn) (pre ++ trace turn) in
  let process' := process settings loads dumps BASE WITH_CONTEXT user_input in
  (run answer (CatchAllIntentHandler_serve_with settings loads dumps BASE
                 WITH_CONTEXT on_error session user_input s) w =
   if starting
   then match (result start).1 with
        | Ok _ => finish (trace start)
                         (run answer (process' (result start).2) (world start))
        | Raise e => mkOutcome (Raise e, (result start).2) (world start)
                               (trace start)
        end
   else finish [] (run answer (process' s) w)) ∧
  (starting = false ∨ (∃ user, (result start).1 = Ok user) →
   ∃ reply,
     (result (if starting
              then run answer (process' (result start).2) (world start)
              else run answer (process' s) w)).1 = Ok reply).
Proof.
  cbv zeta. split.
  - unfold CatchAllIntentHandler_serve_with.
    rewrite (exec_mbind answer get). cbn [get run result world trace fst snd].
    destruct (_ || _) eqn:Hstarting.
    + rewrite exec_mbind. cbv zeta. rewrite exec_mbind. cbv zeta.
      pose proof (post_start_session_user
                    (match session with
                     | Some (mkSession _ (Some user_id) _) => user_id
                     | _ => Some (default_user_id settings)
                     end) (session ≫= session_id) s w) as Hstart.
      unfold post in Hstart.
      destruct (result (run answer (start_session _ _ _ s) w)).1 as [user|e];
        [|done].
      cbn [ret run result world trace fst snd].
      rewrite exec_mbind. cbv zeta.
      rewrite (exec_guarded_process _ _ user) by done.
      rewrite app_nil_r. cbn [app].
      destruct (result (run answer (process _ _ _ _ _ _ _) _)).1;
        cbn [ret run result world trace fst snd]; by rewrite ?app_nil_r.
    + apply orb_false_iff in Hstarting as [_ Huser].
      apply negb_false_iff, bool_decide_eq_true in Huser as [user Huser].
      rewrite exec_mbind. cbv zeta. cbn [ret run result world trace fst snd].
      rewrite exec_mbind. cbv zeta.
      rewrite (exec_guarded_process _ _ user) by done.
      cbn [app].
      destruct (result (run answer (process _ _ _ _ _ _ _) _)).1;
        cbn [ret run result world trace fst snd]; by rewrite ?app_nil_r.
  - destruct (_ || _) eqn:Hstarting.
    + intros [|[user Hok]]; [done|].
      pose proof (post_start_session_user
                    (match session with
                     | Some (mkSession _ (Some user_id) _) => user_id
                     | _ => Some (default_user_id settings)
                     end) (session ≫= session_id) s w) as Hstart.
      unfold post in Hstart. rewrite Hok in Hstart.
      by apply (post_process_active answer settings loads dumps BASE
                  WITH_CONTEXT _ user).
    + intros _. apply orb_false_iff in Hstarting as [_ Huser].
      apply negb_false_iff, bool_decide_eq_true in Huser as [user Huser].
      by apply (post_process_active answer settings loads dumps BASE
                  WITH_CONTEXT _ user).
Qed.

(** The run of the handler once it holds the agent. *)
Lemma exec_served on_error session user_input agent w :
  let starting :=
    from_option session_new true session
    || negb (bool_decide (is_Some (current_user agent))) in
  let user_id := match session with
                 | Some (mkSession _ (Some user_id) _) => user_id
                 | _ => Some (default_user_id settings)
                 end in
  let start := run answer (start_session settings user_id
                             (session ≫= session_id) agent) w in
  let process' := process settings loads dumps BASE WITH_CONTEXT user_input in
  let replied (pre : list event) (turn : outcome (res str * JarvisAgent)) :=
    match (result turn).1 with
    | Ok reply =>
        mkOutcome (Ok (reply, Py.lit "Anything else?"), Some (result turn).2)
                  (world turn) (pre ++ trace turn)
    | Raise e => mkOutcome (Raise e, Some (result turn).2) (world turn)
                           (pre ++ trace turn)
    end in
  (run answer
     (bind (CatchAllIntentHandler_serve_with settings loads dumps BASE
              WITH_CONTEXT on_error session user_input agent)
           (λ rs, Ret (rs.1, Some rs.2))) w =
   if starting
   then match (result start).1 with
        | Ok _ => replied (trace start)
                    (run answer (process' (result start).2) (world start))
        | Raise e => mkOutcome (Raise e, Some (result start).2) (world start)
                               (trace start)
        end
   else replied [] (run answer (process' agent) w)) ∧
  (starting = false ∨ (∃ user, (result start).1 = Ok user) →
   ∃ reply,
     (result (if starting
              then run answer (process' (result start).2) (world start)
              else run answer (process' agent) w)).1 = Ok reply).
Proof.
  cbv zeta.
  destruct (exec_serve_with on_error session user_input agent w) as [Hrun Hturn].
  cbv zeta in Hrun, Hturn. split; [|exact Hturn].
  rewrite run_bind. cbv zeta. rewrite Hrun. clear Hrun Hturn.
  destruct (_ || _).
  - destruct (result (run answer (start_session _ _ _ agent) w)).1 as [user|e].
    + cbn [result world trace fst snd run].
      destruct (result (run answer (process _ _ _ _ _ _ _) _)).1;
        by rewrite app_nil_r.
    + cbn [result world trace fst snd run]. by rewrite app_nil_r.
  - cbn [result world trace fst snd run app].
    destruct (result (run answer (process _ _ _ _ _ _ _) _)).1;
      by rewrite app_nil_r.
Qed.

(** The handler on a non-empty utterance: [get_agent], then the run on
    the agent. *)
Lemma exec_handle_with on_error required clients session utterance _agent w :
  or_else utterance [] ≠ [] →
  let served agent :=
    run answer
      (bind (CatchAllIntentHandler_serve_with settings loads dumps BASE
               WITH_CONTEXT on_error session (or_else utterance []) agent)
            (λ rs, Ret (rs.1, Some rs.2))) w in
  run answer (CatchAllIntentHandler_handle_with settings loads dumps BASE
                WITH_CONTEXT on_error required clients session utterance
                _agent) w =
  match _agent with
  | Some agent => served agent
  | None =>
      match Settings_validate required, clients with
      | Raise e, _ => mkOutcome (Raise e, None) w []
      | Ok _, Raise e => mkOutcome (Raise e, None) w []
      | Ok _, Ok _ => served (JarvisAgent_init settings)
      end
  end.
Proof.
  intros Hinput. cbv zeta. unfold CatchAllIntentHandler_handle_with.
  destruct (or_else utterance []) as [|ch text]; [done|].
  cbn [truthy_str negb]. unfold get_agent, JarvisAgent_new.
  destruct _agent as [agent|]; [done|].
  destruct (Settings_validate required) as [valid|e]; [|done].
  by destruct clients as [[]|e].
Qed.

End HandlerRuns.

(** X26. [CatchAllIntentHandler.handle] answers a missing or empty
    utterance with "I didn't catch that. What would you like?" without
    asking for the agent. Otherwise it calls [get_agent], which builds the
    agent when there is none, starts a session when the Alexa session is
    new or the agent has no user, and then processes the utterance. The
    [except] clause around [process] never fires: whatever handler is put
    there the run is the same, so the reply "Sorry, I had trouble
    processing that. Please try again." is never produced by a fault. The
    handler raises in exactly two cases: the agent had to be built and
    could not be (a required setting is missing, or a client cannot be
    built), and then no call is made and no agent is kept; or
    [start_session] was called and raised. In every other case it returns
    the reply of the turn with "Anything else?". *)
Theorem catch_all_handler_guard_is_dead {W : Type}
    (answer : ∀ X, Call X → W → X * W) (settings : Settings)
    (loads : str → option json) (dumps : json → str)
    (BASE : str) (WITH_CONTEXT : str → str → str)
    (required : Credentials) (clients : res unit)
    (session : option Session) (utterance : option str)
    (_agent : option JarvisAgent) (w : W) :
  let handle :=
    CatchAllIntentHandler_handle settings loads dumps BASE WITH_CONTEXT
                                 required clients in
  let o := run answer (handle session utterance _agent) w in
  let user_input := or_else utterance [] in
  let user_id := match session with
                 | Some (mkSession _ (Some user_id) _) => user_id
                 | _ => Some (default_user_id settings)
                 end in
  let process' := process settings loads dumps BASE WITH_CONTEXT user_input in
  let replied (pre : list event) (turn : outcome (res str * JarvisAgent)) :=
    ∃ reply,
      (result turn).1 = Ok reply ∧
      o = mkOutcome (Ok (reply, Py.lit "Anything else?"), Some (result turn).2)
                    (world turn) (pre ++ trace turn) in
  let served (agent : JarvisAgent) :=
    let start := run answer (start_session settings user_id
                               (session ≫= session_id) agent) w in
    if from_option session_new true session
       || negb (bool_decide (is_Some (current_user agent)))
    then match (result start).1 with
         | Raise e =>
             o = mkOutcome (Raise e, Some (result start).2) (world start)
                           (trace start)
         | Ok _ =>
             replied (trace start)
                     (run answer (process' (result start).2) (world start))
         end
    else replied [] (run answer (process' agent) w) in
  (user_input = [] →
     o = mkOutcome
           (Ok (Py.lit "I didn't catch that. What would you like?",
                Py.lit "You can ask me about weather, set reminders, or manage your grocery list."),
            _agent) w []) ∧
  (∀ on_error : str → M str,
     run answer (CatchAllIntentHandler_handle_with settings loads dumps BASE
                   WITH_CONTEXT on_error required clients session utterance
                   _agent) w = o) ∧
  (user_input ≠ [] →
     match _agent with
     | Some agent => served agent
     | None =>
         match Settings_validate required, clients with
         | Raise e, _ => o = mkOutcome (Raise e, None) w []
         | Ok _, Raise e => o = mkOutcome (Raise e, None) w []
         | Ok _, Ok _ => served (JarvisAgent_init settings)
         end
     end).
Proof.
  intros handle o user_input user_id process' replied served.
  assert (Hserved : ∀ on_error agent,
    user_input ≠ [] →
    run answer
      (bind (CatchAllIntentHandler_serve_with settings loads dumps BASE
               WITH_CONTEXT on_error session user_input agent)
            (λ rs, Ret (rs.1, Some rs.2))) w =
    run answer
      (bind (CatchAllIntentHandler_serve_with settings loads dumps BASE
               WITH_CONTEXT
               (λ _, ret (Py.lit
                  "Sorry, I had trouble processing that. Please try again."))
               session user_input agent)
            (λ rs, Ret (rs.1, Some rs.2))) w).
  { intros on_error agent _.
    destruct (exec_served answer settings loads dumps BASE WITH_CONTEXT
                on_error session user_input agent w) as [-> _].
    by destruct (exec_served answer settings loads dumps BASE WITH_CONTEXT
                   (λ _, ret (Py.lit
                      "Sorry, I had trouble processing that. Please try again."))
                   session user_input agent w) as [-> _]. }
  assert (Hagent : ∀ agent,
    user_input ≠ [] →
    o = run answer
          (bind (CatchAllIntentHandler_serve_with settings loads dumps BASE
                   WITH_CONTEXT
                   (λ _, ret (Py.lit
                      "Sorry, I had trouble processing that. Please try again."))
                   session user_input agent)
                (λ rs, Ret (rs.1, Some rs.2))) w →
    served agent).
  { intros agent _ Ho.
    destruct (exec_served answer settings loads dumps BASE WITH_CONTEXT
                (λ _, ret (Py.lit
                   "Sorry, I had trouble processing that. Please try again."))
                session user_input agent w) as [Hrun Hturn].
    cbv zeta in Hrun, Hturn. rewrite Hrun in Ho. clear Hrun.
    subst served replied. cbv beta zeta. fold user_id in Ho, Hturn.
    fold process' in Ho, Hturn.
    destruct (_ || _).
    - destruct (result (run answer (start_session _ _ _ agent) w)).1
        as [user|e]; [|exact Ho].
      destruct Hturn as [reply Hr]; [by eauto|].
      exists reply. split; [exact Hr|]. by rewrite Hr in Ho.
    - destruct Hturn as [reply Hr]; [by left|].
      exists reply. split; [exact Hr|]. by rewrite Hr in Ho. }
  split; [|split].
  - intros Hempty. subst o handle. unfold user_input in Hempty.
    unfold CatchAllIntentHandler_handle, CatchAllIntentHandler_handle_with.
    by rewrite Hempty.
  - intros on_error. subst o handle. unfold CatchAllIntentHandler_handle.
    destruct (decide (or_else utterance [] = [])) as [Hempty|Hinput].
    + unfold CatchAllIntentHandler_handle_with. by rewrite Hempty.
    + rewrite !exec_handle_with by done. cbv zeta.
      destruct _agent as [agent|]; [by apply Hserved|].
      destruct (Settings_validate required) as [valid|e]; [|done].
      destruct clients as [[]|e]; [|done]. by apply Hserved.
  - intros Hinput.
    assert (Ho : o = run answer (handle session utterance _agent) w) by done.
    unfold handle, CatchAllIntentHandler_handle in Ho.
    rewrite exec_handle_with in Ho by done. cbv zeta in Ho.
    destruct _agent as [agent|]; [by apply Hagent|].
    destruct (Settings_validate required) as [valid|e]; [|done].
    destruct clients as [[]|e]; [|done]. by apply Hagent.
Qed.

Lemma catch_all_handler_guard_is_dead_witness :
  run Sample.answer
      (CatchAllIntentHandler_handle default_settings Sample.json_loads
         Sample.json_dumps (Py.lit "You are Jarvis.")
         (λ base context, base ++ context) Scenario.no_openai_key (Ok tt)
         None (Some (Py.lit "hi")) None) 0%nat
  = mkOutcome
      (Raise (Py.lit "OPENAI_API_KEY environment variable is required"), None)
      0%nat [].
Proof.
  exact (proj2 (proj2
           (catch_all_handler_guard_is_dead Sample.answer default_settings
              Sample.json_loads Sample.json_dumps (Py.lit "You are Jarvis.")
              (λ base context, base ++ context) Scenario.no_openai_key (Ok tt)
              None (Some (Py.lit "hi")) None 0%nat))
           ltac:(done)).
Defined.

(** ** The user context of the system prompt *)

(** X28. The preferences section of [build_user_context] is left out
    when no category holds an entry, and otherwise is the header followed
    by the first 11 preference lines in iteration order: the slice
    [pref_lines[:12]] counts the header, so it lets through one line more
    than the 10 its comment names. The facts section lists the first 10
    facts in the order given, each marked "[IMPORTANT] " exactly when its
    importance is high or critical, under its header, and nothing else;
    the summaries section is its header followed by the first 3 summaries
    in the order given, unchanged. Either section is left out when its
    list is empty. *)
Theorem user_context_sections (preferences : list (str * list (str * str)))
    (facts : list UserFact) (conversation_summaries : list str) :
  preferences_section preferences =
    match preference_lines preferences with
    | [] => []
    | lines => Py.lit (newline ++ "USER PREFERENCES:") :: take 11 lines
    end ∧
  (11 <= length (preference_lines preferences) →
   length (preferences_section preferences) = 12)%nat ∧
  (length (facts_section facts) <= 11)%nat ∧
  (∀ i f, (i < 10)%nat → facts !! i = Some f →
     facts_section facts !! S i =
       Some ((if bool_decide (importance f = HIGH ∨ importance f = CRITICAL)
              then Py.lit "[IMPORTANT] " else []) ++ fact f)) ∧
  (length (summaries_section conversation_summaries) <= 4)%nat ∧
  facts_section facts =
    match facts with
    | [] => []
    | _ =>
        Py.lit (newline ++ "THINGS YOU KNOW ABOUT THIS USER:")
        :: map (λ f, (if bool_decide (importance f = HIGH ∨
                                      importance f = CRITICAL)
                      then Py.lit "[IMPORTANT] " else []) ++ fact f)
               (take 10 facts)
    end ∧
  summaries_section conversation_summaries =
    match conversation_summaries with
    | [] => []
    | _ =>
        Py.lit (newline ++ "RECENT CONVERSATIONS:")
        :: take 3 conversation_summaries
    end.
Proof.
  assert (Hpref : preferences_section preferences =
            match preference_lines preferences with
            | [] => []
            | lines => Py.lit (newline ++ "USER PREFERENCES:") :: take 11 lines
            end).
  { unfold preferences_section. destruct preferences as [|cp preferences];
      [done|].
    generalize (preference_lines (cp :: preferences)). intros lines.
    cbv zeta. rewrite slice_to_take by done. unfold Py.len.
    destruct lines as [|line lines]; [done|].
    destruct (Z.gtb_spec (Z.of_nat (length ([Py.lit (newline ++ "USER PREFERENCES:")]
                                            ++ line :: lines))) 1) as [_|Hle];
      [done|]. simpl in Hle. lia. }
  split; [done|]. split; [|split; [|split; [|split; [|split]]]].
  - rewrite Hpref. destruct (preference_lines preferences) as [|line lines];
      [simpl; lia|].
    intros Hlen. cbn [length]. rewrite length_take. lia.
  - unfold facts_section. destruct facts as [|f facts]; [simpl; lia|].
    rewrite slice_to_take by done. rewrite length_app, length_map, length_take.
    cbn [length]. lia.
  - intros i f Hi Hf. unfold facts_section.
    destruct facts as [|f0 facts]; [done|].
    rewrite slice_to_take by done. cbn [app].
    change ((?h :: ?l) !! S i) with (l !! i).
    change (map ?g ?l) with (g <$> l).
    rewrite list_lookup_fmap, lookup_take_lt by (simpl; lia).
    rewrite Hf. simpl. f_equal. f_equal. unfold importance_marker.
    destruct (importance f); by vm_compute.
  - unfold summaries_section.
    destruct conversation_summaries as [|su rest]; [simpl; lia|].
    rewrite slice_to_take by done. rewrite length_app, length_take.
    cbn [length]. lia.
  - unfold facts_section. destruct facts as [|f0 facts]; [done|].
    rewrite slice_to_take by done. cbn [app]. f_equal.
    apply map_ext. intros f. f_equal. unfold importance_marker.
    destruct (importance f); by vm_compute.
  - unfold summaries_section.
    destruct conversation_summaries as [|su rest]; [done|].
    by rewrite slice_to_take.
Qed.

Lemma user_context_sections_witness :
  length (preferences_section
            [(Py.lit "food",
              (λ k, ([N.of_nat (97 + k)], Py.lit "yes")) <$> seq 0 15)]) = 12%nat.
Proof.
  apply (proj1 (proj2 (user_context_sections
           [(Py.lit "food",
             (λ k, ([N.of_nat (97 + k)], Py.lit "yes")) <$> seq 0 15)]
           [] []))).
  simpl. lia.
Defined.
